(** * Tracking-data and trip-data pipelines: a shallow embedding

    Embeds [src/process_data.py] (penguin tracking records: load, impute,
    derive features, one-hot encode, normalise) and [src/merge_parquet.py]
    (trip records: merge and filter).

    Tables are pandas data frames: an ordered list of named, typed columns
    over a common row index.  Exceptions are values of [Result].  The one
    object the code updates in place, [df_processed], lives in a store of
    objects addressed by identity, so that copying and aliasing are visible.
    Floating-point arithmetic and the numeric library routines are an
    interface ([Float64]); everything else computes. *)

From Stdlib Require Import ZArith String Ascii List Bool Lia.
From stdpp Require Import base option list sorting strings gmap pretty.

Open Scope string_scope.
Open Scope list_scope.

(** ** Exceptions *)

Inductive Exception :=
| KeyError | ValueError | AttributeError | TypeError | OverflowError
| FileNotFoundError.

Inductive Result (A : Type) :=
| Ok (a : A)
| Raise (e : Exception).
Arguments Ok {A} a.
Arguments Raise {A} e.

Definition bind {A B} (r : Result A) (k : A -> Result B) : Result B :=
  match r with
  | Ok a => k a
  | Raise e => Raise e
  end.

Notation "x <- r ;; k" := (bind r (fun x => k))
  (at level 100, r at next level, right associativity).

Fixpoint traverse {A B} (f : A -> Result B) (l : list A) : Result (list B) :=
  match l with
  | [] => Ok []
  | x :: l' => y <- f x ;; ys <- traverse f l' ;; Ok (y :: ys)
  end.

Definition is_ok {A} (r : Result A) : bool :=
  match r with Ok _ => true | Raise _ => false end.

(** ** Strings *)

Definition is_digit (a : ascii) : bool :=
  (48 <=? nat_of_ascii a)%nat && (nat_of_ascii a <=? 57)%nat.

Definition digit_val (a : ascii) : Z := Z.of_nat (nat_of_ascii a) - 48.

Fixpoint all_digits (s : string) : bool :=
  match s with
  | EmptyString => true
  | String a s' => is_digit a && all_digits s'
  end.

Fixpoint digits_val (acc : Z) (s : string) : Z :=
  match s with
  | EmptyString => acc
  | String a s' => digits_val (10 * acc + digit_val a) s'
  end.

(** [s.split(sep)] with an explicit separator: the empty string gives one
    empty piece. *)
Fixpoint split_on (sep : ascii) (s : string) : list string :=
  match s with
  | EmptyString => [EmptyString]
  | String a s' =>
      if Ascii.eqb a sep then EmptyString :: split_on sep s'
      else match split_on sep s' with
           | p :: ps => String a p :: ps
           | [] => [String a EmptyString]
           end
  end.

Definition digit_char (d : Z) : ascii := ascii_of_nat (Z.to_nat (48 + d mod 10)).

(** Decimal digits of [z], exactly [n] of them (zero padded, high digits
    dropped). *)
Fixpoint pad_digits (n : nat) (z : Z) (acc : string) : string :=
  match n with
  | O => acc
  | S n' => pad_digits n' (z / 10) (String (digit_char z) acc)
  end.

(** ** Timestamps *)

Record Timestamp := mkTimestamp {
  year : Z; month : Z; day : Z; hour : Z; minute : Z; second : Z
}.

Definition is_leap (y : Z) : bool :=
  ((y mod 4 =? 0) && negb (y mod 100 =? 0) || (y mod 400 =? 0))%Z.

Definition days_in_month (y m : Z) : Z :=
  if (m =? 2)%Z then (if is_leap y then 29 else 28)
  else if ((m =? 4) || (m =? 6) || (m =? 9) || (m =? 11))%Z then 30
  else 31.

Definition valid_date (y m d : Z) : bool :=
  ((1 <=? y) && (y <=? 9999) && (1 <=? m) && (m <=? 12)
   && (1 <=? d) && (d <=? days_in_month y m))%Z.

Definition valid_time (h mi s : Z) : bool :=
  ((0 <=? h) && (h <=? 23) && (0 <=? mi) && (mi <=? 59)
   && (0 <=? s) && (s <=? 59))%Z.

(** Calendar fields packed into one number, most significant first. *)
Definition ts_key (t : Timestamp) : Z :=
  (((((year t * 100 + month t) * 100 + day t) * 100 + hour t) * 100
    + minute t) * 100 + second t)%Z.

(** The range of a nanosecond timestamp in a signed 64-bit integer:
    1677-09-21 00:12:43.145... to 2262-04-11 23:47:16.854..., in whole
    seconds. *)
Definition in_bounds (t : Timestamp) : bool :=
  ((16770921001244 <=? ts_key t) && (ts_key t <=? 22620411234716))%Z.

(** [pd.Timestamp(year=, month=, day=, hour=, minute=, second=)]: raises
    [ValueError] on a field out of range or a value out of bounds. *)
Definition new_Timestamp (y m d h mi s : Z) : Result Timestamp :=
  let t := mkTimestamp y m d h mi s in
  if valid_date y m d && valid_time h mi s && in_bounds t then Ok t
  else Raise ValueError.

(** The directive [%d]: [3[0-1]|[1-2]\d|0[1-9]|[1-9]| [1-9]]. *)
Definition match_day (s : string) : option Z :=
  match s with
  | String a EmptyString =>
      if is_digit a && negb (Ascii.eqb a "0") then Some (digit_val a) else None
  | String a (String b EmptyString) =>
      if Ascii.eqb a " " then
        if is_digit b && negb (Ascii.eqb b "0") then Some (digit_val b) else None
      else if is_digit a && is_digit b then
        let v := (10 * digit_val a + digit_val b)%Z in
        if ((1 <=? v) && (v <=? 31))%Z then Some v else None
      else None
  | _ => None
  end.

(** The directive [%m]: [1[0-2]|0[1-9]|[1-9]]. *)
Definition match_month (s : string) : option Z :=
  match s with
  | String a EmptyString =>
      if is_digit a && negb (Ascii.eqb a "0") then Some (digit_val a) else None
  | String a (String b EmptyString) =>
      if is_digit a && is_digit b then
        let v := (10 * digit_val a + digit_val b)%Z in
        if ((1 <=? v) && (v <=? 12))%Z then Some v else None
      else None
  | _ => None
  end.

(** The directive [%Y]: exactly four digits. *)
Definition match_year (s : string) : option Z :=
  if (String.length s =? 4)%nat && all_digits s then Some (digits_val 0 s)
  else None.

(** Parsing one date string against the format ['%d/%m/%Y'], the whole
    string being consumed.  [None] is what [errors='coerce'] turns into
    [NaT]: no match, an impossible calendar date, or a date out of bounds. *)
Definition strptime_dmy (s : string) : option Timestamp :=
  match split_on "/" s with
  | [sd; sm; sy] =>
      match match_day sd, match_month sm, match_year sy with
      | Some d, Some m, Some y =>
          let t := mkTimestamp y m d 0 0 0 in
          if valid_date y m d && in_bounds t then Some t else None
      | _, _, _ => None
      end
  | _ => None
  end.

(** [str(t)] for a timestamp without a fractional part. *)
Definition timestamp_str (t : Timestamp) : string :=
  pad_digits 4 (year t)
    ("-" +:+ pad_digits 2 (month t)
       ("-" +:+ pad_digits 2 (day t)
          (" " +:+ pad_digits 2 (hour t)
             (":" +:+ pad_digits 2 (minute t)
                (":" +:+ pad_digits 2 (second t) ""))))).

Definition ts_fields (t : Timestamp) : list Z :=
  [year t; month t; day t; hour t; minute t; second t].

(** Lexicographic order on field lists of equal length. *)
Fixpoint lex_le (xs ys : list Z) : Prop :=
  match xs, ys with
  | x :: xs', y :: ys' => (x < y)%Z \/ (x = y /\ lex_le xs' ys')
  | _, _ => True
  end.

Definition ts_le (a b : Timestamp) : Prop := lex_le (ts_fields a) (ts_fields b).

(** ** Values held in a column

    What the pipeline needs of a column's element type: equality (counting
    occurrences), the order used when values are sorted, and [str] (naming
    indicator columns). *)

Class Dtype (A : Type) := {
  dt_eq_dec :: EqDecision A;
  dt_le : relation A;
  dt_le_dec :: RelDecision dt_le;
  dt_str : A -> string;
}.

(** ** Floating point

    [F] stands for the 64-bit floats other than NaN; a missing number is
    [None].  The arithmetic itself and the routines of the numeric libraries
    are operations of this interface. *)

Class Float64 (F : Type) := {
  F_eq_dec :: EqDecision F;
  F_le : relation F;
  F_le_dec :: RelDecision F_le;
  (** the literal [m] times ten to the minus [e] *)
  of_decimal : Z -> nat -> F;
  (** neither infinity *)
  is_finite : F -> bool;
  (** [float(s)]: [None] when it raises [ValueError], [Some None] for NaN *)
  float_of_str : string -> option (option F);
  (** one string under [pd.to_numeric(errors='coerce')] *)
  to_numeric_str : string -> option F;
  (** [str(x)] *)
  float_str : F -> string;
  (** [int(x)]: truncation; [None] when it raises [OverflowError] *)
  int_of_float : F -> option Z;
  (** the integer equal to [x], the key under which a dict finds [x] *)
  int_key : F -> option Z;
  (** a [datetime64] value viewed as a 64-bit integer *)
  ns_of_timestamp : option Timestamp -> F;
  (** [geodesic(p, q).kilometers]; [None] when geopy raises [ValueError] *)
  geodesic_km : F * F -> F * F -> option F;
  (** [KNNImputer(n_neighbors=5)]: the value imputed for row [i] of the
      first ([false]) or second ([true]) column of the fitted array *)
  knn_estimate : list (option F * option F) -> nat -> bool -> F;
  (** [StandardScaler]: fitted mean and scale, and [(x - mean) / scale] *)
  col_mean : list F -> F;
  col_scale : list F -> F;
  standardize : F -> F -> F -> F;
}.

(** The order of a dtype is total: what sorting relies on. *)
Class DtypeOrder (A : Type) `{Dtype A} : Prop := {
  dt_le_trans :: Transitive (dt_le (A:=A));
  dt_le_total :: Total (dt_le (A:=A));
}.

Class Float64Laws {F : Type} (fl : Float64 F) : Prop := {
  F_le_trans :: Transitive (F_le (Float64:=fl));
  F_le_total :: Total (F_le (Float64:=fl));
}.

Section Frames.
Context {F : Type} {fl : Float64 F}.

Definition fzero : F := of_decimal 0 0.
Definition of_Z (z : Z) : F := of_decimal z 0.
Definition of_bool (b : bool) : F := of_decimal (if b then 1 else 0) 0.

(** [x > 0] *)
Definition gt_zero (x : F) : bool := negb (bool_decide (F_le x fzero)).

(** Koordinaten der Copacabana-Kolonie *)
Definition COLONY_LATITUDE : F := of_decimal (-6221) 2.
Definition COLONY_LONGITUDE : F := of_decimal (-5842) 2.

#[export] Instance string_dtype : Dtype string :=
  {| dt_le := String.le; dt_str := fun s => s |}.

#[export] Instance ts_eq_dec : EqDecision Timestamp.
Proof. solve_decision. Defined.

#[export] Instance lex_le_dec xs ys : Decision (lex_le xs ys).
Proof.
  revert ys; induction xs as [|x xs IH]; intros [|y ys]; simpl;
    try (left; exact I).
  destruct (decide (x < y)%Z); [left; auto|].
  destruct (decide (x = y)); [|right; intros [?|[? _]]; contradiction].
  destruct (IH ys); [left; auto|right; intros [?|[_ ?]]; contradiction].
Defined.

#[export] Instance ts_le_dec : RelDecision ts_le.
Proof. intros a b. unfold ts_le. apply _. Defined.

#[export] Instance timestamp_dtype : Dtype Timestamp :=
  {| dt_le := ts_le; dt_str := timestamp_str |}.

Definition bool_le (a b : bool) : Prop := a = false \/ b = true.

#[export] Instance bool_le_dec : RelDecision bool_le.
Proof. intros a b. unfold bool_le. apply _. Defined.

#[export] Instance bool_dtype : Dtype bool :=
  {| dt_le := bool_le; dt_str := fun b => if b then "True" else "False" |}.

#[export] Instance float_dtype : Dtype F :=
  {| dt_le := F_le; dt_str := float_str |}.

(** ** Columns and tables *)

(** A scalar as a row of a table shows it. *)
Inductive Cell :=
| CNa
| CStr (s : string)
| CNum (x : F)
| CTime (t : Timestamp)
| CBool (b : bool).

(** A column by dtype: [object] holding strings, [float64] (integer columns
    included), [datetime64], [bool].  [None] is the missing value (NaN, None,
    NaT); a [bool] column has none. *)
Inductive Column :=
| ObjCol (xs : list (option string))
| NumCol (xs : list (option F))
| TimeCol (xs : list (option Timestamp))
| BoolCol (xs : list bool).

Definition col_len (c : Column) : nat :=
  match c with
  | ObjCol xs => length xs
  | NumCol xs => length xs
  | TimeCol xs => length xs
  | BoolCol xs => length xs
  end.

Definition to_cell {A} (inj : A -> Cell) (o : option A) : Cell :=
  match o with Some a => inj a | None => CNa end.

Definition cells_of (c : Column) : list Cell :=
  match c with
  | ObjCol xs => map (to_cell CStr) xs
  | NumCol xs => map (to_cell CNum) xs
  | TimeCol xs => map (to_cell CTime) xs
  | BoolCol xs => map CBool xs
  end.

Definition cell_at (c : Column) (i : nat) : Cell := nth i (cells_of c) CNa.

Definition isna (v : Cell) : bool :=
  match v with CNa => true | _ => false end.

(** [col.isna()] *)
Definition isna_col (c : Column) : list bool := map isna (cells_of c).

(** [mask.any()] *)
Definition any (m : list bool) : bool := existsb id m.

(** A table: the length of its index and its columns in order. *)
Record DataFrame := mkDF {
  nrows : nat;
  columns : list (string * Column)
}.

Fixpoint lookup_col (cs : list (string * Column)) (c : string) : option Column :=
  match cs with
  | [] => None
  | (n, v) :: cs' => if String.eqb n c then Some v else lookup_col cs' c
  end.

(** [c in df.columns] *)
Definition contains (d : DataFrame) (c : string) : bool :=
  match lookup_col (columns d) c with Some _ => true | None => false end.

(** [df[c]] *)
Definition getitem (d : DataFrame) (c : string) : Result Column :=
  match lookup_col (columns d) c with
  | Some v => Ok v
  | None => Raise KeyError
  end.

Fixpoint assoc_set (cs : list (string * Column)) (c : string) (v : Column)
  : list (string * Column) :=
  match cs with
  | [] => [(c, v)]
  | (n, x) :: cs' =>
      if String.eqb n c then (n, v) :: cs' else (n, x) :: assoc_set cs' c v
  end.

(** [df[c] = v]: the column is replaced where it stands, or appended; the
    values must be as many as the rows. *)
Definition setitem (d : DataFrame) (c : string) (v : Column) : Result DataFrame :=
  if (col_len v =? nrows d)%nat
  then Ok (mkDF (nrows d) (assoc_set (columns d) c v))
  else Raise ValueError.

Definition mem_str (names : list string) (c : string) : bool :=
  existsb (String.eqb c) names.

(** [df.drop(columns=names)] *)
Definition drop (d : DataFrame) (names : list string) : Result DataFrame :=
  if forallb (contains d) names
  then Ok (mkDF (nrows d)
             (List.filter (fun p => negb (mem_str names p.1)) (columns d)))
  else Raise KeyError.

(** A table as it stands in memory: every column spans the index, and (as
    every reader delivers it) no label occurs twice. *)
Definition aligned (d : DataFrame) : Prop :=
  Forall (fun p => col_len p.2 = nrows d) (columns d).

Definition wf (d : DataFrame) : Prop :=
  aligned d /\ NoDup (map fst (columns d)).

(** ** Rows, and applying a function along axis 1 *)

Definition Row := list (string * Cell).

Definition row_at (d : DataFrame) (i : nat) : Row :=
  map (fun p => (p.1, cell_at p.2 i)) (columns d).

Definition iterrows (d : DataFrame) : list Row :=
  map (row_at d) (seq 0 (nrows d)).

Fixpoint row_get (r : Row) (c : string) : Result Cell :=
  match r with
  | [] => Raise KeyError
  | (n, v) :: r' => if String.eqb n c then Ok v else row_get r' c
  end.

(** The row pandas feeds the function when the table has no rows: every
    label present, every value NaN. *)
Definition nan_row (d : DataFrame) : Row :=
  map (fun p => (p.1, CNa)) (columns d).

(** [df.apply(f, axis=1)] for an [f] returning a scalar.  On a table without
    rows pandas calls [f] once on [nan_row]: if that returns, the result is
    an empty series; if it raises, the result is a copy of the table. *)
Definition apply_axis1 {A} (f : Row -> Result A) (d : DataFrame)
  : Result (list A + DataFrame) :=
  match nrows d with
  | O => match f (nan_row d) with
         | Ok _ => Ok (inl [])
         | Raise _ => Ok (inr d)
         end
  | S _ => ys <- traverse f (iterrows d) ;; Ok (inl ys)
  end.

(** [df[c] = <result of apply>].  A table as the value is accepted only if it
    has a single column, which is then assigned. *)
Definition setitem_applied {A} (d : DataFrame) (c : string)
  (mk : list A -> Column) (r : list A + DataFrame) : Result DataFrame :=
  match r with
  | inl ys => setitem d c (mk ys)
  | inr fr =>
      match columns fr with
      | [(_, v)] => setitem d c v
      | _ => Raise ValueError
      end
  end.

End Frames.

(** Whole numbers of moderate size are floats, and a dict keyed by integers
    finds such a float under the integer it equals. *)
Class Float64Ints {F : Type} (fl : Float64 F) : Prop := {
  int_key_of_Z :
    forall z : Z, (Z.abs z <= 2 ^ 53)%Z -> int_key (of_Z z) = Some z;
}.

(** ** Library routines on columns *)

Section Series.
Context {A : Type} `{Dtype A}.

(** How often [v] occurs in a column. *)
Definition value_count (v : A) (xs : list (option A)) : nat :=
  length (List.filter (fun x => bool_decide (x = Some v)) xs).

(** The distinct values present. *)
Definition observed (xs : list (option A)) : list A :=
  remove_dups (omap id xs).

(** [col.mode()]: the values occurring most often among those present,
    sorted. *)
Definition mode (xs : list (option A)) : list A :=
  let vals := observed xs in
  let best := max_list (map (fun v => value_count v xs) vals) in
  merge_sort dt_le
    (List.filter (fun v => (value_count v xs =? best)%nat) vals).

(** [col.fillna(v)] *)
Definition fillna (v : A) (xs : list (option A)) : list (option A) :=
  map (fun x => match x with Some _ => x | None => Some v end) xs.

(** [col.fillna(col.mode()[0])]; indexing an empty result raises. *)
Definition fillna_mode (xs : list (option A)) : Result (list (option A)) :=
  match mode xs with
  | m :: _ => Ok (fillna m xs)
  | [] => Raise KeyError
  end.

(** The categories of a column: its distinct values, sorted. *)
Definition levels (xs : list (option A)) : list A :=
  merge_sort dt_le (observed xs).

(** The indicator columns of one encoded column under [dummy_na=True]: one
    per category, then the one for a missing value. *)
Definition dummy_block {F : Type} (prefix : string) (xs : list (option A))
  : list (string * @Column F) :=
  map (fun l => (prefix +:+ "_" +:+ dt_str l,
                 BoolCol (map (fun x => bool_decide (x = Some l)) xs)))
      (levels xs)
  ++ [(prefix +:+ "_nan", BoolCol (map (fun x => bool_decide (x = None)) xs))].

End Series.

Section Pipeline.
Context {F : Type} {fl : Float64 F}.
Local Abbreviation Cell := (@Cell F).
Local Abbreviation Column := (@Column F).
Local Abbreviation DataFrame := (@DataFrame F).
Local Abbreviation Row := (@Row F).

Fixpoint for_each {X S} (l : list X) (body : S -> X -> Result S) (s : S)
  : Result S :=
  match l with
  | [] => Ok s
  | x :: l' => s' <- body s x ;; for_each l' body s'
  end.

Definition all_nan {A} (xs : list (option A)) : bool :=
  forallb (fun o => match o with None => true | Some _ => false end) xs.

(** [pd.to_datetime(col, format='%d/%m/%Y', errors='coerce')] *)
Definition to_datetime (c : Column) : Column :=
  match c with
  | ObjCol xs =>
      TimeCol (map (fun o => match o with
                             | Some s => strptime_dmy s
                             | None => None
                             end) xs)
  | NumCol xs => TimeCol (map (fun _ => None) xs)
  | TimeCol xs => c
  | BoolCol xs => TimeCol (map (fun _ => None) xs)
  end.

(** [pd.to_numeric(col, errors='coerce')] *)
Definition to_numeric (c : Column) : Column :=
  match c with
  | ObjCol xs =>
      NumCol (map (fun o => match o with
                            | Some s => to_numeric_str s
                            | None => None
                            end) xs)
  | NumCol xs => c
  | TimeCol xs => NumCol (map (fun o => Some (ns_of_timestamp o)) xs)
  | BoolCol xs => c
  end.

(** [col.str.split(sep, expand=True)]: one row of pieces per string, a
    single NaN for a missing value; as many columns as the longest row,
    shorter rows padded with missing values. *)
Definition split_row (sep : ascii) (o : option string) : list (option string) :=
  match o with
  | Some s => map Some (split_on sep s)
  | None => [None]
  end.

Definition str_split_rows (sep : ascii) (xs : list (option string))
  : list (list (option string)) :=
  map (split_row sep) xs.

Definition expand (rows : list (list (option string)))
  : list (list (option string)) :=
  let width := max_list (map length rows) in
  map (fun j => map (fun r => nth j r None) rows) (seq 0 width).

Definition str_split_expand (sep : ascii) (c : Column)
  : Result (list (list (option string))) :=
  match c with
  | ObjCol xs => Ok (expand (str_split_rows sep xs))
  | _ => Raise AttributeError
  end.

(** [float(piece)], a missing piece staying missing *)
Definition piece_float (o : option string) : Result (option F) :=
  match o with
  | None => Ok None
  | Some s => match float_of_str s with
              | Some v => Ok v
              | None => Raise ValueError
              end
  end.

(** [.astype(float)] on one column of pieces *)
Definition astype_float (col : list (option string)) : Result (list (option F)) :=
  traverse piece_float col.

(** The array a numeric routine sees. *)
Definition as_float (c : Column) : Result (list (option F)) :=
  match c with
  | NumCol xs => Ok xs
  | BoolCol xs => Ok (map (fun b => Some (of_bool b)) xs)
  | ObjCol _ => Raise ValueError
  | TimeCol _ => Raise TypeError
  end.

Definition finite_or_nan (o : option F) : bool :=
  match o with Some x => is_finite x | None => true end.

Definition impute_column (X : list (option F * option F)) (j : bool)
  (xs : list (option F)) : list (option F) :=
  imap (fun i o => match o with
                   | Some x => Some x
                   | None => Some (knn_estimate X i j)
                   end) xs.

(** [KNNImputer(n_neighbors=5).fit_transform(X)] on a two-column array:
    infinities are rejected, a column without any value is left out of the
    result, and in the others exactly the missing entries are estimated. *)
Definition KNNImputer_fit_transform (lat lon : list (option F))
  : Result (list (list (option F))) :=
  let X := zip lat lon in
  if forallb finite_or_nan (lat ++ lon) then
    Ok ((if all_nan lat then [] else [impute_column X false lat])
        ++ (if all_nan lon then [] else [impute_column X true lon]))
  else Raise ValueError.

(** [StandardScaler().fit_transform(X)] on one column: at least one sample,
    no infinity. *)
Definition StandardScaler_fit_transform (xs : list F) : Result (list F) :=
  match xs with
  | [] => Raise ValueError
  | _ =>
      if forallb is_finite xs
      then Ok (map (standardize (col_mean xs) (col_scale xs)) xs)
      else Raise ValueError
  end.

Definition dummies_of (prefix : string) (c : Column) : list (string * Column) :=
  match c with
  | ObjCol xs => dummy_block prefix xs
  | NumCol xs => dummy_block prefix xs
  | TimeCol xs => dummy_block prefix xs
  | BoolCol xs => dummy_block prefix (map Some xs)
  end.

(** [pd.get_dummies(df, columns=cols, prefix=cols, dummy_na=True)]: the
    columns not encoded, then the indicator columns of each encoded one. *)
Definition get_dummies (d : DataFrame) (cols : list string) : Result DataFrame :=
  enc <- traverse (fun c => v <- getitem d c ;; Ok (dummies_of c v)) cols ;;
  Ok (mkDF (nrows d)
        (List.filter (fun p => negb (mem_str cols p.1)) (columns d)
         ++ concat enc)).

(** ** The steps of [process_data] *)

Definition categorical_cols : list string :=
  ["Sex"; "Age"; "Breed Stage"; "ArgosQuality"].

Definition position_cols : list string := ["Latitude"; "Longitude"].

Definition numeric_cols : list string := ["distance_to_colony_km"].

(** Jahreszeit (Suedhalbkugel) *)
Definition season_mapping : list (Z * string) :=
  [(12, "Sommer"); (1, "Sommer"); (2, "Sommer");
   (3, "Herbst"); (4, "Herbst"); (5, "Herbst");
   (6, "Winter"); (7, "Winter"); (8, "Winter");
   (9, "Frühling"); (10, "Frühling"); (11, "Frühling")]%Z.

Fixpoint dict_get {V} (m : list (Z * V)) (k : Z) : option V :=
  match m with
  | [] => None
  | (k', v) :: m' => if (k' =? k)%Z then Some v else dict_get m' k
  end.

(** Line 39: the date column becomes a [datetime64] column. *)
Definition parse_dates (d : DataFrame) : Result DataFrame :=
  c <- getitem d "DateGMT" ;;
  setitem d "DateGMT" (to_datetime c).

(** Line 44: the three columns cut out of the time of day. *)
Definition split_time (d : DataFrame) : Result DataFrame :=
  t <- getitem d "TimeGMT" ;;
  parts <- str_split_expand ":" t ;;
  nums <- traverse astype_float parts ;;
  match nums with
  | [h; m; s] =>
      d <- setitem d "hour" (NumCol h) ;;
      d <- setitem d "minute" (NumCol m) ;;
      setitem d "second" (NumCol s)
  | _ => Raise ValueError
  end.

(** [int(v) if not pd.isna(v) else 0].  The three columns read here were
    assigned as [float64] by the statement before, so a row shows a number or
    NaN in them. *)
Definition int_or_zero (v : Cell) : Result Z :=
  match v with
  | CNa => Ok 0%Z
  | CNum x => match int_of_float x with
              | Some z => Ok z
              | None => Raise OverflowError
              end
  | CBool b => Ok (if b then 1 else 0)%Z
  | CStr _ | CTime _ => Raise TypeError
  end.

(** Lines 48-55: the function applied to each row. *)
Definition timestamp_row (row : Row) : Result (option Timestamp) :=
  date <- row_get row "DateGMT" ;;
  match date with
  | CNa => Ok None
  | CTime t =>
      hv <- row_get row "hour" ;;
      h <- int_or_zero hv ;;
      mv <- row_get row "minute" ;;
      mi <- int_or_zero mv ;;
      sv <- row_get row "second" ;;
      s <- int_or_zero sv ;;
      t' <- new_Timestamp (year t) (month t) (day t) h mi s ;;
      Ok (Some t')
  | _ => Raise AttributeError
  end.

(** Lines 47-57 *)
Definition compose_timestamp (d : DataFrame) : Result DataFrame :=
  r <- apply_axis1 timestamp_row d ;;
  setitem_applied d "Timestamp" TimeCol r.

(** Line 60 *)
Definition drop_time_parts (d : DataFrame) : Result DataFrame :=
  drop d ["hour"; "minute"; "second"].

(** Lines 64-65: the body of the loop over the coordinate columns. *)
Definition convert_numeric (d : DataFrame) (col : string) : Result DataFrame :=
  if contains d col then
    c <- getitem d col ;;
    setitem d col (to_numeric c)
  else Ok d.

Definition fillna_mode_col (c : Column) : Result Column :=
  match c with
  | ObjCol xs => ys <- fillna_mode xs ;; Ok (ObjCol ys)
  | NumCol xs => ys <- fillna_mode xs ;; Ok (NumCol ys)
  | TimeCol xs => ys <- fillna_mode xs ;; Ok (TimeCol ys)
  | BoolCol xs =>
      match mode (map Some xs) with
      | _ :: _ => Ok c
      | [] => Raise KeyError
      end
  end.

(** Lines 71-72: the body of the loop over the categorical columns. *)
Definition impute_mode (d : DataFrame) (col : string) : Result DataFrame :=
  if contains d col then
    c <- getitem d col ;;
    if any (isna_col c) then
      c' <- fillna_mode_col c ;;
      setitem d col c'
    else Ok d
  else Ok d.

(** Lines 75-78 *)
Definition knn_impute (d : DataFrame) : Result DataFrame :=
  if forallb (contains d) position_cols then
    lat_c <- getitem d "Latitude" ;;
    lon_c <- getitem d "Longitude" ;;
    if any (isna_col lat_c) || any (isna_col lon_c) then
      lat <- as_float lat_c ;;
      lon <- as_float lon_c ;;
      out <- KNNImputer_fit_transform lat lon ;;
      match out with
      | [lat'; lon'] =>
          d <- setitem d "Latitude" (NumCol lat') ;;
          setitem d "Longitude" (NumCol lon')
      | _ => Raise ValueError
      end
    else Ok d
  else Ok d.

(** A coordinate handed to geopy.  Both columns are numeric here if they
    exist (lines 63-65). *)
Definition coord (v : Cell) : Result F :=
  match v with
  | CNum x => Ok x
  | CBool b => Ok (of_bool b)
  | _ => Raise TypeError
  end.

(** Lines 83-84: the function applied to each row; [and] does not look at
    the longitude of a row whose latitude is missing. *)
Definition distance_row (row : Row) : Result (option F) :=
  lat <- row_get row "Latitude" ;;
  if isna lat then Ok None
  else
    lon <- row_get row "Longitude" ;;
    if isna lon then Ok None
    else
      x <- coord lat ;;
      y <- coord lon ;;
      match geodesic_km (x, y) (COLONY_LATITUDE, COLONY_LONGITUDE) with
      | Some km => Ok (Some km)
      | None => Raise ValueError
      end.

(** Lines 82-86 *)
Definition distance_feature (d : DataFrame) : Result DataFrame :=
  r <- apply_axis1 distance_row d ;;
  setitem_applied d "distance_to_colony_km" NumCol r.

(** [col.dt.hour], [col.dt.month] *)
Definition dt_field (f : Timestamp -> Z) (c : Column) : Result Column :=
  match c with
  | TimeCol ts =>
      Ok (NumCol (map (fun o => match o with
                                | Some t => Some (of_Z (f t))
                                | None => None
                                end) ts))
  | _ => Raise AttributeError
  end.

(** [col.map(m)] for a dict [m] keyed by integers: a value that is no key
    gives a missing value. *)
Definition map_dict (m : list (Z * string)) (c : Column) : Column :=
  match c with
  | NumCol xs =>
      ObjCol (map (fun o => match o with
                            | Some x => match int_key x with
                                        | Some k => dict_get m k
                                        | None => None
                                        end
                            | None => None
                            end) xs)
  | _ => ObjCol (repeat None (col_len c))
  end.

(** Lines 89-100 *)
Definition temporal_features (d : DataFrame) : Result DataFrame :=
  if contains d "Timestamp" then
    ts <- getitem d "Timestamp" ;;
    h <- dt_field hour ts ;;
    d <- setitem d "hour_of_day" h ;;
    ts <- getitem d "Timestamp" ;;
    m <- dt_field month ts ;;
    d <- setitem d "month" m ;;
    mc <- getitem d "month" ;;
    setitem d "season" (map_dict season_mapping mc)
  else Ok d.

(** Line 104 *)
Definition encode_categoricals (d : DataFrame) : Result DataFrame :=
  get_dummies d categorical_cols.

(** Line 112 for one of the columns kept by line 108: missing values become
    zero, then the column is standardised. *)
Definition scale_column (d : DataFrame) (col : string) : Result DataFrame :=
  c <- getitem d col ;;
  xs <- as_float c ;;
  ys <- StandardScaler_fit_transform
          (map (fun o => match o with Some x => x | None => fzero end) xs) ;;
  setitem d col (NumCol (map Some ys)).

(** Lines 107-112 *)
Definition normalize (d : DataFrame) : Result DataFrame :=
  for_each (List.filter (contains d) numeric_cols) scale_column d.

(** ** [process_data] on objects

    A store maps the identity of a table object to its content.
    [df.copy()] (a deep copy, the default), [df.drop(...)] and
    [pd.get_dummies(...)] create an object with its own data;
    [df[c] = v] changes the object [df] names. *)

Definition Prog (A : Type) : Type :=
  gmap nat DataFrame -> Result A * gmap nat DataFrame.

Definition pure {A} (a : A) : Prog A := fun h => (Ok a, h).

Definition then_ {A B} (c : Prog A) (k : A -> Prog B) : Prog B :=
  fun h =>
    match c h with
    | (Ok a, h') => k a h'
    | (Raise e, h') => (Raise e, h')
    end.

Notation "x <~ c ;; k" := (then_ c (fun x => k))
  (at level 100, c at next level, right associativity).

(** A new object holding [d]. *)
Definition alloc (d : DataFrame) : Prog nat :=
  fun h => let l := fresh (dom h) in (Ok l, <[l := d]> h).

(** Reading the object [r] names; a name always has an object behind it. *)
Definition deref (r : nat) : Prog DataFrame :=
  fun h =>
    match h !! r with
    | Some d => (Ok d, h)
    | None => (Raise KeyError, h)
    end.

(** [df.copy()] *)
Definition copy (r : nat) : Prog nat :=
  d <~ deref r ;; alloc d.

(** A statement that changes the object [r] in place, such as
    [df[c] = ...]: nothing is changed if evaluating it raises. *)
Definition update (r : nat) (f : DataFrame -> Result DataFrame) : Prog unit :=
  d <~ deref r ;;
  fun h =>
    match f d with
    | Ok d' => (Ok tt, <[r := d']> h)
    | Raise e => (Raise e, h)
    end.

(** A statement whose value is a new table, such as [df.drop(...)]. *)
Definition create (r : nat) (f : DataFrame -> Result DataFrame) : Prog nat :=
  d <~ deref r ;;
  fun h =>
    match f d with
    | Ok d' => alloc d' h
    | Raise e => (Raise e, h)
    end.

(** [for x in l: body] *)
Fixpoint loop {X} (l : list X) (body : X -> Prog unit) : Prog unit :=
  match l with
  | [] => pure tt
  | x :: l' => _ <~ body x ;; loop l' body
  end.

(** Fuehrt alle Verarbeitungsschritte durch. *)
Definition process_data (df : nat) : Prog nat :=
  (* Kopie erstellen *)
  df_processed <~ copy df ;;
  (* 1. Datentypen konvertieren *)
  _ <~ update df_processed parse_dates ;;
  d <~ deref df_processed ;;
  df_processed <~
    (if contains d "TimeGMT" then
       _ <~ update df_processed split_time ;;
       _ <~ update df_processed compose_timestamp ;;
       create df_processed drop_time_parts
     else pure df_processed) ;;
  _ <~ loop position_cols
         (fun col => update df_processed (fun d => convert_numeric d col)) ;;
  (* 2. Fehlende Werte behandeln *)
  _ <~ loop categorical_cols
         (fun col => update df_processed (fun d => impute_mode d col)) ;;
  _ <~ update df_processed knn_impute ;;
  (* 3. Feature-Engineering *)
  _ <~ update df_processed distance_feature ;;
  _ <~ update df_processed temporal_features ;;
  (* 4. Datenformatierung *)
  df_processed <~ create df_processed encode_categoricals ;;
  _ <~ update df_processed normalize ;;
  pure df_processed.

(** The same steps as functions from table to table. *)
Definition add_timestamp (d : DataFrame) : Result DataFrame :=
  if contains d "TimeGMT" then
    d <- split_time d ;;
    d <- compose_timestamp d ;;
    drop_time_parts d
  else Ok d.

Definition coords_to_numeric (d : DataFrame) : Result DataFrame :=
  for_each position_cols convert_numeric d.

Definition mode_fill (d : DataFrame) : Result DataFrame :=
  for_each categorical_cols impute_mode d.

Definition stages : list (DataFrame -> Result DataFrame) :=
  [parse_dates; add_timestamp; coords_to_numeric; mode_fill; knn_impute;
   distance_feature; temporal_features; encode_categoricals; normalize].

Definition process_frame (d : DataFrame) : Result DataFrame :=
  for_each stages (fun d stage => stage d) d.

(** ** [merge_parquet.py] *)

(** [df[mask]] *)
Definition take_mask {A} (mask : list bool) (xs : list A) : list A :=
  map snd (List.filter fst (zip mask xs)).

Definition take_col (mask : list bool) (c : Column) : Column :=
  match c with
  | ObjCol xs => ObjCol (take_mask mask xs)
  | NumCol xs => NumCol (take_mask mask xs)
  | TimeCol xs => TimeCol (take_mask mask xs)
  | BoolCol xs => BoolCol (take_mask mask xs)
  end.

Definition select_rows (mask : list bool) (d : DataFrame) : DataFrame :=
  mkDF (length (List.filter id (firstn (nrows d) mask)))
       (map (fun p => (p.1, take_col mask p.2)) (columns d)).

Definition notna_col (c : Column) : list bool := map negb (isna_col c).

Definition and_mask (m1 m2 : list bool) : list bool := zip_with andb m1 m2.

(** [df.dropna(subset=cols)] *)
Definition dropna (d : DataFrame) (subset : list string) : Result DataFrame :=
  cs <- traverse (getitem d) subset ;;
  Ok (select_rows
        (fold_right and_mask (repeat true (nrows d)) (map notna_col cs)) d).

(** [col > 0]: a missing value compares false; strings are looked at only
    where present; a [datetime64] column does not compare with a number. *)
Definition gt0 (c : Column) : Result (list bool) :=
  match c with
  | NumCol xs =>
      Ok (map (fun o => match o with Some x => gt_zero x | None => false end) xs)
  | BoolCol xs => Ok xs
  | ObjCol xs => if all_nan xs then Ok (map (fun _ => false) xs)
                 else Raise TypeError
  | TimeCol _ => Raise TypeError
  end.

(** [df[df[c] > 0]] *)
Definition keep_positive (d : DataFrame) (c : string) : Result DataFrame :=
  v <- getitem d c ;;
  m <- gt0 v ;;
  Ok (select_rows m d).

Definition clean_data (df : DataFrame) : Result DataFrame :=
  df <- dropna df ["pickup_datetime"; "dropoff_datetime"] ;;
  df <- keep_positive df "fare_amount" ;;
  df <- keep_positive df "trip_distance" ;;
  Ok df.

End Pipeline.

(** ** Reading the input files

    The file system is what [glob.glob] answers for a pattern and what the
    readers make of a file; [pd.concat] of a non-empty list of tables is the
    library's. *)

Section Loader.
Context {F : Type} {fl : Float64 F}.
Local Abbreviation Cell := (@Cell F).
Local Abbreviation Column := (@Column F).
Local Abbreviation DataFrame := (@DataFrame F).
Local Abbreviation Row := (@Row F).
Variable File : Type.
Variable glob : string -> list File.
Variable read_csv : File -> Result DataFrame.
Variable read_parquet : File -> Result DataFrame.
Variable concat_frames : list DataFrame -> DataFrame.

Fixpoint ends_with_slash (s : string) : bool :=
  match s with
  | EmptyString => false
  | String a EmptyString => Ascii.eqb a "/"
  | String _ s' => ends_with_slash s'
  end.

(** [os.path.join(a, b)] for a relative [b] *)
Definition path_join (a b : string) : string :=
  match a with
  | EmptyString => b
  | _ => if ends_with_slash a then a +:+ b else a +:+ "/" +:+ b
  end.

(** [pd.concat(dfs, ignore_index=True)] *)
Definition pd_concat (dfs : list DataFrame) : Result DataFrame :=
  match dfs with
  | [] => Raise ValueError
  | _ => Ok (concat_frames dfs)
  end.

(** Laedt alle CSV-Dateien aus dem Datenverzeichnis. *)
Definition load_data (data_dir : string) : Result DataFrame :=
  let all_files := glob (path_join data_dir "*.csv") in
  match all_files with
  | [] => Raise FileNotFoundError
  | _ =>
      df_list <- traverse read_csv all_files ;;
      pd_concat df_list
  end.

(** The table [merge_parquet_files] writes out. *)
Definition merge_parquet_files : Result DataFrame :=
  let all_files := glob "data/raw/yellow_tripdata_2024-*.parquet" in
  dfs <- traverse read_parquet all_files ;;
  merged_df <- pd_concat dfs ;;
  clean_data merged_df.

End Loader.

(** ** The scripts and the world around them

    [save_data], [main] and [merge_parquet_files] act on the file system and
    on standard output.  The file system is a parameter: what [glob.glob] and
    the readers find in it, and what [os.makedirs] and the writers make of
    it.  Reading does not change it. *)

Module Script.

(** A line on standard output.  [Failure e] is the report of line 150:
    ["Fehler bei der Datenverarbeitung: "] followed by [str(e)]. *)
Inductive Line :=
| Text (s : string)
| Failure (e : Exception).

Class Env (F File FS : Type) := {
  glob : string -> FS -> list File;
  read_csv : File -> FS -> Result (@DataFrame F);
  read_parquet : File -> FS -> Result (@DataFrame F);
  concat_frames : list (@DataFrame F) -> @DataFrame F;
  (** [os.makedirs(path, exist_ok=True)] *)
  makedirs : string -> FS -> Result unit * FS;
  (** [df.to_parquet(path, index=False)], [df.to_csv(path, index=False)] *)
  to_parquet : @DataFrame F -> string -> FS -> Result unit * FS;
  to_csv : @DataFrame F -> string -> FS -> Result unit * FS;
}.

(** The table objects, the file system, and what has been printed. *)
Record Sys (F FS : Type) := mkSys {
  heap : gmap nat (@DataFrame F);
  disk : FS;
  stdout : list Line
}.
Arguments mkSys {F FS} heap disk stdout.
Arguments heap {F FS} s.
Arguments disk {F FS} s.
Arguments stdout {F FS} s.

Section Run.
Context {F File FS : Type} {fl : Float64 F} {env : Env F File FS}.
Local Abbreviation DataFrame := (@DataFrame F).
Local Abbreviation Sys := (Sys F FS).

Definition Script (A : Type) : Type := Sys -> Result A * Sys.

Definition ret {A} (a : A) : Script A := fun s => (Ok a, s).

Definition raise {A} (e : Exception) : Script A := fun s => (Raise e, s).

Definition and_then {A B} (c : Script A) (k : A -> Script B) : Script B :=
  fun s =>
    match c s with
    | (Ok a, s') => k a s'
    | (Raise e, s') => (Raise e, s')
    end.

Notation "x <~ c ;; k" := (and_then c (fun x => k))
  (at level 100, c at next level, right associativity).

(** An expression that only computes. *)
Definition lift {A} (r : Result A) : Script A := fun s => (r, s).

(** A statement on table objects. *)
Definition on_heap {A} (c : Prog A) : Script A :=
  fun s => (fst (c (heap s)), mkSys (snd (c (heap s))) (disk s) (stdout s)).

(** A call that changes the file system. *)
Definition on_disk {A} (c : FS -> Result A * FS) : Script A :=
  fun s => (fst (c (disk s)), mkSys (heap s) (snd (c (disk s))) (stdout s)).

(** A call that reads the file system. *)
Definition read_disk {A} (f : FS -> Result A) : Script A :=
  fun s => (f (disk s), s).

Definition print (l : Line) : Script unit :=
  fun s => (Ok tt, mkSys (heap s) (disk s) (stdout s ++ [l])).

(** [try: body except Exception as e: handler] *)
Definition try_except {A} (body : Script A) (handler : Exception -> Script A)
  : Script A :=
  fun s =>
    match body s with
    | (Ok a, s') => (Ok a, s')
    | (Raise e, s') => handler e s'
    end.

Definition starts_with_slash (s : string) : bool :=
  match s with
  | String a _ => Ascii.eqb a "/"
  | EmptyString => false
  end.

(** [os.path.join(a, b)]: an absolute [b] discards [a]. *)
Definition os_path_join (a b : string) : string :=
  if starts_with_slash b then b else path_join a b.

(** [f"... {df.shape[0]} Zeilen und {df.shape[1]} Spalten"] *)
Definition shape_text (d : DataFrame) : string :=
  pretty (nrows d) +:+ " Zeilen und " +:+ pretty (length (columns d))
  +:+ " Spalten".

(** Laedt alle CSV-Dateien aus dem Datenverzeichnis. *)
Definition load_data (data_dir : string) : Script nat :=
  all_files <~ read_disk (fun fs => Ok (glob (os_path_join data_dir "*.csv") fs)) ;;
  match all_files with
  | [] => raise FileNotFoundError
  | _ =>
      (* Alle CSV-Dateien laden und kombinieren *)
      df_list <~ read_disk (fun fs => traverse (fun file => read_csv file fs)
                                        all_files) ;;
      d <~ lift (pd_concat concat_frames df_list) ;;
      df <~ on_heap (alloc d) ;;
      _ <~ print (Text ("Daten geladen: " +:+ shape_text d)) ;;
      ret df
  end.

(** [process_data] with the line it prints before it returns. *)
Definition process_data (df : nat) : Script nat :=
  df_processed <~ on_heap (process_data df) ;;
  d <~ on_heap (deref df_processed) ;;
  _ <~ print (Text ("Daten verarbeitet: " +:+ shape_text d)) ;;
  ret df_processed.

Definition parquet_path (output_path filename : string) : string :=
  os_path_join output_path (filename +:+ ".parquet").

Definition csv_path (output_path filename : string) : string :=
  os_path_join output_path (filename +:+ ".csv").

(** Speichert die verarbeiteten Daten im Parquet-Format. *)
Definition save_data (df : nat) (output_path filename : string) : Script unit :=
  (* Sicherstellen, dass das Ausgabeverzeichnis existiert *)
  _ <~ on_disk (makedirs output_path) ;;
  (* Speichern als Parquet *)
  d <~ on_heap (deref df) ;;
  _ <~ on_disk (to_parquet d (parquet_path output_path filename)) ;;
  _ <~ print (Text ("Daten als Parquet gespeichert: "
                    +:+ parquet_path output_path filename)) ;;
  (* Zusaetzlich als CSV speichern fuer einfachere Inspektion *)
  d <~ on_heap (deref df) ;;
  _ <~ on_disk (to_csv d (csv_path output_path filename)) ;;
  print (Text ("Daten als CSV gespeichert: " +:+ csv_path output_path filename)).

(** Hauptfunktion fuer die Datenverarbeitung. *)
Definition main : Script unit :=
  _ <~ print (Text "Starte Datenverarbeitung") ;;
  try_except
    ((* Daten laden *)
     df <~ load_data "./data" ;;
     (* Daten verarbeiten *)
     df_processed <~ process_data df ;;
     (* Daten speichern *)
     _ <~ save_data df_processed "./data/processed" "penguin_tracking_processed" ;;
     print (Text "Datenverarbeitung erfolgreich abgeschlossen"))
    (fun e => _ <~ print (Failure e) ;; raise e).

Definition merge_parquet_files : Script unit :=
  let output_dir := "data/processed" in
  _ <~ on_disk (makedirs output_dir) ;;
  all_files <~ read_disk (fun fs =>
                 Ok (glob "data/raw/yellow_tripdata_2024-*.parquet" fs)) ;;
  dfs <~ read_disk (fun fs => traverse (fun file => read_parquet file fs)
                                all_files) ;;
  merged_df <~ lift (pd_concat concat_frames dfs) ;;
  merged_df <~ lift (clean_data merged_df) ;;
  _ <~ on_disk (to_parquet merged_df
                  (output_dir +:+ "/yellow_tripdata_2024_merged.parquet")) ;;
  print (Text ("Merged and cleaned data saved to " +:+ output_dir
               +:+ "/yellow_tripdata_2024_merged.parquet")).

End Run.

End Script.

(** [load_data] and [merge_parquet_files] as functions of the file system
    they read, and what [main] has computed when it starts saving. *)

Section ScriptViews.
Context {F File FS : Type} {fl : Float64 F} {env : Script.Env F File FS}.

Definition loaded (fs : FS) (data_dir : string) : Result (@DataFrame F) :=
  load_data File (fun pattern => Script.glob pattern fs)
    (fun file => Script.read_csv file fs) Script.concat_frames data_dir.

Definition merged (fs : FS) : Result (@DataFrame F) :=
  merge_parquet_files File (fun pattern => Script.glob pattern fs)
    (fun file => Script.read_parquet file fs) Script.concat_frames.

Definition processed (fs : FS) : Result (@DataFrame F) :=
  d <- loaded fs "./data" ;; process_frame d.

End ScriptViews.

(** ** Notions used to state the properties *)

Section Observations.
Context {F : Type} {fl : Float64 F}.
Local Abbreviation Cell := (@Cell F).
Local Abbreviation Column := (@Column F).
Local Abbreviation DataFrame := (@DataFrame F).
Local Abbreviation Row := (@Row F).

(** The values the indicator columns of a block show in row [i]. *)
Definition indicator_row (block : list (string * Column)) (i : nat) : list bool :=
  map (fun p => match p.2 with
                | BoolCol bs => nth i bs false
                | _ => false
                end) block.

Definition count_true (bs : list bool) : nat := length (List.filter id bs).

#[export] Instance cell_eq_dec : EqDecision Cell.
Proof. solve_decision. Defined.

(** How often a scalar occurs in a column. *)
Definition count_in (v : Cell) (cs : list Cell) : nat :=
  length (List.filter (fun x => bool_decide (x = v)) cs).

Definition count_cell (v : Cell) (c : Column) : nat := count_in v (cells_of c).

(** The specification's reading of the fill value: the most frequent value,
    a tie going to the value met first in the order of the rows. *)
Definition first_mode {A} `{Dtype A} (xs : list (option A)) : option A :=
  fold_left (fun acc x =>
               match acc, x with
               | _, None => acc
               | None, Some v => Some v
               | Some m, Some v =>
                   if (value_count m xs <? value_count v xs)%nat then Some v
                   else acc
               end) xs None.

(** The order in which values of one kind sort. *)
Definition cell_le (a b : Cell) : Prop :=
  match a, b with
  | CStr x, CStr y => String.le x y
  | CNum x, CNum y => F_le x y
  | CTime x, CTime y => ts_le x y
  | CBool x, CBool y => bool_le x y
  | _, _ => False
  end.

(** [m] is the value [col.mode()[0]] stands for: a value present in the
    column, occurring at least as often as any other, and the least of those
    that occur as often. *)
Definition is_mode (m : Cell) (c : Column) : Prop :=
  isna m = false /\ In m (cells_of c)
  /\ forall v, In v (cells_of c) -> isna v = false ->
       count_cell v c <= count_cell m c
       /\ (count_cell v c = count_cell m c -> cell_le m v).

(** The number in row [i] of a coordinate column, if there is one. *)
Definition coordinate (d : DataFrame) (col : string) (i : nat) : option F :=
  match getitem d col with
  | Ok c =>
      match as_float c with
      | Ok xs => match xs !! i with Some (Some x) => Some x | _ => None end
      | Raise _ => None
      end
  | Raise _ => None
  end.

(** Row by row: both timestamps present, the fare above zero and the distance
    above zero. *)
Definition trip_mask (d : DataFrame) : Result (list bool) :=
  p <- getitem d "pickup_datetime" ;;
  q <- getitem d "dropoff_datetime" ;;
  f <- getitem d "fare_amount" ;;
  fm <- gt0 f ;;
  t <- getitem d "trip_distance" ;;
  tm <- gt0 t ;;
  Ok (and_mask (and_mask (and_mask (notna_col p) (notna_col q)) fm) tm).

(** The three statements of [clean_data], each as a function on tables. *)
Definition trip_filters : list (DataFrame -> Result DataFrame) :=
  [fun d => dropna d ["pickup_datetime"; "dropoff_datetime"];
   fun d => keep_positive d "fare_amount";
   fun d => keep_positive d "trip_distance"].

(** [d'] has the rows of [d]: if every column of [d] spans its index, so
    does every column of [d'], and the index is as long. *)
Definition same_rows (d d' : DataFrame) : Prop :=
  aligned d -> aligned d' /\ nrows d' = nrows d.

(** A step keeps the rows. *)
Definition preserves (f : DataFrame -> Result DataFrame) : Prop :=
  forall d d', f d = Ok d' -> same_rows d d'.

(** The running program holds the object [p] with content [d]: [p] was
    created after the call began with store [h0], and every object of [h0] is
    as it was. *)
Definition owned (h0 h : gmap nat DataFrame) (p : nat) (d : DataFrame) : Prop :=
  h0 ⊆ h /\ h0 !! p = None /\ h !! p = Some d.

(** What a run that began with store [h0] must end with, for the table
    function to describe it: the same exception, or a new object holding the
    resulting table; the objects of [h0] untouched either way. *)
Definition outcome (h0 : gmap nat DataFrame) (r : Result DataFrame)
  (res : Result nat * gmap nat DataFrame) : Prop :=
  match r with
  | Ok d' => exists l h', res = (Ok l, h') /\ owned h0 h' l d'
  | Raise e => exists h', res = (Raise e, h') /\ h0 ⊆ h'
  end.

(** Lines 39-60 as one step: the date column is parsed and, if there is a
    time of day, the timestamp is composed. *)
Definition compose_timestamps (d : DataFrame) : Result DataFrame :=
  d <- parse_dates d ;;
  add_timestamp d.

(** The date a value of the date column stands for, if any. *)
Definition date_of_cell (v : Cell) : option Timestamp :=
  match v with
  | CStr s => strptime_dmy s
  | CTime t => Some t
  | _ => None
  end.

(** Row by row, what lines 44-55 compute.  [clock_field o j] is the integer
    handed to [pd.Timestamp] for piece [j] of the time of day [o]; a missing
    time, a missing piece and NaN count as zero. *)
Definition clock_field (o : option string) (j : nat) : Result Z :=
  v <- piece_float (nth j (split_row ":" o) None) ;;
  int_or_zero (to_cell CNum v).

Definition row_timestamp (date : option Timestamp) (o : option string)
  : Result (option Timestamp) :=
  match date with
  | None => Ok None
  | Some t =>
      h <- clock_field o 0 ;;
      mi <- clock_field o 1 ;;
      s <- clock_field o 2 ;;
      t' <- new_Timestamp (year t) (month t) (day t) h mi s ;;
      Ok (Some t')
  end.

(** [str(v)] for a scalar. *)
Definition cell_str (v : Cell) : string :=
  match v with
  | CNa => "nan"
  | CStr s => s
  | CNum x => float_str x
  | CTime t => timestamp_str t
  | CBool b => if b then "True" else "False"
  end.

(** The indicator column of the value [a] of column [col]: its name, and in
    each row whether the value there is [a]. *)
Definition indicator (col : string) (v : Column) (a : Cell) : string * Column :=
  (col +:+ "_" +:+ cell_str a,
   BoolCol (map (fun x => bool_decide (x = a)) (cells_of v))).

(** A step does not create the column [col]. *)
Definition keeps_absent (col : string) (f : DataFrame -> Result DataFrame)
  : Prop :=
  forall d d', f d = Ok d' -> contains d col = false -> contains d' col = false.

(** A step carries the column [col] through unchanged. *)
Definition keeps (col : string) (f : DataFrame -> Result DataFrame) : Prop :=
  forall d d' v, f d = Ok d' -> getitem d col = Ok v -> getitem d' col = Ok v.

(** The labels [process_data] assigns to or removes. *)
Definition assigned_cols : list string :=
  ["DateGMT"; "hour"; "minute"; "second"; "Timestamp"]
  ++ position_cols ++ categorical_cols ++ numeric_cols
  ++ ["hour_of_day"; "month"; "season"].


(** The name of an indicator column of a designated categorical column. *)
Definition indicator_name (c : string) : Prop :=
  exists prefix value, In prefix categorical_cols /\ c = prefix +:+ "_" +:+ value.

(** The labels [process_data] can add to a table. *)
Definition new_label (c : string) : Prop :=
  In c ["Timestamp"; "distance_to_colony_km"; "hour_of_day"; "month"; "season"]
  \/ indicator_name c.

(** A step adds no label but those of [new]. *)
Definition adds_only (new : string -> Prop) (f : DataFrame -> Result DataFrame)
  : Prop :=
  forall d d' c, f d = Ok d' -> contains d' c = true ->
                 contains d c = true \/ new c.


(** The table handed to the normalisation of lines 107-112. *)
Definition before_normalize (d : DataFrame) : Result DataFrame :=
  for_each (firstn 8 stages) (fun d stage => stage d) d.


(** The table handed to the one-hot encoding of line 104. *)
Definition before_encode (d : DataFrame) : Result DataFrame :=
  for_each (firstn 7 stages) (fun d stage => stage d) d.


(** A date written day first, two digits for the day and the month and four
    for the year: ["05/07/2021"]. *)
Definition date_text (y m d : Z) : string :=
  pad_digits 2 d ("/" +:+ pad_digits 2 m ("/" +:+ pad_digits 4 y "")).


End Observations.

(** ** A fixed-point instance of the float interface

    Numbers in hundredths, with integer arithmetic standing in for the
    numeric libraries.  It is there to run the pipeline on concrete tables. *)

Definition fx_of_decimal (m : Z) (e : nat) : Z := (m * 100 / 10 ^ Z.of_nat e)%Z.

Definition fx_digits (s : string) : option Z :=
  match s with
  | EmptyString => None
  | _ => if all_digits s then Some (digits_val 0 s * 100)%Z else None
  end.

Definition fx_parse (s : string) : option Z :=
  match s with
  | String "-" s' => option_map Z.opp (fx_digits s')
  | _ => fx_digits s
  end.

Definition fx_float_of_str (s : string) : option (option Z) :=
  if String.eqb s "nan" then Some None else option_map Some (fx_parse s).

Fixpoint fx_decimal (fuel : nat) (z : Z) (acc : string) : string :=
  match fuel with
  | O => acc
  | S fuel' =>
      let acc' := String (digit_char z) acc in
      if (z / 10 =? 0)%Z then acc' else fx_decimal fuel' (z / 10) acc'
  end.

Definition fx_str (x : Z) : string :=
  (if (x <? 0)%Z then "-" else "")
  +:+ fx_decimal (S (Z.to_nat (Z.log2 (Z.abs x)))) (Z.abs x / 100)
        ("." +:+ pad_digits 2 (Z.abs x) "").

Definition fx_int_key (x : Z) : option Z :=
  if (x mod 100 =? 0)%Z then Some (x / 100)%Z else None.

Definition fx_ns (o : option Timestamp) : Z :=
  match o with
  | Some t => (ts_key t * 100)%Z
  | None => (- 2 ^ 63 * 100)%Z
  end.

Definition fx_geodesic (p q : Z * Z) : option Z :=
  if ((-9000 <=? p.1) && (p.1 <=? 9000))%Z
  then Some (111 * (Z.abs (p.1 - q.1) + Z.abs (p.2 - q.2)))%Z
  else None.

Definition fx_sum (xs : list Z) : Z := fold_right Z.add 0%Z xs.

Definition fx_mean (xs : list Z) : Z := (fx_sum xs / Z.of_nat (length xs))%Z.

Definition fx_knn (X : list (option Z * option Z)) (i : nat) (j : bool) : Z :=
  fx_mean (omap (fun p : option Z * option Z => if j then p.2 else p.1) X).

Definition fx_standardize (mu sd x : Z) : Z := ((x - mu) * 100 / sd)%Z.

#[export] Instance FixedPoint : Float64 Z := {|
  F_le := Z.le;
  of_decimal := fx_of_decimal;
  is_finite := fun _ => true;
  float_of_str := fx_float_of_str;
  to_numeric_str := fx_parse;
  float_str := fx_str;
  int_of_float := fun x => Some (Z.quot x 100);
  int_key := fx_int_key;
  ns_of_timestamp := fx_ns;
  geodesic_km := fx_geodesic;
  knn_estimate := fx_knn;
  col_mean := fx_mean;
  col_scale := fun _ => 100%Z;
  standardize := fx_standardize;
|}.

(** ** Sample tables *)

(** Three tracking records: an impossible date, a time of day without
    seconds, a missing time of day, coordinates partly missing, a tie between
    the two values of [Sex]. *)
Definition tracking_dates : @Column Z :=
  ObjCol [Some "05/07/2021"; Some "31/02/2021"; Some "06/01/2021"].

Definition tracking_sample : @DataFrame Z := mkDF 3
  [("DateGMT", tracking_dates);
   ("TimeGMT", ObjCol [Some "12:30:45"; Some "01:02"; None]);
   ("Latitude", ObjCol [Some "-62"; None; Some "-60"]);
   ("Longitude", NumCol [Some (-5800)%Z; Some (-5900)%Z; None]);
   ("Sex", ObjCol [Some "b"; Some "a"; None]);
   ("Age", ObjCol [Some "adult"; Some "adult"; Some "chick"]);
   ("Breed Stage", ObjCol [Some "x"; None; Some "x"]);
   ("ArgosQuality", NumCol [Some 100%Z; Some 200%Z; Some 100%Z])].

(** One column with a tie between its two values, and a missing value. *)
Definition sex_column : @Column Z := ObjCol [Some "b"; Some "a"; None].

Definition sex_sample : @DataFrame Z := mkDF 3 [("Sex", sex_column)].

(** [sex_sample] one-hot encoded as it stands. *)
Definition sex_encoded : @DataFrame Z :=
  mkDF 3 [("Sex_a", BoolCol [false; true; false]);
          ("Sex_b", BoolCol [true; false; false]);
          ("Sex_nan", BoolCol [false; false; true])].

(** Coordinates after conversion to numbers, partly missing, and the same
    table after imputation. *)
Definition coords_sample : @DataFrame Z := mkDF 3
  [("Latitude", NumCol [Some (-6200)%Z; None; Some (-6000)%Z]);
   ("Longitude", NumCol [Some (-5800)%Z; Some (-5900)%Z; None])].

Definition coords_imputed : @DataFrame Z := mkDF 3
  [("Latitude", NumCol [Some (-6200)%Z; Some (-6100)%Z; Some (-6000)%Z]);
   ("Longitude", NumCol [Some (-5800)%Z; Some (-5900)%Z; Some (-5850)%Z])].

(** Three trip records: a valid one, one with a negative fare, one without
    a pickup time. *)
Definition trip_sample : @DataFrame Z := mkDF 3
  [("pickup_datetime",
    TimeCol [Some (mkTimestamp 2024 1 5 8 0 0);
             Some (mkTimestamp 2024 1 5 9 0 0); None]);
   ("dropoff_datetime",
    TimeCol [Some (mkTimestamp 2024 1 5 8 30 0);
             Some (mkTimestamp 2024 1 5 9 30 0);
             Some (mkTimestamp 2024 1 6 7 0 0)]);
   ("fare_amount", NumCol [Some 1250%Z; Some (-500)%Z; Some 900%Z]);
   ("trip_distance", NumCol [Some 320%Z; Some 100%Z; Some 210%Z])].

(** Tables on which composing the timestamp raises: a time of day without
    seconds in every row, an hour out of range, a piece that is no number. *)
Definition short_time_sample : @DataFrame Z := mkDF 1
  [("DateGMT", ObjCol [Some "05/07/2021"]); ("TimeGMT", ObjCol [Some "12:30"])].

Definition late_hour_sample : @DataFrame Z := mkDF 1
  [("DateGMT", ObjCol [Some "05/07/2021"]);
   ("TimeGMT", ObjCol [Some "25:00:00"])].

Definition bad_piece_sample : @DataFrame Z := mkDF 1
  [("DateGMT", ObjCol [Some "05/07/2021"]);
   ("TimeGMT", ObjCol [Some "ab:cd:ef"])].

(** [tracking_sample] without one of its columns: a categorical column, a
    coordinate column, the time of day. *)
Definition no_sex_sample : @DataFrame Z := mkDF 3
  [("DateGMT", ObjCol [Some "05/07/2021"; Some "31/02/2021"; Some "06/01/2021"]);
   ("TimeGMT", ObjCol [Some "12:30:45"; Some "01:02"; None]);
   ("Latitude", ObjCol [Some "-62"; None; Some "-60"]);
   ("Longitude", NumCol [Some (-5800)%Z; Some (-5900)%Z; None]);
   ("Age", ObjCol [Some "adult"; Some "adult"; Some "chick"]);
   ("Breed Stage", ObjCol [Some "x"; None; Some "x"]);
   ("ArgosQuality", NumCol [Some 100%Z; Some 200%Z; Some 100%Z])].

Definition no_longitude_sample : @DataFrame Z := mkDF 3
  [("DateGMT", ObjCol [Some "05/07/2021"; Some "31/02/2021"; Some "06/01/2021"]);
   ("TimeGMT", ObjCol [Some "12:30:45"; Some "01:02"; None]);
   ("Latitude", ObjCol [Some "-62"; None; Some "-60"]);
   ("Sex", ObjCol [Some "b"; Some "a"; None]);
   ("Age", ObjCol [Some "adult"; Some "adult"; Some "chick"]);
   ("Breed Stage", ObjCol [Some "x"; None; Some "x"]);
   ("ArgosQuality", NumCol [Some 100%Z; Some 200%Z; Some 100%Z])].

Definition no_time_sample : @DataFrame Z := mkDF 3
  [("DateGMT", ObjCol [Some "05/07/2021"; Some "31/02/2021"; Some "06/01/2021"]);
   ("Latitude", ObjCol [Some "-62"; None; Some "-60"]);
   ("Longitude", NumCol [Some (-5800)%Z; Some (-5900)%Z; None]);
   ("Sex", ObjCol [Some "b"; Some "a"; None]);
   ("Age", ObjCol [Some "adult"; Some "adult"; Some "chick"]);
   ("Breed Stage", ObjCol [Some "x"; None; Some "x"]);
   ("ArgosQuality", NumCol [Some 100%Z; Some 200%Z; Some 100%Z])].

(** ** A sample file system

    The files it holds, as path and table, and the directories made.
    Patterns have one star; a writer replaces the file at its path. *)

Record SampleDisk := mkDisk {
  disk_files : list (string * @DataFrame Z);
  disk_dirs : list string
}.

Fixpoint ends_with (suffix s : string) : bool :=
  String.eqb suffix s
  || match s with
     | EmptyString => false
     | String _ s' => ends_with suffix s'
     end.

Definition sample_matches (pattern path : string) : bool :=
  match split_on "*" pattern with
  | [before; after] =>
      String.prefix before path && ends_with after path
      && (String.length before + String.length after <=? String.length path)%nat
  | _ => String.eqb pattern path
  end.

Definition sample_write (d : @DataFrame Z) (path : string) (fs : SampleDisk)
  : Result unit * SampleDisk :=
  (Ok tt,
   mkDisk (List.filter (fun f => negb (String.eqb f.1 path)) (disk_files fs)
           ++ [(path, d)])
          (disk_dirs fs)).

Definition sample_env : Script.Env Z (string * @DataFrame Z) SampleDisk := {|
  Script.glob := fun pattern fs =>
    List.filter (fun f => sample_matches pattern f.1) (disk_files fs);
  Script.read_csv := fun f _ => Ok f.2;
  Script.read_parquet := fun f _ => Ok f.2;
  Script.concat_frames := fun dfs => hd (mkDF 0 []) dfs;
  Script.makedirs := fun path fs =>
    (Ok tt, mkDisk (disk_files fs) (disk_dirs fs ++ [path]));
  Script.to_parquet := sample_write;
  Script.to_csv := sample_write;
|}.

(** Nothing on disk; one file of tracking records; one that lacks a column;
    one file of trip records. *)
Definition empty_disk : SampleDisk := mkDisk [] [].

Definition tracking_disk : SampleDisk :=
  mkDisk [("./data/tracks.csv", tracking_sample)] ["./data"].

Definition broken_disk : SampleDisk :=
  mkDisk [("./data/tracks.csv", no_sex_sample)] ["./data"].

Definition trip_disk : SampleDisk :=
  mkDisk [("data/raw/yellow_tripdata_2024-01.parquet", trip_sample)]
         ["data/raw"].

Definition boot (fs : SampleDisk) : Script.Sys Z SampleDisk :=
  Script.mkSys ∅ fs [].


(** [tracking_sample] as [process_data] returns it. *)
Definition tracking_processed : @DataFrame Z :=
  Eval vm_compute in
    match process_frame tracking_sample with
    | Ok d => d
    | Raise _ => mkDF 0 []
    end.


(** [tracking_sample] without its date column, and a table with every
    column but no row. *)
Definition no_date_sample : @DataFrame Z := mkDF 3
  [("TimeGMT", ObjCol [Some "12:30:45"; Some "01:02"; None]);
   ("Latitude", ObjCol [Some "-62"; None; Some "-60"]);
   ("Longitude", NumCol [Some (-5800)%Z; Some (-5900)%Z; None]);
   ("Sex", ObjCol [Some "b"; Some "a"; None]);
   ("Age", ObjCol [Some "adult"; Some "adult"; Some "chick"]);
   ("Breed Stage", ObjCol [Some "x"; None; Some "x"]);
   ("ArgosQuality", NumCol [Some 100%Z; Some 200%Z; Some 100%Z])].

Definition empty_sample : @DataFrame Z := mkDF 0
  [("DateGMT", ObjCol []); ("Latitude", NumCol []); ("Longitude", NumCol []);
   ("Sex", ObjCol []); ("Age", ObjCol []); ("Breed Stage", ObjCol []);
   ("ArgosQuality", NumCol [])].

(** Coordinates of which every latitude is missing; a position beyond the
    pole. *)
Definition lost_latitude_sample : @DataFrame Z := mkDF 2
  [("Latitude", NumCol [None; None]);
   ("Longitude", NumCol [Some (-5800)%Z; Some (-5900)%Z])].

Definition beyond_pole_sample : @DataFrame Z := mkDF 2
  [("Latitude", NumCol [Some (-6200)%Z; Some 9500%Z]);
   ("Longitude", NumCol [Some (-5800)%Z; Some 0%Z])].

(** [coords_imputed] with the distance feature, and [tracking_sample] as
    the normalisation receives it. *)
Definition coords_with_distance : @DataFrame Z :=
  Eval vm_compute in
    match distance_feature coords_imputed with
    | Ok d => d
    | Raise _ => mkDF 0 []
    end.

Definition tracking_encoded : @DataFrame Z :=
  Eval vm_compute in
    match before_normalize tracking_sample with
    | Ok d => d
    | Raise _ => mkDF 0 []
    end.


(** Trip records without the fare, and with the fare as text. *)
Definition no_fare_sample : @DataFrame Z := mkDF 1
  [("pickup_datetime", TimeCol [Some (mkTimestamp 2024 1 5 8 0 0)]);
   ("dropoff_datetime", TimeCol [Some (mkTimestamp 2024 1 5 8 30 0)]);
   ("trip_distance", NumCol [Some 320%Z])].

Definition text_fare_sample : @DataFrame Z := mkDF 2
  [("pickup_datetime",
    TimeCol [None; Some (mkTimestamp 2024 1 5 8 0 0)]);
   ("dropoff_datetime",
    TimeCol [Some (mkTimestamp 2024 1 5 7 0 0);
             Some (mkTimestamp 2024 1 5 8 30 0)]);
   ("fare_amount", ObjCol [None; Some "12.50"]);
   ("trip_distance", NumCol [Some 100%Z; Some 320%Z])].


(** [tracking_sample] as the one-hot encoding receives it, and with a
    column [Sex] that holds no value. *)
Definition tracking_featured : @DataFrame Z :=
  Eval vm_compute in
    match before_encode tracking_sample with
    | Ok d => d
    | Raise _ => mkDF 0 []
    end.

Definition no_sex_values_sample : @DataFrame Z := mkDF 3
  [("DateGMT", tracking_dates);
   ("Latitude", NumCol [Some (-6200)%Z; Some (-6100)%Z; Some (-6000)%Z]);
   ("Longitude", NumCol [Some (-5800)%Z; Some (-5900)%Z; Some (-5850)%Z]);
   ("Sex", ObjCol [None; None; None]);
   ("Age", ObjCol [Some "adult"; Some "adult"; Some "chick"]);
   ("Breed Stage", ObjCol [Some "x"; None; Some "x"]);
   ("ArgosQuality", NumCol [Some 100%Z; Some 200%Z; Some 100%Z])].


(** Tracking records with numeric coordinates in every row and no time of
    day. *)
Definition complete_sample : @DataFrame Z := mkDF 3
  [("DateGMT", tracking_dates);
   ("Latitude", NumCol [Some (-6200)%Z; Some (-6100)%Z; Some (-6000)%Z]);
   ("Longitude", NumCol [Some (-5800)%Z; Some (-5900)%Z; Some (-5850)%Z]);
   ("Sex", ObjCol [Some "b"; Some "a"; None]);
   ("Age", ObjCol [Some "adult"; Some "adult"; Some "chick"]);
   ("Breed Stage", ObjCol [Some "x"; None; Some "x"]);
   ("ArgosQuality", NumCol [Some 100%Z; Some 200%Z; Some 100%Z])].


(** * Properties *)

Section Basics.
Context {F : Type} {fl : Float64 F}.
Local Abbreviation Cell := (@Cell F).
Local Abbreviation Column := (@Column F).
Local Abbreviation DataFrame := (@DataFrame F).
Local Abbreviation Row := (@Row F).

Lemma bind_Ok {A B} (r : Result A) (k : A -> Result B) (b : B) :
  bind r k = Ok b -> exists a, r = Ok a /\ k a = Ok b.
Proof. destruct r as [a|e]; simpl; [eauto|discriminate]. Qed.

Lemma traverse_length {A B} (f : A -> Result B) (l : list A) (ys : list B) :
  traverse f l = Ok ys -> length ys = length l.
Proof.
  revert ys; induction l as [|x l IH]; simpl; intros ys Hys.
  - by inversion Hys.
  - apply bind_Ok in Hys as (y & _ & Hys).
    apply bind_Ok in Hys as (ys' & Hl & Hys).
    inversion Hys; subst; simpl. f_equal. by apply IH.
Qed.

Lemma eqb_string_refl (c : string) : String.eqb c c = true.
Proof. apply String.eqb_refl. Qed.

Lemma eqb_string_ne (c c' : string) : c <> c' -> String.eqb c c' = false.
Proof. intros Hne. by apply String.eqb_neq. Qed.

Lemma lookup_assoc_set_eq (cs : list (string * Column)) c v :
  lookup_col (assoc_set cs c v) c = Some v.
Proof.
  induction cs as [|[n x] cs IH]; simpl.
  - by rewrite eqb_string_refl.
  - destruct (String.eqb n c) eqn:E; simpl; rewrite E; [done|apply IH].
Qed.

Lemma lookup_assoc_set_ne (cs : list (string * Column)) c c' v :
  c <> c' -> lookup_col (assoc_set cs c v) c' = lookup_col cs c'.
Proof.
  intros Hne. induction cs as [|[n x] cs IH]; simpl.
  - by rewrite eqb_string_ne.
  - destruct (String.eqb n c) eqn:E; simpl.
    + apply String.eqb_eq in E as ->. by rewrite eqb_string_ne.
    + by rewrite IH.
Qed.

Lemma lookup_col_In (cs : list (string * Column)) c v :
  lookup_col cs c = Some v -> In (c, v) cs.
Proof.
  induction cs as [|[n x] cs IH]; simpl; [discriminate|].
  destruct (String.eqb n c) eqn:E.
  - apply String.eqb_eq in E as ->. intros [= ->]. by left.
  - intros Hl. right. by apply IH.
Qed.

Lemma assoc_set_Forall (P : string * Column -> Prop) cs c v :
  Forall P cs -> P (c, v) -> (forall n x, P (n, x) -> n = c -> P (n, v)) ->
  Forall P (assoc_set cs c v).
Proof.
  intros Hcs Hv Hrep. induction Hcs as [|[n x] cs Hx Hcs IH]; simpl.
  - by constructor.
  - destruct (String.eqb n c) eqn:E.
    + apply String.eqb_eq in E as ->. constructor; [done|done].
    + constructor; [done|apply IH].
Qed.

Lemma setitem_Ok (d : DataFrame) c v d' :
  setitem d c v = Ok d' ->
  col_len v = nrows d /\ d' = mkDF (nrows d) (assoc_set (columns d) c v).
Proof.
  unfold setitem. destruct (col_len v =? nrows d)%nat eqn:E; [|discriminate].
  apply Nat.eqb_eq in E. by intros [= <-].
Qed.

Lemma setitem_aligned (d : DataFrame) c v d' :
  aligned d -> setitem d c v = Ok d' -> aligned d' /\ nrows d' = nrows d.
Proof.
  intros Hal (Hlen & ->)%setitem_Ok. split; [|done].
  unfold aligned; simpl. apply assoc_set_Forall; auto.
Qed.

Lemma getitem_Ok (d : DataFrame) c v : getitem d c = Ok v -> lookup_col (columns d) c = Some v.
Proof. unfold getitem. destruct (lookup_col _ _); by intros [= ->]. Qed.

Lemma getitem_len (d : DataFrame) c v : aligned d -> getitem d c = Ok v -> col_len v = nrows d.
Proof.
  intros Hal Hg%getitem_Ok%lookup_col_In.
  unfold aligned in Hal. rewrite List.Forall_forall in Hal. by apply (Hal (c, v)).
Qed.

Lemma cells_of_length (c : Column) : length (cells_of c) = col_len c.
Proof. destruct c; simpl; by rewrite length_map. Qed.

Lemma mem_str_false (names : list string) (c : string) :
  ~ In c names -> mem_str names c = false.
Proof.
  intros Hnin. unfold mem_str. apply not_true_is_false.
  intros (x & Hx & ->%String.eqb_eq)%existsb_exists. done.
Qed.

Lemma mem_str_true (names : list string) (c : string) :
  In c names -> mem_str names c = true.
Proof.
  intros Hin. unfold mem_str. apply existsb_exists. exists c.
  split; [done|apply String.eqb_refl].
Qed.

End Basics.

Section Seasons.

(** C6, as the code has it: the season table is defined on every month from
    1 to 12 and follows the southern hemisphere, with German labels:
    December to February give "Sommer" (so month 1 does), March to May
    "Herbst", June to August "Winter" (so month 7 does), September to
    November "Frühling". *)
Theorem season_mapping_southern (m : Z) :
  (1 <= m <= 12)%Z ->
  dict_get season_mapping m =
  Some (if ((m =? 12) || (m <=? 2))%Z then "Sommer"
        else if (m <=? 5)%Z then "Herbst"
        else if (m <=? 8)%Z then "Winter"
        else "Frühling").
Proof.
  intros Hm.
  assert (m = 1 \/ m = 2 \/ m = 3 \/ m = 4 \/ m = 5 \/ m = 6 \/ m = 7 \/ m = 8
          \/ m = 9 \/ m = 10 \/ m = 11 \/ m = 12)%Z as Hcases by lia.
  repeat (destruct Hcases as [->|Hcases]; [reflexivity|]).
  subst m. reflexivity.
Qed.

Lemma season_mapping_southern_witness :
  dict_get season_mapping 1 = Some "Sommer"
  /\ dict_get season_mapping 7 = Some "Winter".
Proof.
  split.
  - apply (season_mapping_southern 1). lia.
  - apply (season_mapping_southern 7). lia.
Defined.

(** The labels are not the English words. *)
Lemma season_mapping_not_english :
  ~ (dict_get season_mapping 1 = Some "summer"
     /\ dict_get season_mapping 7 = Some "winter").
Proof. intros [H _]. vm_compute in H. discriminate H. Qed.

End Seasons.

Section LoaderFacts.
Context {F : Type} {fl : Float64 F}.
Local Abbreviation Cell := (@Cell F).
Local Abbreviation Column := (@Column F).
Local Abbreviation DataFrame := (@DataFrame F).
Local Abbreviation Row := (@Row F).

(** C7: with no file matching, [load_data] raises [FileNotFoundError]
    before reading anything, while [merge_parquet_files], which has no such
    check, reaches [pd.concat] with an empty list and raises [ValueError]. *)
Theorem loaders_without_files (File : Type)
  (read_csv read_parquet : File -> Result DataFrame)
  (concat_frames : list DataFrame -> DataFrame) (data_dir : string) :
  load_data File (fun _ => []) read_csv concat_frames data_dir
  = Raise FileNotFoundError
  /\ merge_parquet_files File (fun _ => []) read_parquet concat_frames
     = Raise ValueError.
Proof. split; reflexivity. Qed.

(** With at least one file matching, [load_data] reads every file and
    concatenates the tables. *)
Lemma load_data_reads_all (File : Type) (glob : string -> list File)
  (read_csv : File -> Result DataFrame)
  (concat_frames : list DataFrame -> DataFrame) (data_dir : string) :
  glob (path_join data_dir "*.csv") <> [] ->
  load_data File glob read_csv concat_frames data_dir
  = (dfs <- traverse read_csv (glob (path_join data_dir "*.csv")) ;;
     Ok (concat_frames dfs)).
Proof.
  intros Hne. unfold load_data.
  destruct (glob _) as [|f fs]; [done|].
  destruct (traverse read_csv (f :: fs)) as [dfs|e] eqn:Et; simpl; [|done].
  apply traverse_length in Et. destruct dfs; [discriminate|done].
Qed.

End LoaderFacts.

Section OneHot.
Context {F : Type} {A : Type} `{Dtype A}.
Local Abbreviation dummy_block := (dummy_block (F:=F)).

Lemma levels_Permutation (xs : list (option A)) : levels xs ≡ₚ observed xs.
Proof. apply merge_sort_Permutation. Qed.

Lemma levels_NoDup (xs : list (option A)) : NoDup (levels xs).
Proof.
  rewrite levels_Permutation. apply NoDup_remove_dups.
Qed.

Lemma elem_of_observed (xs : list (option A)) (a : A) :
  a ∈ observed xs <-> Some a ∈ xs.
Proof.
  unfold observed. rewrite elem_of_remove_dups, list_elem_of_omap. split.
  - intros (x & Hx & Hid). simpl in Hid. by subst.
  - intros Hx. by exists (Some a).
Qed.

Lemma elem_of_levels (xs : list (option A)) (a : A) :
  a ∈ levels xs <-> Some a ∈ xs.
Proof. rewrite levels_Permutation. apply elem_of_observed. Qed.

Lemma count_true_app (bs cs : list bool) :
  count_true (bs ++ cs) = count_true bs + count_true cs.
Proof. unfold count_true. by rewrite List.filter_app, length_app. Qed.

Lemma count_hit (l : list A) (a : A) :
  NoDup l -> a ∈ l ->
  count_true (map (fun c => bool_decide (Some a = Some c)) l) = 1.
Proof.
  induction 1 as [|c l Hc Hnd IH]; intros Ha.
  - by apply elem_of_nil in Ha.
  - apply elem_of_cons in Ha. unfold count_true in *. simpl.
    destruct (decide (a = c)) as [->|Hne].
    + rewrite bool_decide_eq_true_2 by done. simpl. f_equal.
      clear IH Ha Hnd. induction l as [|c' l IH]; [done|]. simpl.
      apply not_elem_of_cons in Hc as [Hne Hc].
      rewrite bool_decide_eq_false_2 by congruence. by apply IH.
    + rewrite bool_decide_eq_false_2 by congruence.
      apply IH. by destruct Ha.
Qed.

Lemma count_miss (l : list A) :
  count_true (map (fun c => bool_decide (@None A = Some c)) l) = 0.
Proof. unfold count_true. by induction l. Qed.

Lemma nth_map_lookup {X} (f : X -> bool) (xs : list X) (i : nat) (x : X) :
  xs !! i = Some x -> nth i (map f xs) false = f x.
Proof.
  intros Hx. apply nth_lookup_Some.
  change (map f xs) with (f <$> xs). by rewrite list_lookup_fmap, Hx.
Qed.

Lemma indicator_row_block (prefix : string) (xs : list (option A)) (i : nat)
  (x : option A) :
  xs !! i = Some x ->
  indicator_row (dummy_block prefix xs) i
  = map (fun c => bool_decide (x = Some c)) (levels xs)
    ++ [bool_decide (x = None)].
Proof.
  intros Hx. unfold indicator_row, dummy_block.
  rewrite map_app, map_map. simpl. f_equal.
  - apply map_ext. intros c.
    by rewrite (nth_map_lookup (fun y => bool_decide (y = Some c)) _ _ _ Hx).
  - by rewrite (nth_map_lookup (fun y => bool_decide (y = None)) _ _ _ Hx).
Qed.

(** In each row exactly one indicator of a block is set. *)
Lemma dummy_block_one_hot (prefix : string) (xs : list (option A)) (i : nat) :
  i < length xs -> count_true (indicator_row (dummy_block prefix xs) i) = 1.
Proof.
  intros Hi. destruct (lookup_lt_is_Some_2 xs i Hi) as [x Hx].
  rewrite (indicator_row_block _ _ _ _ Hx), count_true_app.
  destruct x as [a|].
  - rewrite count_hit.
    + by rewrite bool_decide_eq_false_2.
    + apply levels_NoDup.
    + apply elem_of_levels. by eapply list_elem_of_lookup_2.
  - by rewrite count_miss.
Qed.

Lemma dummy_block_length (prefix : string) (xs : list (option A)) :
  length (dummy_block prefix xs) = S (length (observed xs)).
Proof.
  unfold dummy_block. rewrite length_app, length_map. simpl.
  rewrite (Permutation_length (levels_Permutation xs)). lia.
Qed.

End OneHot.

Section Encoding.
Context {F : Type} {fl : Float64 F}.
Local Abbreviation Cell := (@Cell F).
Local Abbreviation Column := (@Column F).
Local Abbreviation DataFrame := (@DataFrame F).
Local Abbreviation Row := (@Row F).

Lemma traverse_In {X Y} (f : X -> Result Y) (l : list X) (ys : list Y) (x : X) :
  traverse f l = Ok ys -> In x l ->
  exists y l1 l2, f x = Ok y /\ ys = l1 ++ y :: l2.
Proof.
  revert ys; induction l as [|x0 l IH]; simpl; intros ys Hys Hin; [done|].
  apply bind_Ok in Hys as (y0 & Hy0 & Hys).
  apply bind_Ok in Hys as (ys' & Hl & Hys). inversion Hys; subst.
  destruct Hin as [->|Hin].
  - by exists y0, [], ys'.
  - destruct (IH _ Hl Hin) as (y & l1 & l2 & Hy & ->).
    by exists y, (y0 :: l1), l2.
Qed.

Lemma isna_decide {X} (inj : X -> Cell) (x : option X) :
  (forall a, isna (inj a) = false) ->
  bool_decide (x = None) = isna (to_cell inj x).
Proof. intros Hinj. destruct x as [a|]; simpl; [by rewrite Hinj|done]. Qed.

Lemma dummy_block_cells {X} `{Dtype X} (box : X -> Cell) (col : string)
  (xs : list (option X)) (v : Column) :
  Inj (=) (=) box -> (forall a, isna (box a) = false) ->
  (forall a, cell_str (box a) = dt_str a) ->
  cells_of v = map (to_cell box) xs ->
  dummy_block col xs
  = map (indicator col v) (map box (levels xs))
    ++ [(col +:+ "_nan", BoolCol (isna_col v))].
Proof.
  intros Hinj Hna Hstr Hcells. unfold dummy_block, indicator, isna_col.
  rewrite map_map, Hcells. f_equal.
  - apply map_ext. intros a. rewrite Hstr, map_map. do 2 f_equal.
    apply map_ext. intros x. apply bool_decide_ext.
    destruct x as [b|]; simpl.
    + split; [by intros [= ->]|by intros ->%Hinj].
    + split; [done|]. intros Heq. specialize (Hna a).
      by rewrite <- Heq in Hna.
  - do 3 f_equal. rewrite map_map. apply map_ext. intros x.
    by apply isna_decide.
Qed.

Lemma levels_cells {X} `{Dtype X} (box : X -> Cell) (xs : list (option X)) :
  Inj (=) (=) box -> (forall a, isna (box a) = false) ->
  NoDup (map box (levels xs))
  /\ forall a, In a (map box (levels xs))
               <-> In a (map (to_cell box) xs) /\ isna a = false.
Proof.
  intros Hinj Hna. split.
  - change (map box (levels xs)) with (box <$> levels xs).
    apply NoDup_fmap_2; [done|apply levels_NoDup].
  - intros a. rewrite !in_map_iff. split.
    + intros (l & <- & Hl). split; [|done].
      exists (Some l). split; [done|].
      by apply list_elem_of_In, elem_of_levels, list_elem_of_In.
    + intros [([l|] & <- & Hl) Hisna]; [|done].
      exists l. split; [done|].
      by apply list_elem_of_In, elem_of_levels, list_elem_of_In.
Qed.

(** The indicator columns of an encoded column: one for each distinct value
    present, then the one for a missing value. *)
Lemma dummies_of_values (col : string) (v : Column) :
  exists vals,
    dummies_of col v
    = map (indicator col v) vals ++ [(col +:+ "_nan", BoolCol (isna_col v))]
    /\ NoDup vals
    /\ forall a, In a vals <-> In a (cells_of v) /\ isna a = false.
Proof.
  destruct v as [xs|xs|xs|xs].
  - exists (map CStr (levels xs)). split.
    + apply (dummy_block_cells CStr); try done. by intros ?? [= ->].
    + apply (levels_cells CStr); [by intros ?? [= ->]|done].
  - exists (map CNum (levels xs)). split.
    + apply (dummy_block_cells CNum); try done. by intros ?? [= ->].
    + apply (levels_cells CNum); [by intros ?? [= ->]|done].
  - exists (map CTime (levels xs)). split.
    + apply (dummy_block_cells CTime); try done. by intros ?? [= ->].
    + apply (levels_cells CTime); [by intros ?? [= ->]|done].
  - exists (map CBool (levels (map Some xs))). split.
    + apply (dummy_block_cells CBool); try done.
      * by intros ?? [= ->].
      * simpl. by rewrite map_map.
    + assert (cells_of (BoolCol xs) = map (to_cell CBool) (map Some xs)) as ->
        by (simpl; by rewrite map_map).
      apply (levels_cells CBool); [by intros ?? [= ->]|done].
Qed.

Lemma dummies_of_one_hot (col : string) (v : Column) (i : nat) :
  i < col_len v -> count_true (indicator_row (dummies_of col v) i) = 1.
Proof.
  destruct v as [xs|xs|xs|xs]; simpl; intros Hi;
    apply dummy_block_one_hot; by rewrite ?length_map.
Qed.

(** C1: after one-hot encoding, the indicator columns of an encoded column
    stand together in the table: one for each distinct value present, set in
    the rows holding that value, then the one for a missing value, set
    exactly in the rows where the value was missing; and in every row exactly
    one of them is set. *)
Theorem one_hot_exactly_one (d d' : DataFrame) (cols : list string)
  (col : string) (v : Column) (i : nat) :
  aligned d ->
  get_dummies d cols = Ok d' ->
  In col cols ->
  getitem d col = Ok v ->
  i < nrows d' ->
  exists pre vals post,
    columns d'
    = pre ++ (map (indicator col v) vals
              ++ [(col +:+ "_nan", BoolCol (isna_col v))]) ++ post
    /\ NoDup vals
    /\ (forall a, In a vals <-> In a (cells_of v) /\ isna a = false)
    /\ count_true
         (indicator_row
            (map (indicator col v) vals
             ++ [(col +:+ "_nan", BoolCol (isna_col v))]) i)
       = 1.
Proof.
  intros Hal Hgd Hin Hv Hi. unfold get_dummies in Hgd.
  apply bind_Ok in Hgd as (enc & Henc & Hd'). inversion Hd'; subst d'; clear Hd'.
  simpl in *.
  destruct (traverse_In _ _ _ _ Henc Hin) as (b & l1 & l2 & Hb & ->).
  rewrite Hv in Hb. simpl in Hb. inversion Hb; subst b; clear Hb.
  destruct (dummies_of_values col v) as (vals & Hshape & Hnd & Hvals).
  exists (List.filter (fun p => negb (mem_str cols p.1)) (columns d) ++ concat l1),
    vals, (concat l2).
  split; [|split; [done|split; [done|]]].
  - rewrite concat_app. simpl. rewrite Hshape. by rewrite <- !app_assoc.
  - rewrite <- Hshape. apply dummies_of_one_hot.
    by rewrite (getitem_len _ _ _ Hal Hv).
Qed.

End Encoding.

Lemma one_hot_exactly_one_witness :
  exists pre vals post,
    columns sex_encoded
    = pre ++ (map (indicator "Sex" sex_column) vals
              ++ [("Sex" +:+ "_nan", BoolCol (isna_col sex_column))]) ++ post
    /\ NoDup vals
    /\ (forall a, In a vals <-> In a (cells_of sex_column) /\ isna a = false)
    /\ count_true
         (indicator_row
            (map (indicator "Sex" sex_column) vals
             ++ [("Sex" +:+ "_nan", BoolCol (isna_col sex_column))]) 2)
       = 1.
Proof.
  apply (one_hot_exactly_one sex_sample sex_encoded ["Sex"] "Sex").
  - repeat constructor.
  - reflexivity.
  - simpl; auto.
  - reflexivity.
  - simpl; lia.
Defined.

Section ModeFacts.
Context {A : Type} `{Dtype A} `{!DtypeOrder A}.

Local Abbreviation best xs :=
  (max_list (map (fun v => value_count v xs) (observed xs))).

Lemma value_count_le_best (xs : list (option A)) (v : A) :
  Some v ∈ xs -> value_count v xs <= best xs.
Proof.
  intros Hv. apply max_list_elem_of_le.
  change (value_count v xs ∈ (fun v => value_count v xs) <$> observed xs).
  apply list_elem_of_fmap. exists v. by rewrite elem_of_observed.
Qed.

Lemma elem_of_mode (xs : list (option A)) (v : A) :
  v ∈ mode xs <-> Some v ∈ xs /\ value_count v xs = best xs.
Proof.
  unfold mode. rewrite merge_sort_Permutation.
  rewrite list_elem_of_In, filter_In, <- list_elem_of_In.
  by rewrite elem_of_observed, Nat.eqb_eq.
Qed.

Lemma mode_nonempty (xs : list (option A)) (v : A) :
  Some v ∈ xs -> mode xs <> [].
Proof.
  intros Hv Hnil.
  assert (observed xs <> []) as Hobs.
  { intros Hobs. apply elem_of_observed in Hv. rewrite Hobs in Hv.
    by apply elem_of_nil in Hv. }
  assert (best xs ∈ map (fun v => value_count v xs) (observed xs)) as Hbest.
  { apply max_list_elem_of. intros Hmap. apply Hobs.
    by apply map_eq_nil in Hmap. }
  change (best xs ∈ (fun v => value_count v xs) <$> observed xs) in Hbest.
  apply list_elem_of_fmap in Hbest as (w & Hw & Hin).
  assert (w ∈ mode xs) as Hmode.
  { apply elem_of_mode. split; [by apply elem_of_observed|done]. }
  rewrite Hnil in Hmode. by apply elem_of_nil in Hmode.
Qed.

Lemma mode_head_least (xs : list (option A)) (m v : A) (rest : list A) :
  mode xs = m :: rest -> v ∈ mode xs -> dt_le m v.
Proof.
  intros Hm Hv.
  assert (StronglySorted dt_le (mode xs)) as Hs.
  { unfold mode. apply StronglySorted_merge_sort; apply _. }
  rewrite Hm in Hs, Hv. inversion Hs as [|? ? _ Hall]; subst.
  apply elem_of_cons in Hv as [->|Hv].
  - by destruct (total dt_le m m).
  - rewrite Forall_forall in Hall. by apply Hall.
Qed.

Lemma fillna_length (m : A) (xs : list (option A)) :
  length (fillna m xs) = length xs.
Proof. apply length_map. Qed.

Lemma fillna_lookup (m : A) (xs : list (option A)) (i : nat) :
  fillna m xs !! i
  = (fun x => match x with Some _ => x | None => Some m end) <$> xs !! i.
Proof. unfold fillna. apply list_lookup_fmap. Qed.

(** What [col.fillna(col.mode()[0])] does to a column holding a value. *)
Lemma fillna_mode_spec (xs : list (option A)) (a : A) :
  Some a ∈ xs ->
  exists m,
    fillna_mode xs = Ok (fillna m xs)
    /\ Some m ∈ xs
    /\ forall v, Some v ∈ xs ->
         value_count v xs <= value_count m xs
         /\ (value_count v xs = value_count m xs -> dt_le m v).
Proof.
  intros Ha. unfold fillna_mode.
  destruct (mode xs) as [|m rest] eqn:Hm; [by apply mode_nonempty in Ha|].
  assert (m ∈ mode xs) as Hin by (rewrite Hm; apply elem_of_cons; by left).
  apply elem_of_mode in Hin as [Hmx Hbest].
  exists m. split; [done|split; [done|]].
  intros v Hv. rewrite Hbest. split; [by apply value_count_le_best|].
  intros Heq. apply (mode_head_least xs m v rest Hm).
  apply elem_of_mode. by split.
Qed.

(** A column without any value has no mode, and indexing raises. *)
Lemma fillna_mode_all_missing (xs : list (option A)) :
  (forall a, Some a ∉ xs) -> fillna_mode xs = Raise KeyError.
Proof.
  intros Hnone. unfold fillna_mode.
  destruct (mode xs) as [|m rest] eqn:Hm; [done|].
  assert (m ∈ mode xs) as Hin by (rewrite Hm; apply elem_of_cons; by left).
  apply elem_of_mode in Hin as [Hmx _]. by apply Hnone in Hmx.
Qed.

End ModeFacts.

Section Orders.
Context {F : Type} {fl : Float64 F}.
Local Abbreviation Cell := (@Cell F).
Local Abbreviation Column := (@Column F).
Local Abbreviation DataFrame := (@DataFrame F).
Local Abbreviation Row := (@Row F).

#[export] Instance string_order : DtypeOrder string.
Proof. split; simpl; apply _. Qed.

#[export] Instance timestamp_order : DtypeOrder Timestamp.
Proof.
  split.
  - intros [y1 m1 d1 h1 i1 s1] [y2 m2 d2 h2 i2 s2] [y3 m3 d3 h3 i3 s3].
    simpl. unfold ts_le, ts_fields. simpl. lia.
  - intros [y1 m1 d1 h1 i1 s1] [y2 m2 d2 h2 i2 s2].
    simpl. unfold ts_le, ts_fields. simpl. lia.
Qed.

#[export] Instance bool_order : DtypeOrder bool.
Proof.
  split.
  - intros [] [] []; simpl; unfold bool_le; intuition congruence.
  - intros [] []; simpl; unfold bool_le; auto.
Qed.

#[export] Instance float_order `{!Float64Laws fl} : DtypeOrder F.
Proof. split; simpl; apply _. Qed.

End Orders.

Section ModeFill.
Context {F : Type} {fl : Float64 F} `{!Float64Laws fl}.
Local Abbreviation Cell := (@Cell F).
Local Abbreviation Column := (@Column F).
Local Abbreviation DataFrame := (@DataFrame F).
Local Abbreviation Row := (@Row F).
Local Abbreviation CNa := (@CNa F).
Local Abbreviation CStr := (@CStr F).
Local Abbreviation CTime := (@CTime F).
Local Abbreviation CBool := (@CBool F).

Lemma count_in_cells {X} `{Dtype X} (box : X -> Cell) (xs : list (option X))
  (v : X) :
  Inj (=) (=) box -> (forall a, isna (box a) = false) ->
  count_in (box v) (map (to_cell box) xs) = value_count v xs.
Proof.
  intros Hinj Hna. unfold count_in, value_count.
  induction xs as [|x xs IH]; simpl; [done|].
  destruct x as [a|]; simpl; repeat case_bool_decide; simpl; rewrite ?IH;
    try done.
  all: exfalso; match goal with
       | Heq : Some _ = Some _ |- _ => congruence
       | Heq : CNa = _ ?w |- _ =>
           specialize (Hna w); rewrite <- Heq in Hna; discriminate
       | Heq : _ ?x = _ ?y |- _ => pose proof (Hinj x y Heq); congruence
       end.
Qed.

Lemma cells_value {X} (box : X -> Cell) (xs : list (option X)) (c : Cell) :
  In c (map (to_cell box) xs) -> isna c = false ->
  exists a, c = box a /\ Some a ∈ xs.
Proof.
  intros Hin Hna. apply in_map_iff in Hin as ([a|] & <- & Hx); simpl in *.
  - exists a. split; [done|]. by apply list_elem_of_In.
  - discriminate.
Qed.

Lemma fillna_mode_cells {X} `{Dtype X} `{!DtypeOrder X} (box : X -> Cell)
  (xs : list (option X)) :
  Inj (=) (=) box -> (forall a, isna (box a) = false) ->
  (forall a b, dt_le a b -> cell_le (box a) (box b)) ->
  (exists v, In v (map (to_cell box) xs) /\ isna v = false) ->
  exists m,
    fillna_mode xs = Ok (fillna m xs)
    /\ (isna (box m) = false /\ In (box m) (map (to_cell box) xs)
        /\ forall v, In v (map (to_cell box) xs) -> isna v = false ->
             count_in v (map (to_cell box) xs)
             <= count_in (box m) (map (to_cell box) xs)
             /\ (count_in v (map (to_cell box) xs)
                 = count_in (box m) (map (to_cell box) xs)
                 -> cell_le (box m) v))
    /\ forall i, i < length xs ->
         nth i (map (to_cell box) (fillna m xs)) CNa
         = if isna (nth i (map (to_cell box) xs) CNa) then box m
           else nth i (map (to_cell box) xs) CNa.
Proof.
  intros Hinj Hna Hle (v0 & Hv0 & Hv0na).
  destruct (cells_value _ _ _ Hv0 Hv0na) as (a & -> & Ha).
  destruct (fillna_mode_spec xs a Ha) as (m & Hfill & Hm & Hbest).
  exists m. split; [done|]. split.
  - split; [apply Hna|]. split.
    + apply in_map_iff. exists (Some m). split; [done|by apply list_elem_of_In].
    + intros v Hv Hvna.
      destruct (cells_value _ _ _ Hv Hvna) as (b & -> & Hb).
      rewrite !count_in_cells by done.
      destruct (Hbest b Hb) as [Hcnt Htie]. split; [done|].
      intros Heq. by apply Hle, Htie.
  - intros i Hi. destruct (lookup_lt_is_Some_2 xs i Hi) as [x Hx].
    rewrite (nth_lookup_Some (map (to_cell box) xs) i CNa (to_cell box x)).
    2: { change (map (to_cell box) xs) with (to_cell box <$> xs).
         by rewrite list_lookup_fmap, Hx. }
    rewrite (nth_lookup_Some _ i CNa
               (to_cell box (match x with Some _ => x | None => Some m end))).
    2: { change (map (to_cell box) (fillna m xs))
           with (to_cell box <$> fillna m xs).
         by rewrite list_lookup_fmap, fillna_lookup, Hx. }
    destruct x as [b|]; simpl; [by rewrite Hna|done].
Qed.

Lemma any_isna_false (c : Column) :
  (forall i, i < col_len c -> isna (cell_at c i) = false) ->
  any (isna_col c) = false.
Proof.
  intros Hall. unfold any, isna_col. apply not_true_is_false. intros Hex.
  apply existsb_exists in Hex as (b & Hin & Hb). simpl in Hb. subst b.
  apply in_map_iff in Hin as (v & Hv & Hin).
  apply (In_nth _ _ CNa) in Hin as (i & Hi & Hnth).
  rewrite cells_of_length in Hi. specialize (Hall i Hi).
  unfold cell_at in Hall. congruence.
Qed.

Lemma any_isna_cells (c : Column) (i : nat) :
  any (isna_col c) = false -> i < col_len c -> isna (cell_at c i) = false.
Proof.
  intros Hany Hi. apply not_true_is_false. intros Hna.
  apply not_true_iff_false in Hany. apply Hany.
  unfold any, isna_col. apply existsb_exists. exists true. split; [|done].
  apply in_map_iff. exists (cell_at c i). split; [done|].
  apply nth_In. by rewrite cells_of_length.
Qed.

(** [fillna_mode_col] on a column holding a value. *)
Lemma fillna_mode_col_spec (c : Column) :
  (exists v, In v (cells_of c) /\ isna v = false) ->
  exists c' m,
    fillna_mode_col c = Ok c' /\ is_mode m c /\ col_len c' = col_len c
    /\ forall i, i < col_len c ->
         cell_at c' i = if isna (cell_at c i) then m else cell_at c i.
Proof.
  intros Hv. destruct c as [xs|xs|xs|xs]; simpl in Hv.
  - destruct (fillna_mode_cells CStr xs) as (m & Hf & Hm & Hc); try done.
    { by intros ?? [= ->]. }
    exists (ObjCol (fillna m xs)), (CStr m). simpl. rewrite Hf. simpl.
    by rewrite fillna_length.
  - destruct (fillna_mode_cells CNum xs) as (m & Hf & Hm & Hc); try done.
    { by intros ?? [= ->]. }
    exists (NumCol (fillna m xs)), (CNum m). simpl. rewrite Hf. simpl.
    by rewrite fillna_length.
  - destruct (fillna_mode_cells CTime xs) as (m & Hf & Hm & Hc); try done.
    { by intros ?? [= ->]. }
    exists (TimeCol (fillna m xs)), (CTime m). simpl. rewrite Hf. simpl.
    by rewrite fillna_length.
  - assert (map CBool xs = map (to_cell CBool) (map Some xs)) as Hcells
      by (by rewrite map_map).
    rewrite Hcells in Hv.
    destruct (fillna_mode_cells CBool (map Some xs)) as (m & Hf & Hm & Hc);
      try done.
    { by intros ?? [= ->]. }
    exists (BoolCol xs), (CBool m). simpl.
    unfold fillna_mode in Hf. destruct (mode (map Some xs)); [done|].
    split; [done|]. split; [|split; [done|]].
    + unfold is_mode, count_cell. simpl. by rewrite Hcells.
    + intros i Hi. unfold cell_at. simpl.
      destruct (lookup_lt_is_Some_2 xs i Hi) as [bi Hbi].
      rewrite (nth_lookup_Some (map CBool xs) i CNa (CBool bi)); [done|].
      change (map CBool xs) with (CBool <$> xs).
      by rewrite list_lookup_fmap, Hbi.
Qed.

Lemma getitem_contains (d : DataFrame) c v : getitem d c = Ok v -> contains d c = true.
Proof. intros Hg%getitem_Ok. unfold contains. by rewrite Hg. Qed.

Lemma getitem_setitem_eq (d : DataFrame) c v d' :
  setitem d c v = Ok d' -> getitem d' c = Ok v.
Proof.
  intros (_ & ->)%setitem_Ok. unfold getitem. simpl.
  by rewrite lookup_assoc_set_eq.
Qed.

Lemma getitem_setitem_ne (d : DataFrame) c c' v d' :
  c <> c' -> setitem d c v = Ok d' -> getitem d' c' = getitem d c'.
Proof.
  intros Hne (_ & ->)%setitem_Ok. unfold getitem. simpl.
  by rewrite lookup_assoc_set_ne.
Qed.

Lemma setitem_succeeds (d : DataFrame) c v :
  col_len v = nrows d -> exists d', setitem d c v = Ok d'.
Proof.
  intros Hlen. unfold setitem. rewrite Hlen, Nat.eqb_refl. eauto.
Qed.

(** C4, as the code has it: mode-fill imputation of a column that holds at
    least one value succeeds and leaves no missing value in it; every former
    missing value holds the most frequent value, a tie going to the least
    value in sort order; the values present stay. *)
Theorem mode_fill_least_mode (d : DataFrame) (col : string) (c : Column) :
  aligned d ->
  getitem d col = Ok c ->
  (exists v, In v (cells_of c) /\ isna v = false) ->
  exists d' c' m,
    impute_mode d col = Ok d'
    /\ getitem d' col = Ok c'
    /\ is_mode m c
    /\ any (isna_col c') = false
    /\ forall i, i < nrows d ->
         cell_at c' i = if isna (cell_at c i) then m else cell_at c i.
Proof.
  intros Hal Hc Hv.
  destruct (fillna_mode_col_spec c Hv) as (c' & m & Hfill & Hm & Hlen & Hcells).
  pose proof (getitem_len _ _ _ Hal Hc) as Hclen.
  unfold impute_mode. rewrite (getitem_contains _ _ _ Hc), Hc. simpl.
  destruct (any (isna_col c)) eqn:Hany.
  - rewrite Hfill. simpl.
    destruct (setitem_succeeds d col c') as [d' Hd']; [congruence|].
    exists d', c', m. rewrite Hd'.
    split; [done|]. split; [by eapply getitem_setitem_eq|]. split; [done|].
    split.
    + apply any_isna_false. intros i Hi. rewrite Hcells by lia.
      destruct (isna (cell_at c i)) eqn:E; [apply Hm|done].
    + intros i Hi. apply Hcells. lia.
  - exists d, c, m. do 3 (split; [done|]). split; [done|].
    intros i Hi. by rewrite (any_isna_cells c i Hany) by lia.
Qed.

End ModeFill.


Section Coordinates.
Context {F : Type} {fl : Float64 F}.
Local Abbreviation Cell := (@Cell F).
Local Abbreviation Column := (@Column F).
Local Abbreviation DataFrame := (@DataFrame F).

Lemma impute_column_lookup (X : list (option F * option F)) (j : bool)
  (xs : list (option F)) (i : nat) (x : F) :
  xs !! i = Some (Some x) -> impute_column X j xs !! i = Some (Some x).
Proof. intros Hx. unfold impute_column. by rewrite list_lookup_imap, Hx. Qed.

Lemma coordinate_Some (d : DataFrame) (col : string) (i : nat) (x : F) :
  coordinate d col i = Some x <->
  exists c xs, getitem d col = Ok c /\ as_float c = Ok xs
               /\ xs !! i = Some (Some x).
Proof.
  unfold coordinate. split.
  - destruct (getitem d col) as [c|]; [|done].
    destruct (as_float c) as [xs|] eqn:Ec; [|done].
    destruct (xs !! i) as [[y|]|] eqn:E; [|done..].
    intros [= ->]. by exists c, xs.
  - intros (c & xs & -> & -> & ->). done.
Qed.

(** C5: a row that has both coordinates before the nearest-neighbour
    imputation has the same two coordinates after it. *)
Theorem knn_keeps_present (d d' : DataFrame) (i : nat) (x y : F) :
  knn_impute d = Ok d' ->
  coordinate d "Latitude" i = Some x ->
  coordinate d "Longitude" i = Some y ->
  coordinate d' "Latitude" i = Some x /\ coordinate d' "Longitude" i = Some y.
Proof.
  intros Hk Hx Hy.
  pose proof Hx as (lat_c & lat & Hlat_c & Hlat & Hxi)%coordinate_Some.
  pose proof Hy as (lon_c & lon & Hlon_c & Hlon & Hyi)%coordinate_Some.
  unfold knn_impute in Hk. simpl in Hk.
  rewrite (getitem_contains _ _ _ Hlat_c), (getitem_contains _ _ _ Hlon_c) in Hk.
  simpl in Hk. rewrite Hlat_c, Hlon_c in Hk. simpl in Hk.
  destruct (any (isna_col lat_c) || any (isna_col lon_c)).
  2: { inversion Hk; subst d'. by split. }
  rewrite Hlat, Hlon in Hk. simpl in Hk.
  apply bind_Ok in Hk as (out & Hout & Hk).
  unfold KNNImputer_fit_transform in Hout.
  destruct (forallb finite_or_nan (lat ++ lon)); [|done].
  inversion Hout; subst out; clear Hout.
  destruct (all_nan lat), (all_nan lon); simpl in Hk; try done.
  apply bind_Ok in Hk as (d1 & Hd1 & Hd').
  split; apply coordinate_Some.
  - exists (NumCol (impute_column (zip lat lon) false lat)), 
      (impute_column (zip lat lon) false lat).
    split; [|split; [reflexivity|by apply impute_column_lookup]].
    assert ("Longitude" <> "Latitude") as Hne by discriminate.
    rewrite (getitem_setitem_ne _ _ _ _ _ Hne Hd').
    by apply (getitem_setitem_eq _ _ _ _ Hd1).
  - exists (NumCol (impute_column (zip lat lon) true lon)),
      (impute_column (zip lat lon) true lon).
    split; [|split; [reflexivity|by apply impute_column_lookup]].
    by apply (getitem_setitem_eq _ _ _ _ Hd').
Qed.

End Coordinates.

Section Masks.

Lemma take_mask_cons {A} (b : bool) (m : list bool) (x : A) (xs : list A) :
  take_mask (b :: m) (x :: xs)
  = if b then x :: take_mask m xs else take_mask m xs.
Proof. unfold take_mask. simpl. by destruct b. Qed.

Lemma take_mask_nil_r {A} (m : list bool) : take_mask m (@nil A) = [].
Proof. by destruct m. Qed.

Lemma take_mask_map {A B} (f : A -> B) (m : list bool) (xs : list A) :
  take_mask m (map f xs) = map f (take_mask m xs).
Proof.
  revert xs; induction m as [|b m IH]; intros [|x xs]; simpl; try done.
  rewrite !take_mask_cons, IH. by destruct b.
Qed.

Lemma take_mask_all {A} (xs : list A) :
  take_mask (repeat true (length xs)) xs = xs.
Proof.
  induction xs as [|x xs IH]; simpl; [done|]. by rewrite take_mask_cons, IH.
Qed.

Lemma take_mask_length {A} (m : list bool) (xs : list A) :
  length xs = length m -> length (take_mask m xs) = length (List.filter id m).
Proof.
  revert xs; induction m as [|b m IH]; intros [|x xs]; simpl; try done.
  intros [= Hlen]. rewrite take_mask_cons. destruct b; simpl; by rewrite IH.
Qed.

Lemma take_mask_and {A} (m1 m2 : list bool) (xs : list A) :
  length m2 = length m1 -> length xs = length m1 ->
  take_mask (take_mask m1 m2) (take_mask m1 xs) = take_mask (and_mask m1 m2) xs.
Proof.
  revert m2 xs; induction m1 as [|b m1 IH]; intros [|c m2] [|x xs]; simpl;
    try done.
  intros [= H2] [= Hx]. unfold and_mask in *. simpl.
  rewrite !take_mask_cons.
  destruct b, c; simpl; rewrite ?take_mask_cons; simpl; by rewrite IH.
Qed.

Lemma take_mask_zip_with (m a b : list bool) :
  take_mask m (and_mask a b) = and_mask (take_mask m a) (take_mask m b).
Proof.
  revert a b; induction m as [|c m IH]; intros [|x a] [|y b];
    unfold and_mask in *; simpl; try done.
  - rewrite take_mask_nil_r. by destruct (take_mask _ _).
  - rewrite !take_mask_cons. destruct c; simpl; by rewrite IH.
Qed.

Lemma take_mask_self (m : list bool) :
  take_mask m m = repeat true (length (List.filter id m)).
Proof.
  induction m as [|b m IH]; [done|]. rewrite take_mask_cons.
  destruct b; simpl; by rewrite IH.
Qed.

Lemma count_take_and (m1 m2 : list bool) :
  length m2 = length m1 ->
  length (List.filter id (take_mask m1 m2))
  = length (List.filter id (and_mask m1 m2)).
Proof.
  revert m2; induction m1 as [|b m1 IH]; intros [|c m2]; simpl; try done.
  intros [= Hlen]. rewrite take_mask_cons. unfold and_mask in *. simpl.
  destruct b, c; simpl; by rewrite IH.
Qed.

Lemma and_mask_length (a b : list bool) :
  length b = length a -> length (and_mask a b) = length a.
Proof. intros Hlen. unfold and_mask. rewrite length_zip_with. lia. Qed.

Lemma and_mask_true_r (a : list bool) :
  and_mask a (repeat true (length a)) = a.
Proof.
  unfold and_mask. induction a as [|x a IH]; simpl; [done|].
  by rewrite IH, andb_true_r.
Qed.

Lemma and_mask_true_l (a : list bool) :
  and_mask (repeat true (length a)) a = a.
Proof. unfold and_mask. induction a as [|x a IH]; simpl; [done|]. by rewrite IH. Qed.

End Masks.

(** Two conjunctions of the same masks in different order are the same list. *)
Ltac mask_eq :=
  unfold and_mask; apply list_eq; intros ?i; rewrite !lookup_zip_with;
  repeat match goal with
         | |- context [?l !! ?j] =>
             lazymatch l with
             | zip_with _ _ _ => fail
             | _ => destruct (l !! j) as [[]|]
             end
         end; reflexivity.

Section Trips.
Context {F : Type} {fl : Float64 F}.
Local Abbreviation Cell := (@Cell F).
Local Abbreviation Column := (@Column F).
Local Abbreviation DataFrame := (@DataFrame F).

Lemma take_col_len (m : list bool) (c : Column) :
  col_len c = length m -> col_len (take_col m c) = length (List.filter id m).
Proof. destruct c; simpl; apply take_mask_length. Qed.

Lemma take_col_and (m1 m2 : list bool) (c : Column) :
  length m2 = length m1 -> col_len c = length m1 ->
  take_col (take_mask m1 m2) (take_col m1 c) = take_col (and_mask m1 m2) c.
Proof. intros H2 Hc. destruct c; simpl in *; by rewrite take_mask_and. Qed.

Lemma take_col_all (c : Column) : take_col (repeat true (col_len c)) c = c.
Proof. destruct c; simpl; by rewrite take_mask_all. Qed.

Lemma cells_of_take_col (m : list bool) (c : Column) :
  cells_of (take_col m c) = take_mask m (cells_of c).
Proof. destruct c; simpl; by rewrite take_mask_map. Qed.

Lemma notna_take_col (m : list bool) (c : Column) :
  notna_col (take_col m c) = take_mask m (notna_col c).
Proof.
  unfold notna_col, isna_col. by rewrite cells_of_take_col, !take_mask_map.
Qed.

Lemma notna_col_length (c : Column) : length (notna_col c) = col_len c.
Proof.
  unfold notna_col, isna_col. by rewrite !length_map, cells_of_length.
Qed.

Lemma all_nan_take {A} (m : list bool) (xs : list (option A)) :
  all_nan xs = true -> all_nan (take_mask m xs) = true.
Proof.
  revert xs; induction m as [|b m IH]; intros [|x xs]; simpl; try done.
  rewrite take_mask_cons. intros [Hx Hxs]%andb_prop.
  destruct b; simpl; [rewrite Hx; simpl|]; by apply IH.
Qed.

Lemma gt0_take_col (m : list bool) (c : Column) (g : list bool) :
  gt0 c = Ok g -> gt0 (take_col m c) = Ok (take_mask m g).
Proof.
  destruct c as [xs|xs|xs|xs]; simpl.
  - destruct (all_nan xs) eqn:E; [|done]. intros [= <-].
    by rewrite (all_nan_take _ _ E), take_mask_map.
  - intros [= <-]. by rewrite take_mask_map.
  - done.
  - by intros [= <-].
Qed.

Lemma gt0_length (c : Column) (g : list bool) :
  gt0 c = Ok g -> length g = col_len c.
Proof.
  destruct c as [xs|xs|xs|xs]; simpl.
  - destruct (all_nan xs); [|done]. intros [= <-]. by rewrite length_map.
  - intros [= <-]. by rewrite length_map.
  - done.
  - by intros [= <-].
Qed.

Lemma lookup_col_map (g : Column -> Column) (cs : list (string * Column))
  (c : string) :
  lookup_col (map (fun p => (p.1, g p.2)) cs) c = g <$> lookup_col cs c.
Proof.
  induction cs as [|[n x] cs IH]; simpl; [done|].
  by destruct (String.eqb n c).
Qed.

Lemma getitem_select_rows (m : list bool) (d : DataFrame) (c : string)
  (v : Column) :
  getitem d c = Ok v -> getitem (select_rows m d) c = Ok (take_col m v).
Proof.
  intros Hv%getitem_Ok. unfold getitem, select_rows. simpl.
  by rewrite lookup_col_map, Hv.
Qed.

Lemma select_rows_nrows (m : list bool) (d : DataFrame) :
  length m = nrows d ->
  nrows (select_rows m d) = length (List.filter id m).
Proof. intros Hm. simpl. by rewrite <- Hm, firstn_all. Qed.

Lemma select_rows_aligned (m : list bool) (d : DataFrame) :
  aligned d -> length m = nrows d -> aligned (select_rows m d).
Proof.
  intros Hal Hm. unfold aligned. rewrite select_rows_nrows by done.
  simpl. apply Forall_map. eapply Forall_impl; [exact Hal|].
  intros [n c] Hc. simpl in *. apply take_col_len. congruence.
Qed.

Lemma select_rows_and (m1 m2 : list bool) (d : DataFrame) :
  aligned d -> length m1 = nrows d -> length m2 = nrows d ->
  select_rows (take_mask m1 m2) (select_rows m1 d)
  = select_rows (and_mask m1 m2) d.
Proof.
  intros Hal H1 H2. unfold select_rows at 1 3. f_equal.
  - rewrite select_rows_nrows by done.
    rewrite <- (take_mask_length m1 m2) by congruence.
    rewrite firstn_all.
    rewrite <- H1, <- (and_mask_length m1 m2) by congruence.
    rewrite firstn_all. apply count_take_and. congruence.
  - simpl. rewrite map_map. simpl. apply map_ext_in. intros [n c] Hin. simpl.
    f_equal. apply take_col_and; [congruence|].
    unfold aligned in Hal. rewrite List.Forall_forall in Hal.
    specialize (Hal _ Hin). simpl in Hal. congruence.
Qed.

Lemma select_rows_all (d : DataFrame) :
  aligned d -> select_rows (repeat true (nrows d)) d = d.
Proof.
  intros Hal. destruct d as [n cs]. unfold select_rows. simpl in *. f_equal.
  - clear Hal. rewrite ?firstn_all2 by (rewrite repeat_length; lia).
    induction n as [|n IH]; simpl; [done|]. by rewrite IH.
  - unfold aligned in Hal. simpl in Hal.
    induction Hal as [|[c v] cs Hv Hcs IH]; simpl; [done|].
    simpl in Hv. rewrite IH. by rewrite <- Hv, take_col_all.
Qed.

End Trips.

Section SelectedRows.
Context {F : Type} {fl : Float64 F}.
Local Abbreviation Cell := (@Cell F).
Local Abbreviation Column := (@Column F).
Local Abbreviation DataFrame := (@DataFrame F).

Lemma take_mask_In {A} (m : list bool) (xs : list A) (x : A) :
  In x (take_mask m xs) -> In x xs.
Proof.
  revert xs; induction m as [|b m IH]; intros [|y xs]; simpl; try done.
  rewrite take_mask_cons. destruct b; simpl; intuition.
Qed.

(** Entry [j] of a selection is the entry of the original at the index that
    the same selection of [0, 1, ...] has in place [j]. *)
Lemma take_mask_lookup {A} (m : list bool) (xs : list A) (s j ij : nat) :
  length xs = length m ->
  take_mask m (seq s (length m)) !! j = Some ij ->
  take_mask m xs !! j = xs !! (ij - s).
Proof.
  revert xs s j; induction m as [|b m IH]; intros [|x xs] s j Hlen Hj;
    simpl in *; try done.
  injection Hlen as Hlen. rewrite take_mask_cons in *.
  assert (forall k i, take_mask m (seq (S s) (length m)) !! k = Some i ->
                      S s <= i) as Hge.
  { intros k i Hk. apply list_elem_of_lookup_2, list_elem_of_In in Hk.
    apply take_mask_In, in_seq in Hk. lia. }
  destruct b.
  - destruct j as [|j]; simpl in *.
    + injection Hj as <-. by rewrite Nat.sub_diag.
    + pose proof (Hge _ _ Hj) as Hij. rewrite (IH xs (S s) j Hlen Hj).
      by replace (ij - s) with (S (ij - S s)) by lia.
  - pose proof (Hge _ _ Hj) as Hij. rewrite (IH xs (S s) j Hlen Hj).
    by replace (ij - s) with (S (ij - S s)) by lia.
Qed.

(** The rows of [df[mask]] are the rows of [df] at which the mask holds. *)
Lemma iterrows_select_rows (m : list bool) (d : DataFrame) :
  aligned d -> length m = nrows d ->
  iterrows (select_rows m d) = take_mask m (iterrows d).
Proof.
  intros Hal Hm. unfold iterrows at 2. rewrite take_mask_map.
  unfold iterrows. rewrite select_rows_nrows by done.
  rewrite <- (take_mask_length m (seq 0 (nrows d)))
    by (by rewrite length_seq).
  apply list_eq. intros j.
  change (map ?f ?l) with (f <$> l). rewrite !list_lookup_fmap.
  destruct (take_mask m (seq 0 (nrows d)) !! j) as [ij|] eqn:Hj.
  - rewrite lookup_seq_lt by (by eapply lookup_lt_Some).
    simpl. f_equal. unfold row_at, select_rows. simpl. rewrite map_map.
    apply map_ext_in. intros [n c] Hin. simpl. f_equal.
    unfold cell_at. rewrite !nth_lookup, cells_of_take_col.
    rewrite (take_mask_lookup m (cells_of c) 0 j ij).
    + by rewrite Nat.sub_0_r.
    + rewrite cells_of_length. unfold aligned in Hal.
      rewrite List.Forall_forall in Hal. specialize (Hal _ Hin). simpl in Hal.
      congruence.
    + by rewrite Hm.
  - rewrite lookup_seq_ge; [done|]. by apply lookup_ge_None.
Qed.

End SelectedRows.

Section Cleaning.
Context {F : Type} {fl : Float64 F}.
Local Abbreviation Cell := (@Cell F).
Local Abbreviation Column := (@Column F).
Local Abbreviation DataFrame := (@DataFrame F).

Lemma and_mask_all_l (n : nat) (a : list bool) :
  length a = n -> and_mask (repeat true n) a = a.
Proof. intros <-. apply and_mask_true_l. Qed.

Lemma and_mask_all_r (n : nat) (a : list bool) :
  length a = n -> and_mask a (repeat true n) = a.
Proof. intros <-. apply and_mask_true_r. Qed.

Lemma dropna_selected (d : DataFrame) (m0 : list bool) (pc qc : Column) :
  aligned d -> length m0 = nrows d ->
  getitem d "pickup_datetime" = Ok pc ->
  getitem d "dropoff_datetime" = Ok qc ->
  dropna (select_rows m0 d) ["pickup_datetime"; "dropoff_datetime"]
  = Ok (select_rows (and_mask m0 (and_mask (notna_col pc) (notna_col qc))) d).
Proof.
  intros Hal Hm Hp Hq. unfold dropna. cbn [traverse].
  rewrite (getitem_select_rows _ _ _ _ Hp), (getitem_select_rows _ _ _ _ Hq).
  cbn [bind map fold_right]. f_equal.
  pose proof (getitem_len _ _ _ Hal Hp) as Hpl.
  pose proof (getitem_len _ _ _ Hal Hq) as Hql.
  rewrite !notna_take_col, select_rows_nrows by done.
  rewrite (and_mask_all_r _ (take_mask m0 (notna_col qc))).
  2: { apply take_mask_length. rewrite notna_col_length. congruence. }
  rewrite <- take_mask_zip_with. apply select_rows_and; [done..|].
  rewrite and_mask_length; rewrite !notna_col_length; congruence.
Qed.

Lemma keep_positive_selected (d : DataFrame) (m0 g : list bool) (c : string)
  (v : Column) :
  aligned d -> length m0 = nrows d ->
  getitem d c = Ok v -> gt0 v = Ok g ->
  keep_positive (select_rows m0 d) c = Ok (select_rows (and_mask m0 g) d).
Proof.
  intros Hal Hm Hv Hg. unfold keep_positive.
  rewrite (getitem_select_rows _ _ _ _ Hv). cbn [bind].
  rewrite (gt0_take_col _ _ _ Hg). cbn [bind]. f_equal.
  apply select_rows_and; [done..|].
  rewrite (gt0_length _ _ Hg). by apply (getitem_len _ _ _ Hal Hv).
Qed.

(** Filters that each keep the rows of a mask, run one after the other, keep
    the rows of the conjunction. *)
Lemma for_each_filters (d : DataFrame)
  (fs : list (DataFrame -> Result DataFrame)) (Ms : list (list bool)) :
  Forall2 (fun f M =>
             forall m0, length m0 = nrows d ->
               f (select_rows m0 d) = Ok (select_rows (and_mask m0 M) d)
               /\ length (and_mask m0 M) = nrows d) fs Ms ->
  forall m0, length m0 = nrows d ->
    for_each fs (fun d f => f d) (select_rows m0 d)
    = Ok (select_rows (fold_left and_mask Ms m0) d).
Proof.
  induction 1 as [|f M fs Ms Hf Hrest IH]; intros m0 Hm0; simpl; [done|].
  destruct (Hf m0 Hm0) as [-> Hlen]. simpl. by apply IH.
Qed.

(** C8: on a trip table (the four columns present, the two amounts
    comparable with zero) [clean_data] returns the table indexed by the mask
    that holds in the rows in which both timestamps are present, the fare is
    above zero and the distance is above zero: its rows are exactly those
    rows, in order; every row it returns satisfies the three conditions; and
    the three filters give the same table in any order. *)
Theorem clean_data_conjunction (d : DataFrame) (m : list bool) :
  aligned d ->
  trip_mask d = Ok m ->
  clean_data d = Ok (select_rows m d)
  /\ iterrows (select_rows m d) = take_mask m (iterrows d)
  /\ trip_mask (select_rows m d) = Ok (repeat true (nrows (select_rows m d)))
  /\ forall fs, fs ≡ₚ trip_filters ->
       for_each fs (fun d f => f d) d = Ok (select_rows m d).
Proof.
  intros Hal Hmask. unfold trip_mask in Hmask.
  apply bind_Ok in Hmask as (pc & Hp & Hmask).
  apply bind_Ok in Hmask as (qc & Hq & Hmask).
  apply bind_Ok in Hmask as (fc & Hf & Hmask).
  apply bind_Ok in Hmask as (g1 & Hg1 & Hmask).
  apply bind_Ok in Hmask as (tc & Ht & Hmask).
  apply bind_Ok in Hmask as (g2 & Hg2 & Hmask).
  injection Hmask as <-.
  set (np := notna_col pc). set (nq := notna_col qc).
  assert (length np = nrows d) as Hnp
    by (unfold np; rewrite notna_col_length; by eapply getitem_len).
  assert (length nq = nrows d) as Hnq
    by (unfold nq; rewrite notna_col_length; by eapply getitem_len).
  assert (length g1 = nrows d) as Hl1
    by (rewrite (gt0_length _ _ Hg1); by eapply getitem_len).
  assert (length g2 = nrows d) as Hl2
    by (rewrite (gt0_length _ _ Hg2); by eapply getitem_len).
  assert (length (and_mask np nq) = nrows d) as Hnpq
    by (rewrite and_mask_length; congruence).
  set (n := nrows d) in *.
  assert (forall fs Ms,
             Forall2 (fun f M =>
               forall m0, length m0 = n ->
                 f (select_rows m0 d) = Ok (select_rows (and_mask m0 M) d)
                 /\ length (and_mask m0 M) = n) fs Ms ->
             fold_left and_mask Ms (repeat true n)
             = and_mask (and_mask (and_mask np nq) g1) g2 ->
             for_each fs (fun d f => f d) d
             = Ok (select_rows (and_mask (and_mask (and_mask np nq) g1) g2) d))
    as Hrun.
  { intros fs Ms Hfs HMs.
    rewrite <- (select_rows_all d Hal) at 1. fold n.
    rewrite (for_each_filters d fs Ms Hfs) by apply repeat_length.
    by rewrite HMs. }
  assert (forall m0, length m0 = n ->
            dropna (select_rows m0 d) ["pickup_datetime"; "dropoff_datetime"]
            = Ok (select_rows (and_mask m0 (and_mask np nq)) d)
            /\ length (and_mask m0 (and_mask np nq)) = n) as Hdrop.
  { intros m0 Hm0. split; [by apply dropna_selected|].
    rewrite and_mask_length; congruence. }
  assert (forall m0, length m0 = n ->
            keep_positive (select_rows m0 d) "fare_amount"
            = Ok (select_rows (and_mask m0 g1) d)
            /\ length (and_mask m0 g1) = n) as Hfare.
  { intros m0 Hm0. split; [by eapply keep_positive_selected|].
    rewrite and_mask_length; congruence. }
  assert (forall m0, length m0 = n ->
            keep_positive (select_rows m0 d) "trip_distance"
            = Ok (select_rows (and_mask m0 g2) d)
            /\ length (and_mask m0 g2) = n) as Hdist.
  { intros m0 Hm0. split; [by eapply keep_positive_selected|].
    rewrite and_mask_length; congruence. }
  assert (forall fs, fs ≡ₚ trip_filters ->
            for_each fs (fun d f => f d) d
            = Ok (select_rows (and_mask (and_mask (and_mask np nq) g1) g2) d))
    as Hany.
  { intros fs Hperm. symmetry in Hperm.
    apply permutations_Permutation in Hperm. cbn in Hperm.
    repeat (apply elem_of_cons in Hperm as [->|Hperm]);
      [..|by apply elem_of_nil in Hperm].
    all: first
      [ apply (Hrun _ [and_mask np nq; g1; g2]); [solve [repeat (constructor; [first [exact Hdrop|exact Hfare|exact Hdist]|]); constructor]|]
      | apply (Hrun _ [and_mask np nq; g2; g1]); [solve [repeat (constructor; [first [exact Hdrop|exact Hfare|exact Hdist]|]); constructor]|]
      | apply (Hrun _ [g1; and_mask np nq; g2]); [solve [repeat (constructor; [first [exact Hdrop|exact Hfare|exact Hdist]|]); constructor]|]
      | apply (Hrun _ [g1; g2; and_mask np nq]); [solve [repeat (constructor; [first [exact Hdrop|exact Hfare|exact Hdist]|]); constructor]|]
      | apply (Hrun _ [g2; and_mask np nq; g1]); [solve [repeat (constructor; [first [exact Hdrop|exact Hfare|exact Hdist]|]); constructor]|]
      | apply (Hrun _ [g2; g1; and_mask np nq]); [solve [repeat (constructor; [first [exact Hdrop|exact Hfare|exact Hdist]|]); constructor]|] ].
    all: cbn [fold_left]; rewrite (and_mask_all_l n) by done; mask_eq. }
  assert (length (and_mask (and_mask (and_mask np nq) g1) g2) = n) as Hmlen.
  { assert (length (and_mask (and_mask np nq) g1) = n) as H3
      by (rewrite and_mask_length; [exact Hnpq|by rewrite Hnpq]).
    rewrite and_mask_length; [exact H3|by rewrite H3]. }
  split; [|split; [by apply iterrows_select_rows|split; [|exact Hany]]].
  - rewrite <- (Hany trip_filters) by done. unfold clean_data, trip_filters.
    simpl. destruct (dropna d _) as [d1|]; simpl; [|done].
    destruct (keep_positive d1 _) as [d2|]; simpl; [|done].
    by destruct (keep_positive d2 _).
  - unfold trip_mask.
    rewrite (getitem_select_rows _ _ _ _ Hp), (getitem_select_rows _ _ _ _ Hq),
      (getitem_select_rows _ _ _ _ Hf), (getitem_select_rows _ _ _ _ Ht).
    cbn [bind]. rewrite (gt0_take_col _ _ _ Hg1), (gt0_take_col _ _ _ Hg2).
    cbn [bind]. f_equal. rewrite !notna_take_col. fold np nq.
    rewrite <- !take_mask_zip_with, take_mask_self.
    by rewrite select_rows_nrows.
Qed.

End Cleaning.

(** Taking apart a hypothesis [H : step = Ok d'] along the binds, tests and
    matches of the step. *)
Ltac unstep H :=
  repeat first
    [ apply bind_Ok in H as (? & ? & H)
    | match type of H with
      | Ok _ = Ok _ => injection H as <-
      | Raise _ = Ok _ => discriminate H
      | (if ?b then _ else _) = Ok _ => destruct b eqn:?
      | (match ?x with _ => _ end) = Ok _ => destruct x eqn:?; try discriminate H
      end ].

Section RowCount.
Context {F : Type} {fl : Float64 F}.
Local Abbreviation Cell := (@Cell F).
Local Abbreviation Column := (@Column F).
Local Abbreviation DataFrame := (@DataFrame F).

Lemma same_rows_refl (d : DataFrame) : same_rows d d.
Proof. by intros Hal. Qed.

Lemma same_rows_trans (d1 d2 d3 : DataFrame) :
  same_rows d1 d2 -> same_rows d2 d3 -> same_rows d1 d3.
Proof.
  intros H12 H23 Hal. destruct (H12 Hal) as [Hal2 Hn2].
  destruct (H23 Hal2) as [Hal3 Hn3]. split; [done|congruence].
Qed.

Lemma setitem_same_rows (d : DataFrame) c v d' :
  setitem d c v = Ok d' -> same_rows d d'.
Proof. intros Hs Hal. by eapply setitem_aligned. Qed.

Lemma setitem_applied_same_rows {A} (d : DataFrame) (c : string)
  (mk : list A -> Column) (r : list A + DataFrame) (d' : DataFrame) :
  setitem_applied d c mk r = Ok d' -> same_rows d d'.
Proof.
  unfold setitem_applied. intros Hd. unstep Hd; by eapply setitem_same_rows.
Qed.

Lemma drop_same_rows (d : DataFrame) (names : list string) (d' : DataFrame) :
  drop d names = Ok d' -> same_rows d d'.
Proof.
  unfold drop. intros Hd. unstep Hd. intros Hal. split; [|done].
  unfold aligned in *. simpl. rewrite List.Forall_forall in *.
  intros p Hp. apply List.filter_In in Hp as [Hp _]. by apply Hal.
Qed.

Lemma preserves_for_each {X} (l : list X)
  (body : DataFrame -> X -> Result DataFrame) :
  (forall x, preserves (fun d => body d x)) -> preserves (for_each l body).
Proof.
  intros Hbody. induction l as [|x l IH]; intros d d' Hd; simpl in Hd.
  - inversion Hd; subst. apply same_rows_refl.
  - apply bind_Ok in Hd as (d1 & Hd1 & Hd).
    eapply same_rows_trans; [by apply (Hbody x)|by apply IH].
Qed.

End RowCount.

(** Closing a goal [same_rows d d'] from the assignments found by [unstep]. *)
Ltac rows :=
  repeat match goal with
         | H : setitem _ _ _ = Ok _ |- _ => apply setitem_same_rows in H
         | H : setitem_applied _ _ _ _ = Ok _ |- _ =>
             apply setitem_applied_same_rows in H
         | H : drop _ _ = Ok _ |- _ => apply drop_same_rows in H
         end;
  eauto 8 using same_rows_refl, same_rows_trans.

Section Steps.
Context {F : Type} {fl : Float64 F}.
Local Abbreviation Cell := (@Cell F).
Local Abbreviation Column := (@Column F).
Local Abbreviation DataFrame := (@DataFrame F).
Local Abbreviation preserves := (@preserves F).

Lemma preserves_parse_dates : preserves parse_dates.
Proof. intros d d' Hd. unfold parse_dates in Hd. unstep Hd. rows. Qed.

Lemma preserves_split_time : preserves split_time.
Proof. intros d d' Hd. unfold split_time in Hd. unstep Hd. rows. Qed.

Lemma preserves_compose_timestamp : preserves compose_timestamp.
Proof.
  intros d d' Hd. unfold compose_timestamp in Hd.
  apply bind_Ok in Hd as (r & _ & Hd). rows.
Qed.

Lemma preserves_drop_time_parts : preserves drop_time_parts.
Proof. intros d d' Hd. unfold drop_time_parts in Hd. rows. Qed.

Lemma preserves_add_timestamp : preserves add_timestamp.
Proof.
  intros d d' Hd. unfold add_timestamp in Hd.
  destruct (contains d "TimeGMT"); [|inversion Hd; apply same_rows_refl].
  apply bind_Ok in Hd as (d1 & Hd1%preserves_split_time & Hd).
  apply bind_Ok in Hd as (d2 & Hd2%preserves_compose_timestamp & Hd).
  apply preserves_drop_time_parts in Hd.
  eauto using same_rows_trans.
Qed.

Lemma preserves_convert_numeric (col : string) :
  preserves (fun d => convert_numeric d col).
Proof. intros d d' Hd. unfold convert_numeric in Hd. unstep Hd; rows. Qed.

Lemma preserves_coords_to_numeric : preserves coords_to_numeric.
Proof. apply preserves_for_each, preserves_convert_numeric. Qed.

Lemma preserves_impute_mode (col : string) :
  preserves (fun d => impute_mode d col).
Proof. intros d d' Hd. unfold impute_mode in Hd. unstep Hd; rows. Qed.

Lemma preserves_mode_fill : preserves mode_fill.
Proof. apply preserves_for_each, preserves_impute_mode. Qed.

Lemma preserves_knn_impute : preserves knn_impute.
Proof.
  intros d d' Hd. unfold knn_impute in Hd.
  destruct (forallb _ _); [|inversion Hd; apply same_rows_refl].
  apply bind_Ok in Hd as (lat_c & _ & Hd).
  apply bind_Ok in Hd as (lon_c & _ & Hd).
  destruct (_ || _); [|inversion Hd; apply same_rows_refl].
  apply bind_Ok in Hd as (lat & _ & Hd).
  apply bind_Ok in Hd as (lon & _ & Hd).
  apply bind_Ok in Hd as (out & _ & Hd).
  destruct out as [|lat' [|lon' [|]]]; try discriminate Hd.
  apply bind_Ok in Hd as (d1 & Hd1 & Hd). rows.
Qed.

Lemma preserves_distance_feature : preserves distance_feature.
Proof.
  intros d d' Hd. unfold distance_feature in Hd.
  apply bind_Ok in Hd as (r & _ & Hd). rows.
Qed.

Lemma preserves_temporal_features : preserves temporal_features.
Proof.
  intros d d' Hd. unfold temporal_features in Hd.
  destruct (contains d "Timestamp"); [|inversion Hd; apply same_rows_refl].
  apply bind_Ok in Hd as (ts & _ & Hd).
  apply bind_Ok in Hd as (h & _ & Hd).
  apply bind_Ok in Hd as (d1 & Hd1 & Hd).
  apply bind_Ok in Hd as (ts' & _ & Hd).
  apply bind_Ok in Hd as (m & _ & Hd).
  apply bind_Ok in Hd as (d2 & Hd2 & Hd).
  apply bind_Ok in Hd as (mc & _ & Hd). rows.
Qed.

Lemma dummies_of_len (col : string) (v : Column) :
  Forall (fun p => col_len p.2 = col_len v) (dummies_of col v).
Proof.
  destruct v as [xs|xs|xs|xs]; simpl; unfold dummy_block;
    apply Forall_app; split;
    try (apply Forall_map, Forall_forall; intros l _; simpl);
    try (constructor; [simpl|constructor]);
    by rewrite ?length_map.
Qed.

Lemma preserves_get_dummies (cols : list string) :
  preserves (fun d => get_dummies d cols).
Proof.
  intros d d' Hd Hal. unfold get_dummies in Hd.
  apply bind_Ok in Hd as (enc & Henc & Hd). injection Hd as <-.
  split; [|done]. unfold aligned in *. simpl.
  apply Forall_app. split.
  - rewrite List.Forall_forall in *. intros p Hp. apply List.filter_In in Hp as [Hp _]. by apply Hal.
  - clear -Henc Hal. revert enc Henc.
    induction cols as [|c cols IH]; intros enc Henc; simpl in Henc.
    + injection Henc as <-. constructor.
    + apply bind_Ok in Henc as (b & Hb & Henc).
      apply bind_Ok in Henc as (enc' & Henc' & Henc). injection Henc as <-.
      apply bind_Ok in Hb as (v & Hv & Hb). injection Hb as <-.
      simpl. apply Forall_app. split; [|by apply IH].
      eapply Forall_impl; [apply dummies_of_len|].
      intros p Hp. simpl in *. rewrite Hp.
      by apply (getitem_len d c v).
Qed.

Lemma preserves_encode_categoricals : preserves encode_categoricals.
Proof. apply preserves_get_dummies. Qed.

Lemma preserves_scale_column (col : string) :
  preserves (fun d => scale_column d col).
Proof.
  intros d d' Hd. unfold scale_column in Hd.
  apply bind_Ok in Hd as (c & _ & Hd).
  apply bind_Ok in Hd as (xs & _ & Hd).
  apply bind_Ok in Hd as (ys & _ & Hd). rows.
Qed.

Lemma preserves_normalize : preserves normalize.
Proof.
  intros d d' Hd. unfold normalize in Hd.
  by apply (preserves_for_each _ _ preserves_scale_column) in Hd.
Qed.

Lemma preserves_stages : Forall preserves stages.
Proof.
  unfold stages.
  repeat (constructor;
          [first [ exact preserves_parse_dates | exact preserves_add_timestamp
                 | exact preserves_coords_to_numeric | exact preserves_mode_fill
                 | exact preserves_knn_impute | exact preserves_distance_feature
                 | exact preserves_temporal_features
                 | exact preserves_encode_categoricals
                 | exact preserves_normalize ]|]).
  constructor.
Qed.

Lemma preserves_process_frame : preserves process_frame.
Proof.
  unfold process_frame. intros d d'.
  generalize preserves_stages. generalize stages. intros l Hl. revert d.
  induction Hl as [|f l Hf Hl IH]; intros d Hd; simpl in Hd.
  - inversion Hd. apply same_rows_refl.
  - apply bind_Ok in Hd as (d1 & Hd1 & Hd).
    eapply same_rows_trans; [by apply Hf|by apply IH].
Qed.

End Steps.

Section Objects.
Context {F : Type} {fl : Float64 F}.
Local Abbreviation Cell := (@Cell F).
Local Abbreviation Column := (@Column F).
Local Abbreviation DataFrame := (@DataFrame F).
Implicit Types (h : gmap nat DataFrame) (p l : nat) (d : DataFrame).

Lemma owned_insert h0 h p d d' : owned h0 h p d -> owned h0 (<[p:=d']> h) p d'.
Proof.
  intros (Hsub & Hnew & _). split; [|split; [done|]].
  - by apply insert_subseteq_r.
  - apply lookup_insert_eq.
Qed.

Lemma owned_alloc h0 h d' :
  h0 ⊆ h -> owned h0 (<[fresh (dom h):=d']> h) (fresh (dom h)) d'.
Proof.
  intros Hsub.
  assert (h !! fresh (dom h) = None) as Hfresh
    by apply not_elem_of_dom, is_fresh.
  assert (h0 !! fresh (dom h) = None) as Hfresh0
    by (by eapply lookup_weaken_None).
  split; [|split; [done|]].
  - by apply insert_subseteq_r.
  - apply lookup_insert_eq.
Qed.

Lemma outcome_bind_assoc h0 {A B} (r : Result A) (f : A -> Result B)
  (g : B -> Result DataFrame) res :
  outcome h0 (a <- r ;; b <- f a ;; g b) res ->
  outcome h0 (b <- (a <- r ;; f a) ;; g b) res.
Proof. by destruct r. Qed.

Lemma run_assoc h0 {A B} (a : Prog A) (b : A -> Prog B) (k : B -> Prog nat)
  (r : Result DataFrame) h :
  outcome h0 r (then_ a (fun x => then_ (b x) k) h) ->
  outcome h0 r (then_ (then_ a b) k h).
Proof. unfold then_. by destruct (a h) as [[x|e] h1]. Qed.

Lemma run_deref h0 h p d (k : DataFrame -> Prog nat) (r : Result DataFrame) :
  owned h0 h p d -> outcome h0 r (k d h) -> outcome h0 r (then_ (deref p) k h).
Proof. intros (_ & _ & Hp). unfold then_, deref. by rewrite Hp. Qed.

Lemma run_update h0 h p d (f g : DataFrame -> Result DataFrame)
  (k : unit -> Prog nat) :
  owned h0 h p d ->
  (forall d1 h1, owned h0 h1 p d1 -> outcome h0 (g d1) (k tt h1)) ->
  outcome h0 (d1 <- f d ;; g d1) (then_ (update p f) k h).
Proof.
  intros Hown Hk. pose proof Hown as (Hsub & _ & Hp).
  unfold update, then_, deref. rewrite Hp.
  destruct (f d) as [d1|e]; simpl.
  - apply Hk. by eapply owned_insert.
  - by exists h.
Qed.

Lemma run_create h0 h p d (f g : DataFrame -> Result DataFrame)
  (k : nat -> Prog nat) :
  owned h0 h p d ->
  (forall d1 h1 l, owned h0 h1 l d1 -> outcome h0 (g d1) (k l h1)) ->
  outcome h0 (d1 <- f d ;; g d1) (then_ (create p f) k h).
Proof.
  intros Hown Hk. pose proof Hown as (Hsub & _ & Hp).
  unfold create, then_, deref, alloc. rewrite Hp.
  destruct (f d) as [d1|e]; simpl.
  - apply Hk. by apply owned_alloc.
  - by exists h.
Qed.

Lemma run_loop h0 {X} (cols : list X)
  (body : DataFrame -> X -> Result DataFrame)
  (g : DataFrame -> Result DataFrame) (k : unit -> Prog nat) p :
  (forall d1 h1, owned h0 h1 p d1 -> outcome h0 (g d1) (k tt h1)) ->
  forall h d, owned h0 h p d ->
    outcome h0 (d1 <- for_each cols body d ;; g d1)
      (then_ (loop cols (fun col => update p (fun d => body d col))) k h).
Proof.
  intros Hk. induction cols as [|x cols IH]; intros h d Hown; simpl.
  - by apply Hk.
  - apply run_assoc, outcome_bind_assoc.
    apply (run_update h0 h p d (fun d => body d x)); [done|].
    intros d1 h1 Hown1. by apply IH.
Qed.

Lemma run_copy h0 r d (k : nat -> Prog nat) (res : Result DataFrame) :
  h0 !! r = Some d ->
  (forall l h1, owned h0 h1 l d -> outcome h0 res (k l h1)) ->
  outcome h0 res (then_ (copy r) k h0).
Proof.
  intros Hr Hk. unfold copy, then_, deref, alloc. rewrite Hr.
  apply Hk. by apply owned_alloc.
Qed.

Lemma run_done h0 h p d : owned h0 h p d -> outcome h0 (Ok d) (pure p h).
Proof. intros Hown. by exists p, h. Qed.

(** [process_data] does on objects what [process_frame] does on tables. *)
Lemma process_data_frame h r d :
  h !! r = Some d -> outcome h (process_frame d) (process_data r h).
Proof.
  intros Hr. unfold process_data, process_frame, stages. cbn [for_each].
  apply (run_copy h r d); [done|]. intros p0 h1 Hown1.
  eapply run_update; [done|]. intros d1 h2 Hown2.
  eapply run_deref; [done|].
  assert (forall (g : DataFrame -> Result DataFrame) (k : nat -> Prog nat),
            (forall d' h' p', owned h h' p' d' -> outcome h (g d') (k p' h')) ->
            outcome h (d2 <- add_timestamp d1 ;; g d2)
              (then_ (if contains d1 "TimeGMT"
                      then then_ (update p0 split_time)
                             (fun _ => then_ (update p0 compose_timestamp)
                                         (fun _ => create p0 drop_time_parts))
                      else pure p0) k h2)) as Htime.
  { intros g k Hk. unfold add_timestamp.
    destruct (contains d1 "TimeGMT").
    - apply run_assoc, outcome_bind_assoc.
      eapply run_update; [done|]. intros d2 h3 Hown3.
      apply run_assoc, outcome_bind_assoc.
      eapply run_update; [done|]. intros d3 h4 Hown4.
      eapply run_create; [done|]. intros d4 h5 p1 Hown5. by apply Hk.
    - by apply Hk. }
  apply Htime. clear Htime. intros d2 h3 p1 Hown3.
  unfold coords_to_numeric.
  apply run_loop; [|done]. intros d3 h4 Hown4.
  unfold mode_fill.
  apply run_loop; [|done]. intros d4 h5 Hown5.
  eapply run_update; [done|]. intros d5 h6 Hown6.
  eapply run_update; [done|]. intros d6 h7 Hown7.
  eapply run_update; [done|]. intros d7 h8 Hown8.
  eapply run_create; [done|]. intros d8 h9 p2 Hown9.
  eapply run_update; [done|]. intros d9 h10 Hown10.
  by eapply run_done.
Qed.

(** C9: every step of the pipeline returns a table with the rows of its
    input, and so does [process_data]: the table it returns, a new object,
    has as many rows as the table passed in, each column spanning them. *)
Theorem row_count_preserved h r d l h' :
  h !! r = Some d ->
  aligned d ->
  process_data r h = (Ok l, h') ->
  Forall preserves stages
  /\ exists d', h' !! l = Some d' /\ process_frame d = Ok d'
                /\ aligned d' /\ nrows d' = nrows d.
Proof.
  intros Hr Hal Hrun. split; [apply preserves_stages|].
  pose proof (process_data_frame h r d Hr) as Hout. rewrite Hrun in Hout.
  destruct (process_frame d) as [d'|e] eqn:Hd'; simpl in Hout.
  - destruct Hout as (l' & h'' & [= <- <-] & (_ & _ & Hl)).
    exists d'. split; [done|]. split; [done|].
    by apply (preserves_process_frame d d').
  - by destruct Hout as (h'' & [=] & _).
Qed.

(** C10: whether it returns or raises, [process_data] leaves the table
    passed to it, and every other object that existed, as it was; the table it
    returns is a new object. *)
Theorem process_data_leaves_input h r d :
  h !! r = Some d ->
  (process_data r h).2 !! r = Some d
  /\ h ⊆ (process_data r h).2
  /\ forall l, (process_data r h).1 = Ok l ->
       l <> r /\ h !! l = None /\ is_Some ((process_data r h).2 !! l).
Proof.
  intros Hr. pose proof (process_data_frame h r d Hr) as Hout.
  destruct (process_frame d) as [d'|e]; simpl in Hout.
  - destruct Hout as (l' & h' & -> & (Hsub & Hnew & Hl)). simpl.
    split; [by eapply lookup_weaken|]. split; [done|].
    intros l [= <-]. split; [|by eauto]. intros ->. congruence.
  - destruct Hout as (h' & -> & Hsub). simpl.
    split; [by eapply lookup_weaken|]. split; [done|]. by intros l [=].
Qed.

End Objects.

Section Timestamps.
Context {F : Type} {fl : Float64 F}.
Local Abbreviation Cell := (@Cell F).
Local Abbreviation Column := (@Column F).
Local Abbreviation DataFrame := (@DataFrame F).
Local Abbreviation CNa := (@CNa F).
Local Abbreviation CStr := (@CStr F).
Local Abbreviation CTime := (@CTime F).
Local Abbreviation CBool := (@CBool F).

Lemma traverse_lookup {X Y} (f : X -> Result Y) (l : list X) (ys : list Y)
  (i : nat) (x : X) :
  traverse f l = Ok ys -> l !! i = Some x ->
  exists y, f x = Ok y /\ ys !! i = Some y.
Proof.
  revert ys i; induction l as [|x0 l IH]; intros ys i Hys Hx; [done|].
  simpl in Hys. apply bind_Ok in Hys as (y0 & Hy0 & Hys).
  apply bind_Ok in Hys as (ys' & Hl & Hys). injection Hys as <-.
  destruct i as [|i]; simpl in *.
  - injection Hx as <-. by exists y0.
  - by apply IH.
Qed.

Lemma iterrows_lookup (d : DataFrame) (i : nat) :
  i < nrows d -> iterrows d !! i = Some (row_at d i).
Proof.
  intros Hi. unfold iterrows.
  change (map (row_at d) (seq 0 (nrows d))) with (row_at d <$> seq 0 (nrows d)).
  by rewrite list_lookup_fmap, lookup_seq_lt.
Qed.

Lemma row_get_row_at (d : DataFrame) (i : nat) (c : string) (v : Column) :
  getitem d c = Ok v -> row_get (row_at d i) c = Ok (cell_at v i).
Proof.
  intros Hv%getitem_Ok. unfold row_at.
  induction (columns d) as [|[n x] cs IH]; simpl in *; [done|].
  destruct (String.eqb n c); [by injection Hv as ->|by apply IH].
Qed.

Lemma cell_at_lookup (c : Column) (i : nat) (v : Cell) :
  cells_of c !! i = Some v -> cell_at c i = v.
Proof. intros Hv. unfold cell_at. by apply nth_lookup_Some. Qed.

Lemma col_len_to_datetime (c : Column) : col_len (to_datetime c) = col_len c.
Proof. destruct c; simpl; by rewrite ?length_map. Qed.

Lemma cell_at_to_datetime (c : Column) (i : nat) :
  i < col_len c ->
  cell_at (to_datetime c) i = to_cell CTime (date_of_cell (cell_at c i)).
Proof.
  intros Hi. destruct c as [xs|xs|xs|xs]; simpl in Hi;
    destruct (lookup_lt_is_Some_2 xs i Hi) as [x Hx].
  - rewrite (cell_at_lookup (ObjCol xs) i (to_cell CStr x)).
    2: { simpl. change (map (to_cell CStr) xs) with (to_cell CStr <$> xs).
         by rewrite list_lookup_fmap, Hx. }
    apply cell_at_lookup. simpl. rewrite map_map.
    match goal with
    | |- map ?f xs !! i = _ => change (map f xs) with (f <$> xs)
    end.
    rewrite list_lookup_fmap, Hx. by destruct x.
  - rewrite (cell_at_lookup (NumCol xs) i (to_cell CNum x)).
    2: { simpl. change (map (to_cell CNum) xs) with (to_cell CNum <$> xs).
         by rewrite list_lookup_fmap, Hx. }
    apply cell_at_lookup. simpl. rewrite map_map.
    match goal with
    | |- map ?f xs !! i = _ => change (map f xs) with (f <$> xs)
    end.
    rewrite list_lookup_fmap, Hx. by destruct x.
  - rewrite (cell_at_lookup (TimeCol xs) i (to_cell CTime x)).
    2: { simpl. change (map (to_cell CTime) xs) with (to_cell CTime <$> xs).
         by rewrite list_lookup_fmap, Hx. }
    apply cell_at_lookup. simpl.
    change (map (to_cell CTime) xs) with (to_cell CTime <$> xs).
    rewrite list_lookup_fmap, Hx. by destruct x.
  - rewrite (cell_at_lookup (BoolCol xs) i (CBool x)).
    2: { simpl. change (map CBool xs) with (CBool <$> xs).
         by rewrite list_lookup_fmap, Hx. }
    apply cell_at_lookup. simpl. rewrite map_map.
    match goal with
    | |- map ?f xs !! i = _ => change (map f xs) with (f <$> xs)
    end.
    by rewrite list_lookup_fmap, Hx.
Qed.

Lemma contains_setitem_ne (d : DataFrame) c c' v d' :
  c <> c' -> setitem d c v = Ok d' -> contains d' c' = contains d c'.
Proof.
  intros Hne (_ & ->)%setitem_Ok. unfold contains. simpl.
  by rewrite lookup_assoc_set_ne.
Qed.

Lemma getitem_drop (d : DataFrame) (names : list string) (d' : DataFrame)
  (c : string) :
  drop d names = Ok d' -> mem_str names c = false ->
  getitem d' c = getitem d c.
Proof.
  unfold drop. intros Hd Hc. unstep Hd. unfold getitem. simpl.
  assert (lookup_col
            (List.filter (fun p => negb (mem_str names p.1)) (columns d)) c
          = lookup_col (columns d) c) as ->; [|done].
  induction (columns d) as [|[n x] cs IH]; simpl; [done|].
  destruct (mem_str names n) eqn:Hn; simpl.
  - destruct (String.eqb n c) eqn:E; [|done].
    apply String.eqb_eq in E as ->. congruence.
  - by rewrite IH.
Qed.

(** The date column after line 39. *)
Lemma parse_dates_column (d d1 : DataFrame) (c : Column) :
  getitem d "DateGMT" = Ok c -> parse_dates d = Ok d1 ->
  getitem d1 "DateGMT" = Ok (to_datetime c).
Proof.
  intros Hc Hd. unfold parse_dates in Hd. rewrite Hc in Hd. simpl in Hd.
  by eapply getitem_setitem_eq.
Qed.

(** A row without a date gets no timestamp. *)
Lemma compose_timestamp_missing (d d' : DataFrame) (c : Column) (i : nat) :
  compose_timestamp d = Ok d' ->
  getitem d "DateGMT" = Ok c ->
  i < nrows d -> cell_at c i = CNa ->
  exists t, getitem d' "Timestamp" = Ok t /\ cell_at t i = CNa.
Proof.
  intros Hd Hc Hi Hna. unfold compose_timestamp in Hd.
  apply bind_Ok in Hd as (r & Hr & Hd). unfold apply_axis1 in Hr.
  destruct (nrows d) as [|n] eqn:Hn; [lia|].
  apply bind_Ok in Hr as (ys & Hys & Hr). injection Hr as <-.
  simpl in Hd. exists (TimeCol ys). split; [by eapply getitem_setitem_eq|].
  destruct (traverse_lookup _ _ _ i (row_at d i) Hys) as (y & Hy & Hyi).
  { apply iterrows_lookup. lia. }
  unfold timestamp_row in Hy.
  rewrite (row_get_row_at d i "DateGMT" c Hc), Hna in Hy. simpl in Hy.
  injection Hy as <-. apply cell_at_lookup. simpl.
  change (map (to_cell CTime) ys) with (to_cell CTime <$> ys).
  by rewrite list_lookup_fmap, Hyi.
Qed.

Lemma getitem_other (d : DataFrame) c v d' :
  setitem d c v = Ok d' -> forall c', c <> c' -> getitem d' c' = getitem d c'.
Proof. intros Hs c' Hne. by eapply getitem_setitem_ne. Qed.

Lemma contains_other (d : DataFrame) c v d' :
  setitem d c v = Ok d' -> forall c', c <> c' -> contains d' c' = contains d c'.
Proof. intros Hs c' Hne. by eapply contains_setitem_ne. Qed.

Lemma setitem_nrows (d : DataFrame) c v d' :
  setitem d c v = Ok d' -> nrows d' = nrows d.
Proof. by intros [_ ->]%setitem_Ok. Qed.

Lemma expand_three (rows : list (list (option string))) :
  max_list (map length rows) = 3 ->
  expand rows
  = [map (fun r => nth 0 r None) rows; map (fun r => nth 1 r None) rows;
     map (fun r => nth 2 r None) rows].
Proof. intros Hw. unfold expand. by rewrite Hw. Qed.

Lemma traverse_total {X Y} (f : X -> Result Y) (l : list X) :
  (forall x, In x l -> is_ok (f x) = true) -> exists ys, traverse f l = Ok ys.
Proof.
  induction l as [|x l IH]; simpl; intros Hall; [by eauto|].
  destruct (f x) as [y|e] eqn:E.
  - destruct IH as [ys ->]; [by auto|]. simpl. by eauto.
  - specialize (Hall x (or_introl eq_refl)). by rewrite E in Hall.
Qed.

Lemma nth_Some_In {X} (l : list (option X)) (j : nat) (s : X) :
  nth j l None = Some s -> In (Some s) l.
Proof.
  intros Hs. destruct (lt_dec j (length l)) as [Hlt|Hge].
  - rewrite <- Hs. by apply nth_In.
  - rewrite nth_overflow in Hs by lia. done.
Qed.

(** Column [j] of the split times under [astype(float)]. *)
Lemma astype_piece_column (xs : list (option string)) (j : nat) :
  (forall o piece, In o xs -> In (Some piece) (split_row ":" o) ->
                   is_Some (float_of_str piece)) ->
  exists col,
    astype_float (map (fun r => nth j r None) (str_split_rows ":" xs)) = Ok col
    /\ length col = length xs
    /\ forall i o, xs !! i = Some o ->
         exists v, piece_float (nth j (split_row ":" o) None) = Ok v
                   /\ col !! i = Some v.
Proof.
  intros Hparse. unfold astype_float, str_split_rows. rewrite map_map.
  destruct (traverse_total piece_float
              (map (fun o => nth j (split_row ":" o) None) xs)) as [col Hcol].
  { intros x (o & <- & Ho)%in_map_iff.
    destruct (nth j (split_row ":" o) None) as [s|] eqn:E; [|done]. simpl.
    by destruct (Hparse o s Ho (nth_Some_In _ _ _ E)) as [v ->]. }
  exists col. split; [done|]. split.
  - by rewrite (traverse_length _ _ _ Hcol), length_map.
  - intros i o Hi. apply (traverse_lookup _ _ _ i _ Hcol).
    match goal with
    | |- map ?f xs !! i = _ => change (map f xs) with (f <$> xs)
    end.
    by rewrite list_lookup_fmap, Hi.
Qed.

Lemma cell_at_NumCol (xs : list (option F)) (i : nat) (v : option F) :
  xs !! i = Some v -> cell_at (NumCol xs) i = to_cell CNum v.
Proof.
  intros Hv. apply cell_at_lookup. simpl.
  change (map (to_cell CNum) xs) with (to_cell CNum <$> xs).
  by rewrite list_lookup_fmap, Hv.
Qed.

(** On a row of the table made by line 44, the function of lines 48-55 is
    [row_timestamp]. *)
Lemma timestamp_row_at (d : DataFrame) (dc : Column)
  (H M S : list (option F)) (i : nat) (o : option string)
  (hv mv sv : option F) (date : option Timestamp) :
  getitem d "DateGMT" = Ok dc ->
  getitem d "hour" = Ok (NumCol H) ->
  getitem d "minute" = Ok (NumCol M) ->
  getitem d "second" = Ok (NumCol S) ->
  cell_at dc i = to_cell CTime date ->
  H !! i = Some hv -> piece_float (nth 0 (split_row ":" o) None) = Ok hv ->
  M !! i = Some mv -> piece_float (nth 1 (split_row ":" o) None) = Ok mv ->
  S !! i = Some sv -> piece_float (nth 2 (split_row ":" o) None) = Ok sv ->
  timestamp_row (row_at d i) = row_timestamp date o.
Proof.
  intros Hdc HH HM HS Hdate Hh Hhp Hm Hmp Hs Hsp.
  unfold timestamp_row, row_timestamp, clock_field.
  rewrite (row_get_row_at d i _ _ Hdc), (row_get_row_at d i _ _ HH),
    (row_get_row_at d i _ _ HM), (row_get_row_at d i _ _ HS).
  rewrite Hdate, (cell_at_NumCol _ _ _ Hh), (cell_at_NumCol _ _ _ Hm),
    (cell_at_NumCol _ _ _ Hs), Hhp, Hmp, Hsp.
  by destruct date.
Qed.

(** With a time-of-day column of strings whose longest value has three
    pieces, each piece a number, and every row giving a valid time, the
    timestamp is composed row by row as [row_timestamp] says. *)
Lemma compose_timestamps_well_timed (d : DataFrame) (c : Column)
  (xs : list (option string)) :
  aligned d ->
  getitem d "DateGMT" = Ok c ->
  getitem d "TimeGMT" = Ok (ObjCol xs) ->
  max_list (map (fun o => length (split_row ":" o)) xs) = 3 ->
  (forall o piece, In o xs -> In (Some piece) (split_row ":" o) ->
                   is_Some (float_of_str piece)) ->
  (forall i o, xs !! i = Some o ->
               is_ok (row_timestamp (date_of_cell (cell_at c i)) o) = true) ->
  exists d' ts,
    compose_timestamps d = Ok d'
    /\ getitem d' "Timestamp" = Ok (TimeCol ts)
    /\ forall i o, xs !! i = Some o ->
         exists y, row_timestamp (date_of_cell (cell_at c i)) o = Ok y
                   /\ ts !! i = Some y.
Proof.
  intros Hal Hc Ht Hw Hparse Hrows.
  pose proof (getitem_len _ _ _ Hal Hc) as Hclen.
  pose proof (getitem_len _ _ _ Hal Ht) as Hxlen. simpl in Hxlen.
  (* line 39 *)
  destruct (setitem_succeeds d "DateGMT" (to_datetime c)) as [d1 Hd1];
    [by rewrite col_len_to_datetime|].
  pose proof (setitem_nrows _ _ _ _ Hd1) as Hn1.
  assert (getitem d1 "TimeGMT" = Ok (ObjCol xs)) as Ht1
    by (by rewrite (getitem_other _ _ _ _ Hd1 "TimeGMT") by discriminate).
  (* line 44 *)
  destruct (astype_piece_column xs 0 Hparse) as (H & HH & HHlen & HHi).
  destruct (astype_piece_column xs 1 Hparse) as (M & HM & HMlen & HMi).
  destruct (astype_piece_column xs 2 Hparse) as (S & HS & HSlen & HSi).
  destruct (setitem_succeeds d1 "hour" (NumCol H)) as [da Hda];
    [simpl; congruence|].
  pose proof (setitem_nrows _ _ _ _ Hda) as Hna.
  destruct (setitem_succeeds da "minute" (NumCol M)) as [db Hdb];
    [simpl; congruence|].
  pose proof (setitem_nrows _ _ _ _ Hdb) as Hnb.
  destruct (setitem_succeeds db "second" (NumCol S)) as [d2 Hd2];
    [simpl; congruence|].
  pose proof (setitem_nrows _ _ _ _ Hd2) as Hn2.
  assert (split_time d1 = Ok d2) as Hsplit.
  { unfold split_time. rewrite Ht1. cbn [bind str_split_expand].
    rewrite expand_three.
    2: { unfold str_split_rows. by rewrite map_map. }
    cbn [traverse]. rewrite HH, HM, HS. cbn [bind].
    rewrite Hda. cbn [bind]. rewrite Hdb. by cbn [bind]. }
  assert (getitem d2 "DateGMT" = Ok (to_datetime c)) as Hc2.
  { rewrite (getitem_other _ _ _ _ Hd2 "DateGMT") by discriminate.
    rewrite (getitem_other _ _ _ _ Hdb "DateGMT") by discriminate.
    rewrite (getitem_other _ _ _ _ Hda "DateGMT") by discriminate.
    by apply (getitem_setitem_eq d). }
  assert (getitem d2 "hour" = Ok (NumCol H)) as Hh2.
  { rewrite (getitem_other _ _ _ _ Hd2 "hour") by discriminate.
    rewrite (getitem_other _ _ _ _ Hdb "hour") by discriminate.
    by apply (getitem_setitem_eq d1). }
  assert (getitem d2 "minute" = Ok (NumCol M)) as Hm2.
  { rewrite (getitem_other _ _ _ _ Hd2 "minute") by discriminate.
    by apply (getitem_setitem_eq da). }
  pose proof (getitem_setitem_eq _ _ _ _ Hd2) as Hs2.
  (* lines 47-57 *)
  assert (forall i o, xs !! i = Some o ->
            timestamp_row (row_at d2 i)
            = row_timestamp (date_of_cell (cell_at c i)) o) as Hrow.
  { intros i o Hi.
    destruct (HHi i o Hi) as (hv & Hhp & Hh).
    destruct (HMi i o Hi) as (mv & Hmp & Hm).
    destruct (HSi i o Hi) as (sv & Hsp & Hs).
    eapply timestamp_row_at; try done.
    apply cell_at_to_datetime. apply lookup_lt_Some in Hi. lia. }
  destruct (traverse_total timestamp_row (iterrows d2)) as [ts Hts].
  { intros x (i & <- & Hi%in_seq)%in_map_iff.
    destruct (lookup_lt_is_Some_2 xs i) as [o Ho]; [lia|].
    rewrite (Hrow i o Ho). by apply Hrows. }
  assert (length ts = nrows d2) as Htslen.
  { rewrite (traverse_length _ _ _ Hts). unfold iterrows.
    by rewrite length_map, length_seq. }
  destruct (setitem_succeeds d2 "Timestamp" (TimeCol ts)) as [d3 Hd3]; [done|].
  assert (compose_timestamp d2 = Ok d3) as Hcompose.
  { unfold compose_timestamp, apply_axis1.
    destruct (nrows d2) as [|n] eqn:En.
    - destruct xs; [done|simpl in *; lia].
    - rewrite Hts. by cbn [bind setitem_applied]. }
  (* line 60 *)
  assert (forall col, In col ["hour"; "minute"; "second"] ->
            contains d3 col = true) as Hparts.
  { intros col Hcol.
    simpl in Hcol. destruct Hcol as [<-|[<-|[<-|[]]]];
      rewrite (contains_other _ _ _ _ Hd3) by discriminate;
      by eapply getitem_contains. }
  destruct (drop_time_parts d3) as [d'|e] eqn:Hdrop.
  2: { unfold drop_time_parts, drop in Hdrop. simpl in Hdrop.
       rewrite !Hparts in Hdrop by (simpl; auto). done. }
  exists d', ts. split; [|split].
  - unfold compose_timestamps, parse_dates, add_timestamp.
    rewrite Hc. cbn [bind]. rewrite Hd1. cbn [bind].
    rewrite (getitem_contains _ _ _ Ht1), Hsplit. cbn [bind].
    rewrite Hcompose. by cbn [bind].
  - unfold drop_time_parts in Hdrop.
    rewrite (getitem_drop _ _ _ "Timestamp" Hdrop); [|done].
    by apply (getitem_setitem_eq d2).
  - intros i o Hi.
    destruct (traverse_lookup _ _ _ i (row_at d2 i) Hts) as (y & Hy & Hyi).
    { apply iterrows_lookup. apply lookup_lt_Some in Hi. lia. }
    exists y. by rewrite <- (Hrow i o Hi).
Qed.

(** C2, as the code has it: on a table that has the date column, composing
    the timestamp never raises when there is no time-of-day column; it does
    not raise either when that column holds strings, the longest of them
    has three pieces, each piece reads as a number and each row gives a valid
    time, and the timestamps are then those of [row_timestamp]; and whenever
    it returns, a row whose date does not parse has a null date and, if there
    is a time-of-day column, a null timestamp. *)
Theorem unparseable_date_is_null (d : DataFrame) (c : Column) :
  aligned d ->
  getitem d "DateGMT" = Ok c ->
  (contains d "TimeGMT" = false -> exists d', compose_timestamps d = Ok d')
  /\ (forall xs,
        getitem d "TimeGMT" = Ok (ObjCol xs) ->
        max_list (map (fun o => length (split_row ":" o)) xs) = 3 ->
        (forall o piece, In o xs -> In (Some piece) (split_row ":" o) ->
                         is_Some (float_of_str piece)) ->
        (forall i o, xs !! i = Some o ->
           is_ok (row_timestamp (date_of_cell (cell_at c i)) o) = true) ->
        exists d' ts,
          compose_timestamps d = Ok d'
          /\ getitem d' "Timestamp" = Ok (TimeCol ts)
          /\ forall i o, xs !! i = Some o ->
               exists y, row_timestamp (date_of_cell (cell_at c i)) o = Ok y
                         /\ ts !! i = Some y)
  /\ forall d' i,
       compose_timestamps d = Ok d' ->
       i < nrows d ->
       date_of_cell (cell_at c i) = None ->
       (exists c', getitem d' "DateGMT" = Ok c' /\ cell_at c' i = CNa)
       /\ (contains d "TimeGMT" = true ->
           exists t, getitem d' "Timestamp" = Ok t /\ cell_at t i = CNa).
Proof.
  intros Hal Hc.
  assert (forall A B C : Prop, A /\ C -> B -> A /\ B /\ C) as Hsplit
    by (by intros A B C [HA HC] HB).
  apply Hsplit;
    [|intros xs Ht Hw Hp Hr; by apply (compose_timestamps_well_timed d c xs)].
  clear Hsplit.
  pose proof (getitem_len _ _ _ Hal Hc) as Hlen.
  destruct (setitem_succeeds d "DateGMT" (to_datetime c)) as [d1 Hd1];
    [by rewrite col_len_to_datetime|].
  assert (parse_dates d = Ok d1) as Hparse
    by (unfold parse_dates; by rewrite Hc).
  assert (contains d1 "TimeGMT" = contains d "TimeGMT") as Htime
    by (apply (contains_setitem_ne d "DateGMT" "TimeGMT" (to_datetime c) d1);
        [discriminate|done]).
  assert (nrows d1 = nrows d) as Hn1
    by (by apply setitem_Ok in Hd1 as [_ ->]).
  pose proof (getitem_setitem_eq _ _ _ _ Hd1) as Hc1.
  unfold compose_timestamps. rewrite Hparse. cbn [bind]. unfold add_timestamp.
  rewrite Htime. split.
  - intros ->. by exists d1.
  - intros d' i Hd' Hi Hnone.
    assert (cell_at (to_datetime c) i = CNa) as Hna
      by (rewrite cell_at_to_datetime by lia; by rewrite Hnone).
    destruct (contains d "TimeGMT").
    + apply bind_Ok in Hd' as (d2 & Hd2 & Hd').
      apply bind_Ok in Hd' as (d3 & Hd3 & Hd').
      assert (getitem d2 "DateGMT" = Ok (to_datetime c)) as Hc2.
      { unfold split_time in Hd2. unstep Hd2.
        repeat match goal with
               | H : setitem _ _ _ = Ok _ |- _ =>
                   apply (getitem_setitem_ne _ _ "DateGMT") in H;
                   [|discriminate]
               end.
        congruence. }
      assert (nrows d2 = nrows d) as Hn2.
      { rewrite <- Hn1. apply (preserves_split_time d1 d2 Hd2).
        by eapply setitem_aligned. }
      destruct (compose_timestamp_missing d2 d3 _ i Hd3 Hc2) as (t & Ht & Hti);
        [lia|done|].
      assert (getitem d3 "DateGMT" = Ok (to_datetime c)) as Hc3.
      { unfold compose_timestamp in Hd3.
        apply bind_Ok in Hd3 as (r & _ & Hd3). unfold setitem_applied in Hd3.
        unstep Hd3;
          apply (getitem_setitem_ne _ _ "DateGMT") in Hd3; try discriminate;
          congruence. }
      unfold drop_time_parts in Hd'. split.
      * exists (to_datetime c). by rewrite (getitem_drop _ _ _ _ Hd').
      * intros _. exists t. by rewrite (getitem_drop _ _ _ _ Hd').
    + injection Hd' as <-. split; [by exists (to_datetime c)|done].
Qed.

End Timestamps.

Section Absent.
Context {F : Type} {fl : Float64 F}.
Local Abbreviation Cell := (@Cell F).
Local Abbreviation Column := (@Column F).
Local Abbreviation DataFrame := (@DataFrame F).

Lemma contains_drop (d : DataFrame) (names : list string) (d' : DataFrame)
  (c : string) :
  drop d names = Ok d' -> contains d c = false -> contains d' c = false.
Proof.
  unfold drop. intros Hd. unstep Hd. unfold contains. simpl.
  induction (columns d) as [|[n x] cs IH]; simpl; [done|].
  destruct (String.eqb n c) eqn:E; [done|]. intros Hc.
  destruct (negb (mem_str names n)); simpl; [rewrite E|]; by apply IH.
Qed.

Lemma keeps_absent_for_each {X} (col : string) (l : list X)
  (body : DataFrame -> X -> Result DataFrame) :
  (forall x, keeps_absent col (fun d => body d x)) ->
  keeps_absent col (for_each l body).
Proof.
  intros Hbody. induction l as [|x l IH]; intros d d' Hd Hc; simpl in Hd.
  - by injection Hd as <-.
  - apply bind_Ok in Hd as (d1 & Hd1 & Hd).
    eapply IH; [done|]. by eapply (Hbody x).
Qed.

End Absent.

(** [unstep] on every hypothesis. *)
Ltac unstep_all :=
  repeat match goal with
         | H : bind _ _ = Ok _ |- _ => apply bind_Ok in H as (? & ? & H)
         | H : Ok _ = Ok _ |- _ => inversion H; subst; clear H
         | H : Raise _ = Ok _ |- _ => discriminate H
         | H : (if ?b then _ else _) = Ok _ |- _ => destruct b eqn:?
         | H : (match ?x with _ => _ end) = Ok _ |- _ =>
             destruct x eqn:?; try discriminate H
         end.

(** Closing a goal [contains d' col = false] for a designated categorical
    column [col] from the assignments found by [unstep]. *)
Ltac absent :=
  repeat first
    [ assumption
    | congruence
    | match goal with
      | H : setitem _ _ _ = Ok ?b |- contains ?b _ = false =>
          rewrite (contains_other _ _ _ _ H) by discriminate
      | H : drop _ _ = Ok ?b |- contains ?b _ = false =>
          apply (contains_drop _ _ _ _ H)
      end ].

Section AbsentCategorical.
Context {F : Type} {fl : Float64 F}.
Local Abbreviation Cell := (@Cell F).
Local Abbreviation Column := (@Column F).
Local Abbreviation DataFrame := (@DataFrame F).
Local Abbreviation keeps_absent := (@keeps_absent F).
Variable col : string.
Hypothesis Hcol : In col categorical_cols.

Lemma categorical_cases :
  col = "Sex" \/ col = "Age" \/ col = "Breed Stage" \/ col = "ArgosQuality".
Proof. simpl in Hcol. intuition. Qed.

Lemma keeps_absent_parse_dates : keeps_absent col parse_dates.
Proof.
  intros d d' Hd Hc. unfold parse_dates in Hd. unstep Hd.
  destruct categorical_cases as [->|[->|[->| ->]]]; absent.
Qed.

Lemma keeps_absent_add_timestamp : keeps_absent col add_timestamp.
Proof.
  intros d d' Hd Hc.
  unfold add_timestamp, split_time, compose_timestamp, setitem_applied,
    drop_time_parts in Hd.
  unstep_all; destruct categorical_cases as [->|[->|[->| ->]]]; absent.
Qed.

Lemma keeps_absent_convert_numeric (c : string) :
  keeps_absent col (fun d => convert_numeric d c).
Proof.
  intros d d' Hd Hc. unfold convert_numeric in Hd.
  destruct (decide (c = col)) as [->|Hne].
  - by rewrite Hc in Hd; injection Hd as <-.
  - unstep Hd; try done. by rewrite (contains_other _ _ _ _ Hd).
Qed.

Lemma keeps_absent_impute_mode (c : string) :
  keeps_absent col (fun d => impute_mode d c).
Proof.
  intros d d' Hd Hc. unfold impute_mode in Hd.
  destruct (decide (c = col)) as [->|Hne].
  - by rewrite Hc in Hd; injection Hd as <-.
  - unstep Hd; try done. by rewrite (contains_other _ _ _ _ Hd).
Qed.

Lemma keeps_absent_knn_impute : keeps_absent col knn_impute.
Proof.
  intros d d' Hd Hc. unfold knn_impute in Hd.
  destruct (forallb _ _); [|by injection Hd as <-].
  apply bind_Ok in Hd as (lat_c & _ & Hd).
  apply bind_Ok in Hd as (lon_c & _ & Hd).
  destruct (_ || _); [|by injection Hd as <-].
  apply bind_Ok in Hd as (lat & _ & Hd).
  apply bind_Ok in Hd as (lon & _ & Hd).
  apply bind_Ok in Hd as (out & _ & Hd).
  destruct out as [|lat' [|lon' [|]]]; try discriminate Hd.
  apply bind_Ok in Hd as (d1 & Hd1 & Hd).
  destruct categorical_cases as [->|[->|[->| ->]]]; absent.
Qed.

Lemma keeps_absent_distance_feature : keeps_absent col distance_feature.
Proof.
  intros d d' Hd Hc. unfold distance_feature in Hd.
  apply bind_Ok in Hd as (r & _ & Hd). unfold setitem_applied in Hd.
  unstep_all; destruct categorical_cases as [->|[->|[->| ->]]]; absent.
Qed.

Lemma keeps_absent_temporal_features : keeps_absent col temporal_features.
Proof.
  intros d d' Hd Hc. unfold temporal_features in Hd.
  destruct (contains d "Timestamp"); [|by injection Hd as <-].
  apply bind_Ok in Hd as (ts & _ & Hd).
  apply bind_Ok in Hd as (h & _ & Hd).
  apply bind_Ok in Hd as (d1 & Hd1 & Hd).
  apply bind_Ok in Hd as (ts' & _ & Hd).
  apply bind_Ok in Hd as (m & _ & Hd).
  apply bind_Ok in Hd as (d2 & Hd2 & Hd).
  apply bind_Ok in Hd as (mc & _ & Hd).
  destruct categorical_cases as [->|[->|[->| ->]]]; absent.
Qed.

Lemma get_dummies_absent (d : DataFrame) (cols : list string) :
  In col cols -> contains d col = false -> is_ok (get_dummies d cols) = false.
Proof.
  intros Hin Hc. unfold get_dummies.
  destruct (traverse _ cols) as [enc|e] eqn:Henc; [|done].
  destruct (traverse_In _ _ _ col Henc Hin) as (b & _ & _ & Hb & _).
  unfold getitem, contains in *. by destruct (lookup_col (columns d) col).
Qed.

(** A table that lacks a designated categorical column does not get through
    the steps: if nothing raises before, line 104 does. *)
Lemma missing_categorical_raises (d : DataFrame) :
  contains d col = false -> is_ok (process_frame d) = false.
Proof.
  intros Hc. unfold process_frame, stages. cbn [for_each].
  destruct (parse_dates d) as [d1|] eqn:H1; [|done]. cbn [bind].
  pose proof (keeps_absent_parse_dates _ _ H1 Hc) as Hc1.
  destruct (add_timestamp d1) as [d2|] eqn:H2; [|done]. cbn [bind].
  pose proof (keeps_absent_add_timestamp _ _ H2 Hc1) as Hc2.
  destruct (coords_to_numeric d2) as [d3|] eqn:H3; [|done]. cbn [bind].
  pose proof (keeps_absent_for_each col position_cols convert_numeric
                keeps_absent_convert_numeric _ _ H3 Hc2) as Hc3.
  destruct (mode_fill d3) as [d4|] eqn:H4; [|done]. cbn [bind].
  pose proof (keeps_absent_for_each col categorical_cols impute_mode
                keeps_absent_impute_mode _ _ H4 Hc3) as Hc4.
  destruct (knn_impute d4) as [d5|] eqn:H5; [|done]. cbn [bind].
  pose proof (keeps_absent_knn_impute _ _ H5 Hc4) as Hc5.
  destruct (distance_feature d5) as [d6|] eqn:H6; [|done]. cbn [bind].
  pose proof (keeps_absent_distance_feature _ _ H6 Hc5) as Hc6.
  destruct (temporal_features d6) as [d7|] eqn:H7; [|done]. cbn [bind].
  pose proof (keeps_absent_temporal_features _ _ H7 Hc6) as Hc7.
  pose proof (get_dummies_absent d7 categorical_cols Hcol Hc7) as H8.
  unfold encode_categoricals. by destruct (get_dummies d7 categorical_cols).
Qed.

End AbsentCategorical.

Section AbsentColumn.
Context {F : Type} {fl : Float64 F}.
Local Abbreviation DataFrame := (@DataFrame F).

(** C3, the categorical columns: on every table that lacks a designated
    categorical column [process_data] raises, rather than skipping what
    depends on the column. *)
Theorem absent_categorical_raises (h : gmap nat DataFrame) (r : nat)
  (d : DataFrame) (col : string) :
  In col categorical_cols ->
  h !! r = Some d ->
  contains d col = false ->
  is_ok (process_data r h).1 = false.
Proof.
  intros Hcol Hr Hc.
  pose proof (missing_categorical_raises col Hcol d Hc) as Hraise.
  pose proof (process_data_frame h r d Hr) as Hout.
  destruct (process_frame d) as [d'|e]; [done|].
  by destruct Hout as (h' & -> & _).
Qed.

End AbsentColumn.

Section ModeFillLoop.
Context {F : Type} {fl : Float64 F} `{!Float64Laws fl}.
Local Abbreviation Cell := (@Cell F).
Local Abbreviation Column := (@Column F).
Local Abbreviation DataFrame := (@DataFrame F).

Lemma impute_mode_other (d d1 : DataFrame) (x col : string) :
  x <> col -> impute_mode d x = Ok d1 -> getitem d1 col = getitem d col.
Proof.
  intros Hne Hd. unfold impute_mode in Hd. unstep Hd; try done.
  by apply (getitem_other _ _ _ _ Hd).
Qed.

Lemma for_each_impute_other (l : list string) (d d' : DataFrame) (col : string) :
  ~ In col l -> for_each l impute_mode d = Ok d' ->
  getitem d' col = getitem d col.
Proof.
  revert d; induction l as [|x l IH]; intros d Hnin Hd; simpl in Hd.
  - by injection Hd as <-.
  - apply bind_Ok in Hd as (d1 & Hd1 & Hd).
    rewrite (IH d1) by (try done; intros Hin; apply Hnin; by right).
    apply (impute_mode_other d d1 x col); [|done].
    intros ->. apply Hnin. by left.
Qed.

(** The whole loop of lines 70-72: when it returns, each designated column
    that held a value has been filled as [mode_fill_least_mode] says. *)
Lemma mode_fill_every_column (d d' : DataFrame) (col : string) (c : Column) :
  aligned d ->
  mode_fill d = Ok d' ->
  In col categorical_cols ->
  getitem d col = Ok c ->
  (exists v, In v (cells_of c) /\ isna v = false) ->
  exists c' m,
    getitem d' col = Ok c'
    /\ is_mode m c
    /\ any (isna_col c') = false
    /\ forall i, i < nrows d ->
         cell_at c' i = if isna (cell_at c i) then m else cell_at c i.
Proof.
  unfold mode_fill.
  assert (List.NoDup categorical_cols) as Hnd.
  { unfold categorical_cols.
    repeat (constructor; [simpl; intuition discriminate|]). constructor. }
  revert Hnd d. generalize categorical_cols as l.
  induction l as [|x l IH]; intros Hnd d Hal Hd Hin Hc Hv; [done|].
  simpl in Hd. apply bind_Ok in Hd as (d1 & Hd1 & Hd).
  apply List.NoDup_cons_iff in Hnd as [Hx Hnd].
  destruct (decide (x = col)) as [->|Hne].
  - destruct (mode_fill_least_mode d col c Hal Hc Hv)
      as (d1' & c' & m & Hd1' & Hc' & Hm & Hany & Hcells).
    rewrite Hd1 in Hd1'. injection Hd1' as <-.
    exists c', m. split; [|done].
    by rewrite (for_each_impute_other l d1 d' col Hx Hd).
  - destruct Hin as [->|Hin]; [done|].
    destruct (preserves_impute_mode x d d1 Hd1 Hal) as [Hal1 Hn1].
    rewrite <- Hn1. apply (IH Hnd d1); try done.
    by rewrite (impute_mode_other d d1 x col Hne Hd1).
Qed.

End ModeFillLoop.

(** Closing a goal [getitem d' col = Ok v] from the assignments found by
    [unstep], [Hnin] saying that [col] is none of the labels assigned. *)
Ltac kept Hnin :=
  repeat first
    [ assumption
    | match goal with
      | H : setitem _ _ _ = Ok ?b |- getitem ?b ?c = _ =>
          rewrite (getitem_other _ _ _ _ H c)
            by (intros Heq; apply Hnin; rewrite <- Heq; simpl; tauto)
      | H : drop _ ?names = Ok ?b |- getitem ?b ?c = _ =>
          rewrite (getitem_drop _ names b c H)
            by (apply mem_str_false; intros ?; apply Hnin; simpl in *; tauto)
      end ].

Section Frame.
Context {F : Type} {fl : Float64 F}.
Local Abbreviation Cell := (@Cell F).
Local Abbreviation Column := (@Column F).
Local Abbreviation DataFrame := (@DataFrame F).
Local Abbreviation keeps := (@keeps F).
Variable col : string.

Lemma keeps_for_each {X} (l : list X)
  (body : DataFrame -> X -> Result DataFrame) :
  (forall x, In x l -> keeps col (fun d => body d x)) ->
  keeps col (for_each l body).
Proof.
  intros Hbody. induction l as [|x l IH]; intros d d' v Hd Hv; simpl in Hd.
  - by injection Hd as <-.
  - apply bind_Ok in Hd as (d1 & Hd1 & Hd).
    eapply IH; [by intros; apply Hbody; right|done|].
    eapply (Hbody x); [by left|done|done].
Qed.

Lemma keeps_parse_dates : col <> "DateGMT" -> keeps col parse_dates.
Proof.
  intros Hne d d' v Hd Hv. unfold parse_dates in Hd. unstep Hd.
  rewrite (getitem_other _ _ _ _ Hd col); [done|congruence].
Qed.

Lemma keeps_add_timestamp :
  ~ In col ["hour"; "minute"; "second"; "Timestamp"] -> keeps col add_timestamp.
Proof.
  intros Hnin d d' v Hd Hv.
  unfold add_timestamp, split_time, compose_timestamp, setitem_applied,
    drop_time_parts in Hd.
  unstep_all; kept Hnin.
Qed.

Lemma keeps_convert_numeric (c : string) :
  c <> col -> keeps col (fun d => convert_numeric d c).
Proof.
  intros Hne d d' v Hd Hv. unfold convert_numeric in Hd. unstep Hd; [|done].
  by rewrite (getitem_other _ _ _ _ Hd col).
Qed.

Lemma keeps_impute_mode (c : string) :
  c <> col -> keeps col (fun d => impute_mode d c).
Proof.
  intros Hne d d' v Hd Hv. unfold impute_mode in Hd. unstep Hd; try done.
  by rewrite (getitem_other _ _ _ _ Hd col).
Qed.

Lemma keeps_knn_impute : ~ In col position_cols -> keeps col knn_impute.
Proof.
  intros Hnin d d' v Hd Hv. unfold knn_impute in Hd.
  destruct (forallb _ _); [|by injection Hd as <-].
  apply bind_Ok in Hd as (lat_c & _ & Hd).
  apply bind_Ok in Hd as (lon_c & _ & Hd).
  destruct (_ || _); [|by injection Hd as <-].
  apply bind_Ok in Hd as (lat & _ & Hd).
  apply bind_Ok in Hd as (lon & _ & Hd).
  apply bind_Ok in Hd as (out & _ & Hd).
  destruct out as [|lat' [|lon' [|]]]; try discriminate Hd.
  apply bind_Ok in Hd as (d1 & Hd1 & Hd). kept Hnin.
Qed.

Lemma keeps_distance_feature :
  col <> "distance_to_colony_km" -> keeps col distance_feature.
Proof.
  intros Hne d d' v Hd Hv. unfold distance_feature in Hd.
  apply bind_Ok in Hd as (r & _ & Hd). unfold setitem_applied in Hd.
  unstep_all; (rewrite (getitem_other _ _ _ _ Hd col); [done|congruence]).
Qed.

Lemma keeps_temporal_features :
  ~ In col ["hour_of_day"; "month"; "season"] -> keeps col temporal_features.
Proof.
  intros Hnin d d' v Hd Hv. unfold temporal_features in Hd.
  destruct (contains d "Timestamp"); [|by injection Hd as <-].
  apply bind_Ok in Hd as (ts & _ & Hd).
  apply bind_Ok in Hd as (h & _ & Hd).
  apply bind_Ok in Hd as (d1 & Hd1 & Hd).
  apply bind_Ok in Hd as (ts' & _ & Hd).
  apply bind_Ok in Hd as (m & _ & Hd).
  apply bind_Ok in Hd as (d2 & Hd2 & Hd).
  apply bind_Ok in Hd as (mc & _ & Hd). kept Hnin.
Qed.

Lemma lookup_col_app (cs cs' : list (string * Column)) (c : string) (v : Column) :
  lookup_col cs c = Some v -> lookup_col (cs ++ cs') c = Some v.
Proof.
  induction cs as [|[n x] cs IH]; simpl; [done|].
  by destruct (String.eqb n c).
Qed.

Lemma lookup_col_filter (names : list string) (cs : list (string * Column))
  (c : string) :
  mem_str names c = false ->
  lookup_col (List.filter (fun p => negb (mem_str names p.1)) cs) c
  = lookup_col cs c.
Proof.
  intros Hc. induction cs as [|[n x] cs IH]; simpl; [done|].
  destruct (mem_str names n) eqn:Hn; simpl.
  - destruct (String.eqb n c) eqn:E; [|done].
    apply String.eqb_eq in E as ->. congruence.
  - by rewrite IH.
Qed.

(** One-hot encoding leaves the columns it does not encode as they are. *)
Lemma keeps_get_dummies (cols : list string) :
  ~ In col cols -> keeps col (fun d => get_dummies d cols).
Proof.
  intros Hnin d d' v Hd Hv. unfold get_dummies in Hd.
  apply bind_Ok in Hd as (enc & _ & Hd). injection Hd as <-.
  apply getitem_Ok in Hv. unfold getitem. simpl.
  rewrite (lookup_col_app _ _ col v); [done|].
  rewrite lookup_col_filter; [done|by apply mem_str_false].
Qed.

Lemma keeps_scale_column (c : string) :
  c <> col -> keeps col (fun d => scale_column d c).
Proof.
  intros Hne d d' v Hd Hv. unfold scale_column in Hd.
  apply bind_Ok in Hd as (x & _ & Hd).
  apply bind_Ok in Hd as (xs & _ & Hd).
  apply bind_Ok in Hd as (ys & _ & Hd).
  by rewrite (getitem_other _ _ _ _ Hd col).
Qed.

Lemma keeps_normalize : ~ In col numeric_cols -> keeps col normalize.
Proof.
  intros Hnin d d' v Hd Hv. unfold normalize in Hd.
  eapply keeps_for_each; [|exact Hd|exact Hv].
  intros x [Hx _]%List.filter_In. apply keeps_scale_column.
  intros ->. by apply Hnin.
Qed.

Lemma keeps_coords_to_numeric :
  ~ In col position_cols -> keeps col coords_to_numeric.
Proof.
  intros Hnin. apply keeps_for_each. intros x Hx.
  apply keeps_convert_numeric. by intros ->.
Qed.

Lemma keeps_mode_fill : ~ In col categorical_cols -> keeps col mode_fill.
Proof.
  intros Hnin. apply keeps_for_each. intros x Hx.
  apply keeps_impute_mode. by intros ->.
Qed.

Lemma keeps_stages : ~ In col assigned_cols -> Forall (keeps col) stages.
Proof.
  intros Hnin. unfold stages.
  repeat (constructor;
          [first [ apply keeps_parse_dates | apply keeps_add_timestamp
                 | apply keeps_coords_to_numeric | apply keeps_mode_fill
                 | apply keeps_knn_impute | apply keeps_distance_feature
                 | apply keeps_temporal_features
                 | apply keeps_get_dummies
                 | apply keeps_normalize ];
           intros Hin; apply Hnin; unfold assigned_cols; simpl in *;
           try subst col; tauto|]).
  constructor.
Qed.

Lemma keeps_process_frame : ~ In col assigned_cols -> keeps col process_frame.
Proof.
  intros Hnin. unfold process_frame. intros d d'.
  generalize (keeps_stages Hnin). generalize stages. intros l Hl. revert d.
  induction Hl as [|f l Hf Hl IH]; intros d v Hd Hv; simpl in Hd.
  - by injection Hd as <-.
  - apply bind_Ok in Hd as (d1 & Hd1 & Hd).
    eapply IH; [done|]. by eapply Hf.
Qed.

End Frame.

Section LabelBasics.
Context {F : Type} {fl : Float64 F}.
Local Abbreviation Cell := (@Cell F).
Local Abbreviation Column := (@Column F).
Local Abbreviation DataFrame := (@DataFrame F).

Lemma contains_setitem (d : DataFrame) (k c : string) (v : Column)
  (d' : DataFrame) :
  setitem d k v = Ok d' -> contains d' c = true -> k = c \/ contains d c = true.
Proof.
  intros Hs Hc. destruct (decide (k = c)) as [|Hne]; [by left|right].
  by rewrite <- (contains_other _ _ _ _ Hs c Hne).
Qed.

Lemma contains_setitem_eq (d : DataFrame) (k : string) (v : Column)
  (d' : DataFrame) :
  setitem d k v = Ok d' -> contains d' k = true.
Proof.
  intros Hs. eapply getitem_contains. by eapply getitem_setitem_eq.
Qed.

Lemma contains_getitem (d : DataFrame) (c : string) :
  contains d c = true -> exists v, getitem d c = Ok v.
Proof.
  unfold contains, getitem. destruct (lookup_col _ _); [by eauto|done].
Qed.

Lemma contains_drop_true (d : DataFrame) (names : list string)
  (d' : DataFrame) (c : string) :
  drop d names = Ok d' -> contains d' c = true ->
  contains d c = true /\ mem_str names c = false.
Proof.
  unfold drop. intros Hd. unstep Hd. unfold contains. simpl.
  induction (columns d) as [|[n x] cs IH]; simpl; [done|].
  destruct (mem_str names n) eqn:Hn; simpl.
  - intros [Hc Hm]%IH. split; [|done]. by destruct (String.eqb n c).
  - destruct (String.eqb n c) eqn:E; [|done].
    apply String.eqb_eq in E as <-. done.
Qed.

End LabelBasics.

(** Tracing a label of the result back through the assignments found by
    [unstep]: it was assigned, or it was there before. *)
Ltac traced :=
  repeat match goal with
         | S : setitem _ _ _ = Ok ?b, H : contains ?b _ = true |- _ =>
             apply (contains_setitem _ _ _ _ _ S) in H as [<-|H]
         | S : drop _ _ = Ok ?b, H : contains ?b _ = true |- _ =>
             apply (contains_drop_true _ _ _ _ S) in H as [H ?]
         end;
  try done; try (by left);
  try (right; unfold new_label; simpl; tauto).

Section Labels.
Context {F : Type} {fl : Float64 F}.
Local Abbreviation Cell := (@Cell F).
Local Abbreviation Column := (@Column F).
Local Abbreviation DataFrame := (@DataFrame F).
Local Abbreviation adds_only := (@adds_only F).

Lemma adds_only_for_each {X} (new : string -> Prop) (l : list X)
  (body : DataFrame -> X -> Result DataFrame) :
  (forall x, In x l -> adds_only new (fun d => body d x)) ->
  adds_only new (for_each l body).
Proof.
  intros Hbody. induction l as [|x l IH]; intros d d' c Hd Hc; simpl in Hd.
  - injection Hd as <-. by left.
  - apply bind_Ok in Hd as (d1 & Hd1 & Hd).
    destruct (IH (fun y Hy => Hbody y (or_intror Hy)) d1 d' c Hd Hc)
      as [Hc1|Hnew]; [|by right].
    by apply (Hbody x (or_introl eq_refl) d d1 c).
Qed.

Lemma adds_only_parse_dates : adds_only new_label parse_dates.
Proof.
  intros d d' c Hd Hc. unfold parse_dates in Hd. unstep Hd.
  apply (contains_setitem _ _ _ _ _ Hd) in Hc as [<-|Hc]; [|by left].
  left. by eapply getitem_contains.
Qed.

Lemma adds_only_add_timestamp : adds_only new_label add_timestamp.
Proof.
  intros d d' c Hd Hc.
  unfold add_timestamp, split_time, compose_timestamp, setitem_applied,
    drop_time_parts in Hd.
  unstep_all; traced.
Qed.

Lemma adds_only_convert_numeric (col : string) :
  adds_only new_label (fun d => convert_numeric d col).
Proof.
  intros d d' c Hd Hc. unfold convert_numeric in Hd. unstep Hd; [|by left].
  apply (contains_setitem _ _ _ _ _ Hd) in Hc as [<-|Hc]; by left.
Qed.

Lemma adds_only_impute_mode (col : string) :
  adds_only new_label (fun d => impute_mode d col).
Proof.
  intros d d' c Hd Hc. unfold impute_mode in Hd. unstep Hd; try (by left).
  apply (contains_setitem _ _ _ _ _ Hd) in Hc as [<-|Hc]; by left.
Qed.

Lemma adds_only_knn_impute : adds_only new_label knn_impute.
Proof.
  intros d d' c Hd Hc. unfold knn_impute in Hd.
  destruct (forallb _ _) eqn:Hboth; [|injection Hd as <-; by left].
  apply bind_Ok in Hd as (lat_c & Hlat%getitem_contains & Hd).
  apply bind_Ok in Hd as (lon_c & Hlon%getitem_contains & Hd).
  destruct (_ || _); [|injection Hd as <-; by left].
  apply bind_Ok in Hd as (lat & _ & Hd).
  apply bind_Ok in Hd as (lon & _ & Hd).
  apply bind_Ok in Hd as (out & _ & Hd).
  destruct out as [|lat' [|lon' [|]]]; try discriminate Hd.
  apply bind_Ok in Hd as (d1 & Hd1 & Hd).
  apply (contains_setitem _ _ _ _ _ Hd) in Hc as [<-|Hc]; [by left|].
  apply (contains_setitem _ _ _ _ _ Hd1) in Hc as [<-|Hc]; by left.
Qed.

Lemma adds_only_distance_feature : adds_only new_label distance_feature.
Proof.
  intros d d' c Hd Hc. unfold distance_feature in Hd.
  apply bind_Ok in Hd as (r & _ & Hd). unfold setitem_applied in Hd.
  unstep_all; traced.
Qed.

Lemma adds_only_temporal_features : adds_only new_label temporal_features.
Proof.
  intros d d' c Hd Hc. unfold temporal_features in Hd.
  destruct (contains d "Timestamp"); [|injection Hd as <-; by left].
  apply bind_Ok in Hd as (ts & _ & Hd).
  apply bind_Ok in Hd as (h & _ & Hd).
  apply bind_Ok in Hd as (d1 & Hd1 & Hd).
  apply bind_Ok in Hd as (ts' & _ & Hd).
  apply bind_Ok in Hd as (m & _ & Hd).
  apply bind_Ok in Hd as (d2 & Hd2 & Hd).
  apply bind_Ok in Hd as (mc & _ & Hd). traced.
Qed.

Lemma lookup_col_app_None (cs cs' : list (string * Column)) (c : string) :
  lookup_col cs c = None -> lookup_col (cs ++ cs') c = lookup_col cs' c.
Proof.
  induction cs as [|[n x] cs IH]; simpl; [done|].
  by destruct (String.eqb n c).
Qed.

Lemma lookup_col_Some_In (cs : list (string * Column)) (c : string) :
  is_Some (lookup_col cs c) -> In c (map fst cs).
Proof.
  intros [v Hv%lookup_col_In]. apply in_map_iff. by exists (c, v).
Qed.

Lemma dummy_block_names {A} `{Dtype A} (prefix : string)
  (xs : list (option A)) (q : string) :
  In q (map fst (dummy_block (F:=F) prefix xs)) ->
  exists value, q = prefix +:+ "_" +:+ value.
Proof.
  unfold dummy_block. rewrite map_app, in_app_iff, map_map. simpl.
  intros [(l & <- & _)%in_map_iff|[<-|[]]]; by eauto.
Qed.

Lemma dummies_of_names (prefix : string) (v : Column) (q : string) :
  In q (map fst (dummies_of prefix v)) ->
  exists value, q = prefix +:+ "_" +:+ value.
Proof. destruct v; simpl; apply dummy_block_names. Qed.

(** A label of an encoded table is a label that was not encoded, or the
    name of an indicator: the encoded column's name, ["_"], a value. *)
Lemma get_dummies_labels (d : DataFrame) (cols : list string) (d' : DataFrame)
  (c : string) :
  get_dummies d cols = Ok d' -> contains d' c = true ->
  (contains d c = true /\ ~ In c cols)
  \/ exists prefix value, In prefix cols /\ c = prefix +:+ "_" +:+ value.
Proof.
  intros Hd Hc. unfold get_dummies in Hd.
  apply bind_Ok in Hd as (enc & Henc & Hd). injection Hd as <-.
  unfold contains in Hc. simpl in Hc.
  destruct (lookup_col (List.filter (fun p => negb (mem_str cols p.1))
                          (columns d)) c) as [v|] eqn:Hkept.
  - left. apply lookup_col_In, List.filter_In in Hkept as [Hin Hm].
    simpl in Hm. split.
    + unfold contains. destruct (lookup_col (columns d) c) eqn:E; [done|].
      exfalso. clear -Hin E. induction (columns d) as [|[n x] cs IH];
        simpl in *; [done|].
      destruct (String.eqb n c) eqn:En; [done|].
      destruct Hin as [[= -> _]|Hin]; [|by apply IH].
      by rewrite String.eqb_refl in En.
    + intros Hcols. apply negb_true_iff in Hm.
      rewrite mem_str_true in Hm; [done|done].
  - right. rewrite lookup_col_app_None in Hc by done.
    assert (In c (map fst (concat enc))) as Hin.
    { apply lookup_col_Some_In. by destruct (lookup_col (concat enc) c). }
    clear -Henc Hin. revert enc Henc Hin.
    induction cols as [|p cols IH]; intros enc Henc Hin; simpl in Henc.
    + injection Henc as <-. done.
    + apply bind_Ok in Henc as (b & Hb & Henc).
      apply bind_Ok in Henc as (enc' & Henc' & Henc). injection Henc as <-.
      apply bind_Ok in Hb as (v & Hv & Hb). injection Hb as <-.
      simpl in Hin. rewrite map_app, in_app_iff in Hin.
      destruct Hin as [Hin|Hin].
      * apply dummies_of_names in Hin as [value ->].
        exists p, value. split; [by left|done].
      * destruct (IH enc' Henc' Hin) as (p' & value & Hp' & ->).
        exists p', value. split; [by right|done].
Qed.

Lemma adds_only_encode_categoricals : adds_only new_label encode_categoricals.
Proof.
  intros d d' c Hd Hc.
  destruct (get_dummies_labels _ _ _ _ Hd Hc) as [[Hin _]|Hind]; [by left|].
  right. by right.
Qed.

Lemma adds_only_scale_column (col : string) :
  adds_only new_label (fun d => scale_column d col).
Proof.
  intros d d' c Hd Hc. unfold scale_column in Hd.
  apply bind_Ok in Hd as (x & Hx%getitem_contains & Hd).
  apply bind_Ok in Hd as (xs & _ & Hd).
  apply bind_Ok in Hd as (ys & _ & Hd).
  apply (contains_setitem _ _ _ _ _ Hd) in Hc as [<-|Hc]; by left.
Qed.

Lemma adds_only_stages : Forall (adds_only new_label) stages.
Proof.
  unfold stages.
  repeat (constructor;
          [first [ exact adds_only_parse_dates | exact adds_only_add_timestamp
                 | apply adds_only_for_each; intros; apply adds_only_convert_numeric
                 | apply adds_only_for_each; intros; apply adds_only_impute_mode
                 | exact adds_only_knn_impute | exact adds_only_distance_feature
                 | exact adds_only_temporal_features
                 | exact adds_only_encode_categoricals
                 | intros d; apply adds_only_for_each; intros;
                   apply adds_only_scale_column ]|]).
  constructor.
Qed.

Lemma adds_only_process_frame : adds_only new_label process_frame.
Proof.
  unfold process_frame. intros d d' c.
  generalize adds_only_stages. generalize stages. intros l Hl. revert d.
  induction Hl as [|f l Hf Hl IH]; intros d Hd Hc; simpl in Hd.
  - injection Hd as <-. by left.
  - apply bind_Ok in Hd as (d1 & Hd1 & Hd).
    destruct (IH d1 Hd Hc) as [Hc1|Hnew]; [|by right].
    by apply (Hf d d1 c).
Qed.

End Labels.

Section Schema.
Context {F : Type} {fl : Float64 F}.
Local Abbreviation Cell := (@Cell F).
Local Abbreviation Column := (@Column F).
Local Abbreviation DataFrame := (@DataFrame F).

(** The tables between the steps of a run that returns. *)
Lemma process_frame_steps (d d' : DataFrame) :
  process_frame d = Ok d' ->
  exists d1 d2 d3 d4 d5 d6 d7 d8,
    parse_dates d = Ok d1 /\ add_timestamp d1 = Ok d2
    /\ coords_to_numeric d2 = Ok d3 /\ mode_fill d3 = Ok d4
    /\ knn_impute d4 = Ok d5 /\ distance_feature d5 = Ok d6
    /\ temporal_features d6 = Ok d7 /\ encode_categoricals d7 = Ok d8
    /\ normalize d8 = Ok d'.
Proof.
  unfold process_frame, stages. cbn [for_each]. intros Hd.
  apply bind_Ok in Hd as (d1 & H1 & Hd). apply bind_Ok in Hd as (d2 & H2 & Hd).
  apply bind_Ok in Hd as (d3 & H3 & Hd). apply bind_Ok in Hd as (d4 & H4 & Hd).
  apply bind_Ok in Hd as (d5 & H5 & Hd). apply bind_Ok in Hd as (d6 & H6 & Hd).
  apply bind_Ok in Hd as (d7 & H7 & Hd). apply bind_Ok in Hd as (d8 & H8 & Hd).
  apply bind_Ok in Hd as (d9 & H9 & Hd). injection Hd as <-.
  by exists d1, d2, d3, d4, d5, d6, d7, d8.
Qed.

(** What [process_data] returns is the table [process_frame] gives. *)
Lemma process_data_returns (h h' : gmap nat DataFrame) (r l : nat)
  (d : DataFrame) :
  h !! r = Some d -> process_data r h = (Ok l, h') ->
  exists d', h' !! l = Some d' /\ process_frame d = Ok d'.
Proof.
  intros Hr Hrun.
  pose proof (process_data_frame h r d Hr) as Hout. rewrite Hrun in Hout.
  destruct (process_frame d) as [d'|e] eqn:Hd'; simpl in Hout.
  - destruct Hout as (l' & h'' & [= <- <-] & (_ & _ & Hl)). by exists d'.
  - by destruct Hout as (h'' & [=] & _).
Qed.

Lemma scale_column_contains (d d' : DataFrame) (col c : string) :
  scale_column d col = Ok d' -> contains d' c = contains d c.
Proof.
  intros Hd. unfold scale_column in Hd.
  apply bind_Ok in Hd as (x & Hx%getitem_contains & Hd).
  apply bind_Ok in Hd as (xs & _ & Hd).
  apply bind_Ok in Hd as (ys & _ & Hd).
  destruct (decide (col = c)) as [<-|Hne].
  - rewrite Hx. by eapply contains_setitem_eq.
  - by apply (contains_other _ _ _ _ Hd).
Qed.

Lemma normalize_contains (d d' : DataFrame) (c : string) :
  normalize d = Ok d' -> contains d' c = contains d c.
Proof.
  unfold normalize. generalize (List.filter (contains d) numeric_cols).
  intros l. revert d. induction l as [|x l IH]; intros d Hd; simpl in Hd.
  - by injection Hd as <-.
  - apply bind_Ok in Hd as (d1 & Hd1 & Hd).
    rewrite (IH d1 Hd). by eapply scale_column_contains.
Qed.

Lemma not_indicator_name (c : string) :
  In c (categorical_cols ++ ["hour"; "minute"; "second"]) ->
  ~ indicator_name c.
Proof.
  intros Hc (p & value & Hp & Heq). simpl in Hc, Hp.
  repeat (destruct Hc as [<-|Hc]; [repeat (destruct Hp as [<-|Hp];
            [vm_compute in Heq; discriminate Heq|]); done|]).
  done.
Qed.

(** The labels of the table [process_data] returns: none of the designated
    categorical columns is left, and every label was a label of the input
    or is one of the five features or the name of an indicator. *)
Theorem process_data_output_labels (h h' : gmap nat DataFrame) (r l : nat)
  (d : DataFrame) :
  h !! r = Some d ->
  process_data r h = (Ok l, h') ->
  exists d',
    h' !! l = Some d'
    /\ (forall c, In c categorical_cols -> contains d' c = false)
    /\ (forall c, contains d' c = true -> contains d c = true \/ new_label c).
Proof.
  intros Hr Hrun.
  destruct (process_data_returns h h' r l d Hr Hrun) as (d' & Hl & Hd').
  exists d'. split; [done|]. split.
  - intros c Hc. apply not_true_is_false. intros Hin.
    destruct (process_frame_steps d d' Hd')
      as (d1 & d2 & d3 & d4 & d5 & d6 & d7 & d8 & _ & _ & _ & _ & _ & _ & _
          & H8 & H9).
    rewrite (normalize_contains _ _ c H9) in Hin.
    destruct (get_dummies_labels _ _ _ _ H8 Hin) as [[_ Hnin]|Hind]; [done|].
    apply (not_indicator_name c); [apply in_app_iff; by left|exact Hind].
  - intros c Hc. by apply (adds_only_process_frame d d' c).
Qed.

(** [process_data] does not take what it returns: the designated
    categorical columns are gone, and line 104 asks for them. *)
Theorem process_data_not_reapplicable (h h' : gmap nat DataFrame) (r l : nat)
  (d : DataFrame) :
  h !! r = Some d ->
  process_data r h = (Ok l, h') ->
  is_ok (process_data l h').1 = false.
Proof.
  intros Hr Hrun.
  destruct (process_data_returns h h' r l d Hr Hrun) as (d' & Hl & Hd').
  assert (contains d' "Sex" = false) as Hsex.
  { apply not_true_is_false. intros Hin.
    destruct (process_frame_steps d d' Hd')
      as (d1 & d2 & d3 & d4 & d5 & d6 & d7 & d8 & _ & _ & _ & _ & _ & _ & _
          & H8 & H9).
    rewrite (normalize_contains _ _ _ H9) in Hin.
    destruct (get_dummies_labels _ _ _ _ H8 Hin) as [[_ Hnin]|Hind].
    - apply Hnin. simpl. tauto.
    - apply (not_indicator_name "Sex"); [simpl; tauto|exact Hind]. }
  assert (In "Sex" categorical_cols) as Hcat by (simpl; tauto).
  pose proof (missing_categorical_raises "Sex" Hcat d' Hsex) as Hraise.
  pose proof (process_data_frame h' l d' Hl) as Hout.
  destruct (process_frame d') as [d''|e]; [done|].
  by destruct Hout as (h'' & -> & _).
Qed.

Lemma adds_only_run (new : string -> Prop)
  (l : list (DataFrame -> Result DataFrame)) :
  Forall (@adds_only F new) l -> @adds_only F new (for_each l (fun d f => f d)).
Proof.
  intros Hl. induction Hl as [|f l Hf Hl IH]; intros d d' c Hd Hc;
    simpl in Hd.
  - injection Hd as <-. by left.
  - apply bind_Ok in Hd as (d1 & Hd1 & Hd).
    destruct (IH d1 d' c Hd Hc) as [Hc1|Hnew]; [|by right].
    by apply (Hf d d1 c).
Qed.

Lemma not_new_label (c : string) :
  In c (categorical_cols ++ ["hour"; "minute"; "second"]) -> ~ new_label c.
Proof.
  intros Hc [Hin|Hind]; [|by apply (not_indicator_name c)].
  simpl in Hc, Hin.
  repeat (destruct Hc as [<-|Hc];
          [repeat (destruct Hin as [Hin|Hin]; [discriminate Hin|]); done|]).
  done.
Qed.

(** With a time of day in the input, the table [process_data] returns has
    no column named hour, minute or second: the three helper columns are
    dropped, and with them any column the input had under one of these
    names. *)
Theorem time_parts_dropped (h h' : gmap nat DataFrame) (r l : nat)
  (d : DataFrame) (c : string) :
  h !! r = Some d ->
  contains d "TimeGMT" = true ->
  In c ["hour"; "minute"; "second"] ->
  process_data r h = (Ok l, h') ->
  exists d', h' !! l = Some d' /\ contains d' c = false.
Proof.
  intros Hr Htime Hc Hrun.
  destruct (process_data_returns h h' r l d Hr Hrun) as (d' & Hl & Hd').
  exists d'. split; [done|].
  destruct (process_frame_steps d d' Hd')
    as (d1 & d2 & d3 & d4 & d5 & d6 & d7 & d8 & H1 & H2 & H3 & H4 & H5 & H6
        & H7 & H8 & H9).
  assert (contains d1 "TimeGMT" = true) as Htime1.
  { unfold parse_dates in H1. unstep H1.
    by rewrite (contains_other _ _ _ _ H1 "TimeGMT"). }
  assert (contains d2 c = false) as Hc2.
  { unfold add_timestamp in H2. rewrite Htime1 in H2.
    apply bind_Ok in H2 as (x & _ & H2). apply bind_Ok in H2 as (y & _ & H2).
    apply not_true_is_false. intros Hin.
    apply (contains_drop_true _ _ _ _ H2) in Hin as [_ Hm].
    by rewrite (mem_str_true _ c Hc) in Hm. }
  apply not_true_is_false. intros Hin.
  assert (for_each (skipn 2 stages) (fun d f => f d) d2 = Ok d') as Hrest.
  { unfold stages. cbn [skipn for_each].
    rewrite H3. cbn [bind]. rewrite H4. cbn [bind]. rewrite H5. cbn [bind].
    rewrite H6. cbn [bind]. rewrite H7. cbn [bind]. rewrite H8. cbn [bind].
    by rewrite H9. }
  destruct (adds_only_run new_label (skipn 2 stages)
              (Forall_drop _ 2 _ adds_only_stages) d2 d' c Hrest Hin)
    as [Hc2'|Hnew]; [congruence|].
  apply (not_new_label c); [apply in_app_iff; by right|exact Hnew].
Qed.

Lemma In_contains (d : DataFrame) (c : string) :
  In c (map fst (columns d)) -> contains d c = true.
Proof.
  unfold contains. induction (columns d) as [|[n x] cs IH]; simpl; [done|].
  intros [->|Hin]; [by rewrite String.eqb_refl|].
  destruct (String.eqb n c); [done|by apply IH].
Qed.

Lemma dummies_of_nan (prefix : string) (v : Column) :
  In (prefix +:+ "_nan") (map fst (dummies_of prefix v)).
Proof.
  destruct v; simpl; unfold dummy_block; rewrite map_app, in_app_iff;
    right; by left.
Qed.

Lemma get_dummies_nan (d : DataFrame) (cols : list string) (d' : DataFrame)
  (p : string) :
  get_dummies d cols = Ok d' -> In p cols -> contains d' (p +:+ "_nan") = true.
Proof.
  intros Hd Hp. unfold get_dummies in Hd.
  apply bind_Ok in Hd as (enc & Henc & Hd). injection Hd as <-.
  apply In_contains. simpl. rewrite map_app, in_app_iff. right.
  clear -Henc Hp. revert enc Henc.
  induction cols as [|q cols IH]; intros enc Henc; [done|]. simpl in Henc.
  apply bind_Ok in Henc as (b & Hb & Henc).
  apply bind_Ok in Henc as (enc' & Henc' & Henc). injection Henc as <-.
  apply bind_Ok in Hb as (v & Hv & Hb). injection Hb as <-.
  simpl. rewrite map_app, in_app_iff.
  destruct Hp as [->|Hp]; [left; apply dummies_of_nan|right; by apply IH].
Qed.

(** What a run that returns has added: the date column holds dates, the
    distance column holds a number in every row, each designated categorical
    column has its indicator of a missing value, and with a time of day in
    the input the timestamp and the three temporal features are there. *)
Theorem process_data_adds_features (h h' : gmap nat DataFrame) (r l : nat)
  (d : DataFrame) :
  h !! r = Some d ->
  process_data r h = (Ok l, h') ->
  exists d',
    h' !! l = Some d'
    /\ (exists ts, getitem d' "DateGMT" = Ok (TimeCol ts))
    /\ (exists ys, getitem d' "distance_to_colony_km" = Ok (NumCol (map Some ys)))
    /\ (forall p, In p categorical_cols -> contains d' (p +:+ "_nan") = true)
    /\ (contains d "TimeGMT" = true ->
        (exists ts, getitem d' "Timestamp" = Ok (TimeCol ts))
        /\ contains d' "hour_of_day" = true
        /\ contains d' "month" = true
        /\ contains d' "season" = true).
Proof.
  intros Hr Hrun.
  destruct (process_data_returns h h' r l d Hr Hrun) as (d' & Hl & Hd').
  exists d'. split; [done|].
  destruct (process_frame_steps d d' Hd')
    as (d1 & d2 & d3 & d4 & d5 & d6 & d7 & d8 & H1 & H2 & H3 & H4 & H5 & H6
        & H7 & H8 & H9).
  assert (forall col, ~ In col position_cols -> ~ In col categorical_cols ->
            keeps col (fun x => y <- coords_to_numeric x ;; y <- mode_fill y ;;
                                knn_impute y)) as Hmid.
  { intros col Hp Hc x y v Hxy Hv.
    apply bind_Ok in Hxy as (x1 & Hx1 & Hxy).
    apply bind_Ok in Hxy as (x2 & Hx2 & Hxy).
    eapply keeps_knn_impute; [done|exact Hxy|].
    eapply keeps_mode_fill; [done|exact Hx2|].
    by eapply keeps_coords_to_numeric. }
  assert ((y <- coords_to_numeric d2 ;; y <- mode_fill y ;; knn_impute y)
          = Ok d5) as H345 by (rewrite H3; cbn [bind]; by rewrite H4).
  split; [|split; [|split]].
  - pose proof H1 as H1'. unfold parse_dates in H1'.
    apply bind_Ok in H1' as (c0 & Hc0 & _).
    pose proof (parse_dates_column d d1 c0 Hc0 H1) as Hg.
    assert (exists ts, to_datetime c0 = TimeCol ts) as [ts Hts]
      by (destruct c0; simpl; by eauto).
    rewrite Hts in Hg. exists ts.
    eapply keeps_normalize; [|exact H9|]; [simpl; intuition discriminate|].
    eapply keeps_get_dummies; [|exact H8|]; [simpl; intuition discriminate|].
    eapply keeps_temporal_features; [|exact H7|]; [simpl; intuition discriminate|].
    eapply keeps_distance_feature; [|exact H6|]; [discriminate|].
    eapply Hmid; [| |exact H345|]; [simpl; intuition discriminate..|].
    eapply keeps_add_timestamp; [|exact H2|]; [simpl; intuition discriminate|].
    exact Hg.
  - assert (contains d6 "distance_to_colony_km" = true) as Hc6.
    { unfold distance_feature in H6. apply bind_Ok in H6 as (x & _ & H6).
      unfold setitem_applied in H6.
      unstep_all; by eapply contains_setitem_eq. }
    apply contains_getitem in Hc6 as [v6 Hv6].
    assert (getitem d8 "distance_to_colony_km" = Ok v6) as Hv8.
    { eapply keeps_get_dummies; [|exact H8|]; [simpl; intuition discriminate|].
      eapply keeps_temporal_features; [|exact H7|exact Hv6].
      simpl; intuition discriminate. }
    unfold normalize, numeric_cols in H9. cbn [List.filter] in H9.
    rewrite (getitem_contains _ _ _ Hv8) in H9. cbn [for_each] in H9.
    apply bind_Ok in H9 as (d9 & H9 & Heq). injection Heq as <-.
    unfold scale_column in H9.
    apply bind_Ok in H9 as (x & _ & H9). apply bind_Ok in H9 as (xs & _ & H9).
    apply bind_Ok in H9 as (ys & _ & H9).
    exists ys. by eapply getitem_setitem_eq.
  - intros p Hp. rewrite (normalize_contains _ _ _ H9).
    by apply (get_dummies_nan d7 categorical_cols).
  - intros Htime.
    assert (contains d1 "TimeGMT" = true) as Htime1.
    { unfold parse_dates in H1. unstep H1.
      by rewrite (contains_other _ _ _ _ H1 "TimeGMT"). }
    assert (contains d2 "Timestamp" = true) as Hts2.
    { unfold add_timestamp in H2. rewrite Htime1 in H2.
      apply bind_Ok in H2 as (x & _ & H2). apply bind_Ok in H2 as (y & Hy & H2).
      unfold compose_timestamp in Hy. apply bind_Ok in Hy as (a & _ & Hy).
      assert (contains y "Timestamp" = true) as Hcy
        by (unfold setitem_applied in Hy; unstep_all;
            by eapply contains_setitem_eq).
      apply contains_getitem in Hcy as [v Hv]. eapply getitem_contains.
      unfold drop_time_parts in H2.
      by rewrite (getitem_drop _ _ _ "Timestamp" H2). }
    apply contains_getitem in Hts2 as [v2 Hv2].
    assert (getitem d6 "Timestamp" = Ok v2) as Hv6.
    { eapply keeps_distance_feature; [|exact H6|]; [discriminate|].
      eapply Hmid; [| |exact H345|exact Hv2]; simpl; intuition discriminate. }
    pose proof H7 as H7'. unfold temporal_features in H7'.
    rewrite (getitem_contains _ _ _ Hv6), Hv6 in H7'. cbn [bind] in H7'.
    apply bind_Ok in H7' as (hc & Hhc & H7').
    apply bind_Ok in H7' as (x1 & Hx1 & H7').
    apply bind_Ok in H7' as (ts' & Hts' & H7').
    apply bind_Ok in H7' as (mc & Hmc & H7').
    apply bind_Ok in H7' as (x2 & Hx2 & H7').
    apply bind_Ok in H7' as (mc' & Hmc' & H7').
    assert (exists ts, v2 = TimeCol ts) as [ts ->]
      by (destruct v2; try discriminate Hhc; by eauto).
    assert (forall c, In c ["Timestamp"; "hour_of_day"; "month"; "season"] ->
              contains d7 c = true -> contains d' c = true) as Hend.
    { intros c Hc [v Hv]%contains_getitem. eapply getitem_contains.
      eapply keeps_normalize; [|exact H9|].
      { simpl in *. intuition (subst; discriminate). }
      eapply keeps_get_dummies; [|exact H8|exact Hv].
      simpl in *. intuition (subst; discriminate). }
    split; [|split; [|split]].
    + exists ts.
      eapply keeps_normalize; [|exact H9|]; [simpl; intuition discriminate|].
      eapply keeps_get_dummies; [|exact H8|]; [simpl; intuition discriminate|].
      eapply keeps_temporal_features; [|exact H7|exact Hv6].
      simpl; intuition discriminate.
    + apply Hend; [simpl; tauto|].
      rewrite (contains_other _ _ _ _ H7') by discriminate.
      rewrite (contains_other _ _ _ _ Hx2) by discriminate.
      by eapply contains_setitem_eq.
    + apply Hend; [simpl; tauto|].
      rewrite (contains_other _ _ _ _ H7') by discriminate.
      by eapply contains_setitem_eq.
    + apply Hend; [simpl; tauto|]. by eapply contains_setitem_eq.
Qed.

End Schema.

Section Failures.
Context {F : Type} {fl : Float64 F}.
Local Abbreviation Cell := (@Cell F).
Local Abbreviation Column := (@Column F).
Local Abbreviation DataFrame := (@DataFrame F).

Lemma getitem_absent (d : DataFrame) (c : string) :
  contains d c = false -> getitem d c = Raise KeyError.
Proof. unfold contains, getitem. by destruct (lookup_col _ _). Qed.

Lemma process_data_raises (h : gmap nat DataFrame) (r : nat) (d : DataFrame)
  (e : Exception) :
  h !! r = Some d -> process_frame d = Raise e ->
  (process_data r h).1 = Raise e.
Proof.
  intros Hr He. pose proof (process_data_frame h r d Hr) as Hout.
  rewrite He in Hout. by destruct Hout as (h' & -> & _).
Qed.

(** Without the date column [process_data] raises [KeyError]: line 39 reads
    it unguarded. *)
Theorem missing_date_raises (h : gmap nat DataFrame) (r : nat) (d : DataFrame) :
  h !! r = Some d ->
  contains d "DateGMT" = false ->
  (process_data r h).1 = Raise KeyError.
Proof.
  intros Hr Hc. apply (process_data_raises h r d); [done|].
  unfold process_frame, stages. cbn [for_each]. unfold parse_dates.
  by rewrite (getitem_absent d "DateGMT" Hc).
Qed.

Lemma as_float_length (c : Column) (xs : list (option F)) :
  as_float c = Ok xs -> length xs = col_len c.
Proof.
  destruct c; simpl; intros [= <-]; by rewrite ?length_map.
Qed.

(** On a table without rows [process_data] raises: if nothing else does,
    the scaler of line 112 refuses an array without samples. *)
Theorem empty_table_raises (h : gmap nat DataFrame) (r : nat) (d : DataFrame) :
  h !! r = Some d ->
  aligned d ->
  nrows d = 0 ->
  is_ok (process_data r h).1 = false.
Proof.
  intros Hr Hal Hn.
  pose proof (process_data_frame h r d Hr) as Hout.
  destruct (process_frame d) as [d'|e] eqn:Hd'; simpl in Hout.
  2: { by destruct Hout as (h' & -> & _). }
  exfalso. clear Hout.
  destruct (process_frame_steps d d' Hd')
    as (d1 & d2 & d3 & d4 & d5 & d6 & d7 & d8 & H1 & H2 & H3 & H4 & H5 & H6
        & H7 & H8 & H9).
  destruct (preserves_parse_dates _ _ H1 Hal) as [Hal1 Hn1].
  destruct (preserves_add_timestamp _ _ H2 Hal1) as [Hal2 Hn2].
  destruct (preserves_coords_to_numeric _ _ H3 Hal2) as [Hal3 Hn3].
  destruct (preserves_mode_fill _ _ H4 Hal3) as [Hal4 Hn4].
  destruct (preserves_knn_impute _ _ H5 Hal4) as [Hal5 Hn5].
  destruct (preserves_distance_feature _ _ H6 Hal5) as [Hal6 Hn6].
  destruct (preserves_temporal_features _ _ H7 Hal6) as [Hal7 Hn7].
  destruct (preserves_encode_categoricals _ _ H8 Hal7) as [Hal8 Hn8].
  assert (contains d6 "distance_to_colony_km" = true) as Hc6.
  { unfold distance_feature in H6. apply bind_Ok in H6 as (x & _ & H6).
    unfold setitem_applied in H6. unstep_all; by eapply contains_setitem_eq. }
  apply contains_getitem in Hc6 as [v6 Hv6].
  assert (getitem d8 "distance_to_colony_km" = Ok v6) as Hv8.
  { eapply keeps_get_dummies; [|exact H8|]; [simpl; intuition discriminate|].
    eapply keeps_temporal_features; [|exact H7|exact Hv6].
    simpl; intuition discriminate. }
  unfold normalize, numeric_cols in H9. cbn [List.filter] in H9.
  rewrite (getitem_contains _ _ _ Hv8) in H9. cbn [for_each] in H9.
  apply bind_Ok in H9 as (d9 & H9 & _).
  unfold scale_column in H9. rewrite Hv8 in H9. cbn [bind] in H9.
  apply bind_Ok in H9 as (xs & Hxs & H9).
  apply bind_Ok in H9 as (ys & Hys & _).
  apply as_float_length in Hxs.
  rewrite (getitem_len _ _ _ Hal8 Hv8) in Hxs.
  assert (xs = []) as -> by (apply length_zero_iff_nil; lia).
  discriminate Hys.
Qed.

End Failures.

Section Positions.
Context {F : Type} {fl : Float64 F}.
Local Abbreviation Cell := (@Cell F).
Local Abbreviation Column := (@Column F).
Local Abbreviation DataFrame := (@DataFrame F).
Local Abbreviation CNa := (@CNa F).
Local Abbreviation CNum := (@CNum F).

Lemma col_len_to_numeric (c : Column) : col_len (to_numeric c) = col_len c.
Proof. destruct c; simpl; by rewrite ?length_map. Qed.

Lemma contains_same (d d' : DataFrame) (c : string) :
  getitem d' c = getitem d c -> contains d' c = contains d c.
Proof.
  unfold getitem, contains.
  destruct (lookup_col (columns d') c), (lookup_col (columns d) c); done.
Qed.

Lemma convert_numeric_total (d : DataFrame) (col : string) :
  aligned d ->
  exists d',
    convert_numeric d col = Ok d'
    /\ aligned d' /\ nrows d' = nrows d
    /\ match getitem d col with
       | Ok c => getitem d' col = Ok (to_numeric c)
       | Raise _ => contains d' col = false
       end
    /\ forall c, c <> col -> getitem d' c = getitem d c.
Proof.
  intros Hal. unfold convert_numeric.
  destruct (contains d col) eqn:Hc.
  - apply contains_getitem in Hc as [c Hc]. rewrite Hc. cbn [bind].
    destruct (setitem_succeeds d col (to_numeric c)) as [d' Hd'].
    { rewrite col_len_to_numeric. by eapply getitem_len. }
    exists d'. split; [done|].
    destruct (setitem_aligned _ _ _ _ Hal Hd') as [Hal' Hn'].
    split; [done|]. split; [done|]. split.
    + by eapply getitem_setitem_eq.
    + intros c' Hne. by apply (getitem_other _ _ _ _ Hd').
  - exists d. rewrite (getitem_absent d col Hc). by repeat split.
Qed.

(** The conversion of lines 63-65 never raises: each coordinate column that
    is there becomes numeric (text that is no number becomes a missing
    value), an absent one stays absent, and no other column changes. *)
Theorem coords_to_numeric_total (d : DataFrame) :
  aligned d ->
  exists d',
    coords_to_numeric d = Ok d'
    /\ (forall col, In col position_cols ->
          match getitem d col with
          | Ok c => getitem d' col = Ok (to_numeric c)
          | Raise _ => contains d' col = false
          end)
    /\ forall c, ~ In c position_cols -> getitem d' c = getitem d c.
Proof.
  intros Hal. unfold coords_to_numeric, position_cols. cbn [for_each].
  destruct (convert_numeric_total d "Latitude" Hal)
    as (d1 & -> & Hal1 & _ & Hlat & Hother1). cbn [bind].
  destruct (convert_numeric_total d1 "Longitude" Hal1)
    as (d2 & -> & Hal2 & _ & Hlon & Hother2). cbn [bind].
  exists d2. split; [done|]. split.
  - intros col [<-|[<-|[]]].
    + specialize (Hother2 "Latitude" ltac:(discriminate)).
      destruct (getitem d "Latitude") as [c|e]; [by rewrite Hother2|].
      etrans; [by apply contains_same|exact Hlat].
    + rewrite (Hother1 "Longitude") in Hlon by discriminate. exact Hlon.
  - intros c Hc. rewrite Hother2, Hother1; [done| |];
      intros ->; apply Hc; simpl; tauto.
Qed.

Lemma impute_column_complete (X : list (option F * option F)) (j : bool)
  (xs : list (option F)) :
  any (isna_col (NumCol (impute_column X j xs))) = false.
Proof.
  apply any_isna_false. intros i Hi. simpl in Hi.
  unfold impute_column in *. rewrite length_imap in Hi.
  destruct (lookup_lt_is_Some_2 xs i Hi) as [o Ho].
  rewrite (cell_at_NumCol _ i
             (Some match o with Some x => x | None => knn_estimate X i j end)).
  - done.
  - rewrite list_lookup_imap, Ho. by destruct o.
Qed.

Lemma KNNImputer_two (lat lon a b : list (option F)) :
  KNNImputer_fit_transform lat lon = Ok [a; b] ->
  a = impute_column (zip lat lon) false lat
  /\ b = impute_column (zip lat lon) true lon.
Proof.
  unfold KNNImputer_fit_transform.
  destruct (forallb finite_or_nan (lat ++ lon)); [|done].
  destruct (all_nan lat), (all_nan lon); simpl; intros [=]; by subst.
Qed.

(** After the imputation of lines 75-78 no coordinate is missing: when both
    coordinate columns are there and the step returns, each of them holds a
    value in every row. *)
Theorem knn_impute_completes (d d' : DataFrame) (lat lon : Column) :
  knn_impute d = Ok d' ->
  getitem d "Latitude" = Ok lat ->
  getitem d "Longitude" = Ok lon ->
  exists lat' lon',
    getitem d' "Latitude" = Ok lat' /\ getitem d' "Longitude" = Ok lon'
    /\ any (isna_col lat') = false /\ any (isna_col lon') = false.
Proof.
  intros Hk Hlat Hlon. unfold knn_impute in Hk. simpl in Hk.
  rewrite (getitem_contains _ _ _ Hlat), (getitem_contains _ _ _ Hlon) in Hk.
  simpl in Hk. rewrite Hlat, Hlon in Hk. simpl in Hk.
  destruct (any (isna_col lat) || any (isna_col lon)) eqn:Hany.
  2: { injection Hk as <-. apply orb_false_elim in Hany as [Ha Hb].
       by exists lat, lon. }
  apply bind_Ok in Hk as (xs & Hxs & Hk).
  apply bind_Ok in Hk as (ys & Hys & Hk).
  apply bind_Ok in Hk as (out & Hout & Hk).
  destruct out as [|a [|b [|]]]; try discriminate Hk.
  apply KNNImputer_two in Hout as [-> ->].
  apply bind_Ok in Hk as (d1 & Hd1 & Hd').
  eexists _, _. split; [|split; [by eapply getitem_setitem_eq|]].
  - rewrite (getitem_other _ _ _ _ Hd' "Latitude") by discriminate.
    by eapply getitem_setitem_eq.
  - split; apply impute_column_complete.
Qed.

Lemma all_nan_any (xs : list (option F)) :
  all_nan xs = true -> xs <> [] -> any (isna_col (NumCol xs)) = true.
Proof.
  destruct xs as [|[x|] xs]; simpl; [done|done|]. by intros _ _.
Qed.

(** A coordinate column without a single value makes the imputation raise
    [ValueError]: the imputer returns one column for the two that line 78
    assigns. *)
Theorem knn_impute_empty_column_raises (d : DataFrame)
  (lat lon : list (option F)) :
  aligned d ->
  0 < nrows d ->
  getitem d "Latitude" = Ok (NumCol lat) ->
  getitem d "Longitude" = Ok (NumCol lon) ->
  all_nan lat || all_nan lon = true ->
  knn_impute d = Raise ValueError.
Proof.
  intros Hal Hn Hlat Hlon Hnan.
  pose proof (getitem_len _ _ _ Hal Hlat) as Hl1. simpl in Hl1.
  pose proof (getitem_len _ _ _ Hal Hlon) as Hl2. simpl in Hl2.
  assert (lat <> []) as Hne1 by (intros ->; simpl in Hl1; lia).
  assert (lon <> []) as Hne2 by (intros ->; simpl in Hl2; lia).
  unfold knn_impute. simpl.
  rewrite (getitem_contains _ _ _ Hlat), (getitem_contains _ _ _ Hlon).
  simpl. rewrite Hlat, Hlon. simpl.
  assert (any (isna_col (NumCol lat)) || any (isna_col (NumCol lon)) = true)
    as ->.
  { apply orb_true_iff. apply orb_true_iff in Hnan as [H1|H2];
      [left|right]; by apply all_nan_any. }
  unfold KNNImputer_fit_transform.
  destruct (forallb finite_or_nan (lat ++ lon)); [|done].
  by destruct (all_nan lat), (all_nan lon).
Qed.

End Positions.

Section Distances.
Context {F : Type} {fl : Float64 F}.
Local Abbreviation Cell := (@Cell F).
Local Abbreviation Column := (@Column F).
Local Abbreviation DataFrame := (@DataFrame F).
Local Abbreviation CNa := (@CNa F).
Local Abbreviation CNum := (@CNum F).

Lemma cell_at_NumCol_cases (xs : list (option F)) (i : nat) :
  cell_at (NumCol xs) i
  = match xs !! i with Some (Some x) => CNum x | _ => CNa end.
Proof.
  unfold cell_at. simpl. rewrite nth_lookup.
  change (map (to_cell CNum) xs) with (to_cell CNum <$> xs).
  rewrite list_lookup_fmap. by destruct (xs !! i) as [[x|]|].
Qed.

Lemma traverse_raise {X Y} (f : X -> Result Y) (l : list X) (e : Exception) :
  traverse f l = Raise e -> exists x, In x l /\ f x = Raise e.
Proof.
  induction l as [|x l IH]; simpl; [done|].
  destruct (f x) as [y|e'] eqn:E; simpl.
  - destruct (traverse f l) as [ys|e'']; simpl; [done|].
    intros [= ->]. destruct IH as (x' & Hin & Hx'); [done|]. by eauto.
  - intros [= ->]. by eauto.
Qed.

(** The function of lines 83-84 on a row of a table with numeric
    coordinate columns. *)
Lemma distance_row_at (d : DataFrame) (lat lon : list (option F)) (i : nat) :
  getitem d "Latitude" = Ok (NumCol lat) ->
  getitem d "Longitude" = Ok (NumCol lon) ->
  distance_row (row_at d i)
  = match lat !! i, lon !! i with
    | Some (Some x), Some (Some y) =>
        match geodesic_km (x, y) (COLONY_LATITUDE, COLONY_LONGITUDE) with
        | Some km => Ok (Some km)
        | None => Raise ValueError
        end
    | _, _ => Ok None
    end.
Proof.
  intros Hlat Hlon. unfold distance_row.
  rewrite (row_get_row_at d i _ _ Hlat), (row_get_row_at d i _ _ Hlon).
  rewrite !cell_at_NumCol_cases. cbn [bind].
  destruct (lat !! i) as [[x|]|]; try done;
    destruct (lon !! i) as [[y|]|]; done.
Qed.

(** The distance feature row by row, on a table with rows and numeric
    coordinates: missing where a coordinate is missing, and otherwise the
    geodesic distance from the row's position to the colony. *)
Theorem distance_feature_values (d d' : DataFrame) (lat lon : list (option F)) :
  0 < nrows d ->
  getitem d "Latitude" = Ok (NumCol lat) ->
  getitem d "Longitude" = Ok (NumCol lon) ->
  distance_feature d = Ok d' ->
  exists ds,
    getitem d' "distance_to_colony_km" = Ok (NumCol ds)
    /\ length ds = nrows d
    /\ forall i, i < nrows d ->
         ds !! i
         = Some match lat !! i, lon !! i with
                | Some (Some x), Some (Some y) =>
                    geodesic_km (x, y) (COLONY_LATITUDE, COLONY_LONGITUDE)
                | _, _ => None
                end.
Proof.
  intros Hn Hlat Hlon Hd. unfold distance_feature in Hd.
  apply bind_Ok in Hd as (r & Hr & Hd). unfold apply_axis1 in Hr.
  destruct (nrows d) as [|n] eqn:Hrows; [lia|].
  apply bind_Ok in Hr as (ys & Hys & Hr). injection Hr as <-.
  simpl in Hd. exists ys. split; [by eapply getitem_setitem_eq|]. split.
  - rewrite (traverse_length _ _ _ Hys). unfold iterrows.
    by rewrite length_map, length_seq.
  - intros i Hi.
    destruct (traverse_lookup _ _ _ i (row_at d i) Hys) as (y & Hy & ->).
    { apply iterrows_lookup. lia. }
    rewrite (distance_row_at d lat lon i Hlat Hlon) in Hy. f_equal.
    destruct (lat !! i) as [[x|]|]; try (by injection Hy as <-);
      destruct (lon !! i) as [[z|]|]; try (by injection Hy as <-).
    destruct (geodesic_km _ _); [by injection Hy as <-|done].
Qed.

(** One row whose position geopy refuses (a latitude beyond the poles)
    makes the whole step raise [ValueError]. *)
Theorem distance_feature_rejects (d : DataFrame) (lat lon : list (option F))
  (i : nat) (x y : F) :
  getitem d "Latitude" = Ok (NumCol lat) ->
  getitem d "Longitude" = Ok (NumCol lon) ->
  i < nrows d ->
  lat !! i = Some (Some x) -> lon !! i = Some (Some y) ->
  geodesic_km (x, y) (COLONY_LATITUDE, COLONY_LONGITUDE) = None ->
  distance_feature d = Raise ValueError.
Proof.
  intros Hlat Hlon Hi Hx Hy Hgeo. unfold distance_feature, apply_axis1.
  destruct (nrows d) as [|n] eqn:Hrows; [lia|].
  destruct (traverse distance_row (iterrows d)) as [ys|e] eqn:Hys.
  - destruct (traverse_lookup _ _ _ i (row_at d i) Hys) as (z & Hz & _).
    { apply iterrows_lookup. lia. }
    rewrite (distance_row_at d lat lon i Hlat Hlon), Hx, Hy, Hgeo in Hz. done.
  - apply traverse_raise in Hys as (row & Hin & Hrow).
    unfold iterrows in Hin. apply in_map_iff in Hin as (j & <- & _).
    rewrite (distance_row_at d lat lon j Hlat Hlon) in Hrow.
    destruct (lat !! j) as [[a|]|]; try done;
      destruct (lon !! j) as [[b|]|]; try done.
    destruct (geodesic_km (a, b) _); [done|]. by injection Hrow as <-.
Qed.

Lemma contains_setitem_mono (d : DataFrame) (k c : string) (v : Column)
  (d' : DataFrame) :
  setitem d k v = Ok d' -> contains d c = true -> contains d' c = true.
Proof.
  intros Hs Hc. destruct (decide (k = c)) as [<-|Hne].
  - by eapply contains_setitem_eq.
  - by rewrite (contains_other _ _ _ _ Hs c Hne).
Qed.

Lemma row_get_Ok (d : DataFrame) (i : nat) (c : string) (v : Cell) :
  row_get (row_at d i) c = Ok v ->
  exists col, getitem d c = Ok col /\ v = cell_at col i.
Proof.
  unfold row_at, getitem.
  induction (columns d) as [|[n x] cs IH]; simpl; [done|].
  destruct (String.eqb n c); [|done]. intros [= <-]. by eauto.
Qed.

Lemma position_cols_retained (d d4 : DataFrame) (col : string) :
  In col position_cols ->
  contains d col = true ->
  (d1 <- parse_dates d ;; d2 <- add_timestamp d1 ;;
   d3 <- coords_to_numeric d2 ;; mode_fill d3) = Ok d4 ->
  contains d4 col = true.
Proof.
  intros Hcol [v Hv]%contains_getitem Hrun.
  apply bind_Ok in Hrun as (d1 & H1 & Hrun).
  apply bind_Ok in Hrun as (d2 & H2 & Hrun).
  apply bind_Ok in Hrun as (d3 & H3 & H4).
  assert (getitem d2 col = Ok v) as Hv2.
  { eapply keeps_add_timestamp; [|exact H2|].
    { simpl in *. intuition (subst; discriminate). }
    eapply keeps_parse_dates; [|exact H1|exact Hv].
    simpl in *. intuition (subst; discriminate). }
  assert (contains d3 col = true) as Hc3.
  { apply getitem_contains in Hv2. clear -H3 Hv2.
    unfold coords_to_numeric in H3. revert d2 H3 Hv2.
    induction position_cols as [|x l IH]; intros d2 H3 Hv2; simpl in H3.
    - by injection H3 as <-.
    - apply bind_Ok in H3 as (y & Hy & H3). apply (IH y H3).
      unfold convert_numeric in Hy. unstep Hy; [|done].
      by eapply contains_setitem_mono. }
  apply contains_getitem in Hc3 as [v3 Hv3]. eapply getitem_contains.
  eapply keeps_mode_fill; [|exact H4|exact Hv3].
  simpl in *. intuition (subst; discriminate).
Qed.

(** After the imputation, with both coordinate columns there, the distance
    has a value in every row. *)
Lemma distance_complete (d4 d5 d6 : DataFrame) :
  aligned d4 ->
  contains d4 "Latitude" = true -> contains d4 "Longitude" = true ->
  knn_impute d4 = Ok d5 -> distance_feature d5 = Ok d6 ->
  exists c, getitem d6 "distance_to_colony_km" = Ok c
            /\ any (isna_col c) = false.
Proof.
  intros Hal [lat Hlat]%contains_getitem [lon Hlon]%contains_getitem H5 H6.
  destruct (knn_impute_completes d4 d5 lat lon H5 Hlat Hlon)
    as (lat' & lon' & Hlat' & Hlon' & Hna1 & Hna2).
  destruct (preserves_knn_impute _ _ H5 Hal) as [Hal5 _].
  unfold distance_feature in H6. apply bind_Ok in H6 as (r & Hr & H6).
  unfold apply_axis1 in Hr. destruct (nrows d5) as [|n] eqn:Hrows.
  - destruct (distance_row (nan_row d5)); injection Hr as <-; simpl in H6.
    + exists (NumCol []). split; [by eapply getitem_setitem_eq|done].
    + destruct (columns d5) as [|[k v] [|]]; try discriminate H6.
      exists v. split; [by eapply getitem_setitem_eq|].
      apply setitem_Ok in H6 as [Hlen _]. apply any_isna_false.
      intros i Hi. lia.
  - apply bind_Ok in Hr as (ys & Hys & Hr). injection Hr as <-. simpl in H6.
    exists (NumCol ys). split; [by eapply getitem_setitem_eq|].
    apply any_isna_false. intros i Hi. simpl in Hi.
    rewrite (traverse_length _ _ _ Hys) in Hi. unfold iterrows in Hi.
    rewrite length_map, length_seq in Hi.
    destruct (traverse_lookup _ _ _ i (row_at d5 i) Hys) as (y & Hy & Hyi).
    { apply iterrows_lookup. lia. }
    rewrite (cell_at_NumCol _ _ _ Hyi).
    unfold distance_row in Hy.
    rewrite (row_get_row_at d5 i _ _ Hlat'), (row_get_row_at d5 i _ _ Hlon')
      in Hy. cbn [bind] in Hy.
    rewrite (any_isna_cells lat' i Hna1) in Hy
      by (rewrite (getitem_len _ _ _ Hal5 Hlat'); lia).
    rewrite (any_isna_cells lon' i Hna2) in Hy
      by (rewrite (getitem_len _ _ _ Hal5 Hlon'); lia).
    apply bind_Ok in Hy as (a & _ & Hy). apply bind_Ok in Hy as (b & _ & Hy).
    destruct (geodesic_km _ _); [|done]. by injection Hy as <-.
Qed.

(** With both coordinate columns in the input, the table handed to the
    normalisation has a distance in every row: the [fillna(0)] of line 112
    finds no missing value to fill. *)
Theorem distance_never_missing (d d8 : DataFrame) :
  aligned d ->
  contains d "Latitude" = true ->
  contains d "Longitude" = true ->
  before_normalize d = Ok d8 ->
  exists c, getitem d8 "distance_to_colony_km" = Ok c
            /\ any (isna_col c) = false.
Proof.
  intros Hal Hlat Hlon Hrun. unfold before_normalize, stages in Hrun.
  cbn [firstn for_each] in Hrun.
  apply bind_Ok in Hrun as (d1 & H1 & Hrun).
  apply bind_Ok in Hrun as (d2 & H2 & Hrun).
  apply bind_Ok in Hrun as (d3 & H3 & Hrun).
  apply bind_Ok in Hrun as (d4 & H4 & Hrun).
  apply bind_Ok in Hrun as (d5 & H5 & Hrun).
  apply bind_Ok in Hrun as (d6 & H6 & Hrun).
  apply bind_Ok in Hrun as (d7 & H7 & Hrun).
  apply bind_Ok in Hrun as (d9 & H8 & Hrun). injection Hrun as <-.
  assert ((d1 <- parse_dates d ;; d2 <- add_timestamp d1 ;;
           d3 <- coords_to_numeric d2 ;; mode_fill d3) = Ok d4) as H1234.
  { rewrite H1. cbn [bind]. rewrite H2. cbn [bind]. by rewrite H3. }
  destruct (preserves_parse_dates _ _ H1 Hal) as [Hal1 _].
  destruct (preserves_add_timestamp _ _ H2 Hal1) as [Hal2 _].
  destruct (preserves_coords_to_numeric _ _ H3 Hal2) as [Hal3 _].
  destruct (preserves_mode_fill _ _ H4 Hal3) as [Hal4 _].
  destruct (distance_complete d4 d5 d6 Hal4) as (c & Hc & Hna); try done.
  { apply (position_cols_retained d d4); [simpl; tauto|done|done]. }
  { apply (position_cols_retained d d4); [simpl; tauto|done|done]. }
  exists c. split; [|done].
  eapply keeps_get_dummies; [|exact H8|]; [simpl; intuition discriminate|].
  eapply keeps_temporal_features; [|exact H7|exact Hc].
  simpl; intuition discriminate.
Qed.

End Distances.

Section CleanedTables.
Context {F : Type} {fl : Float64 F}.
Local Abbreviation Cell := (@Cell F).
Local Abbreviation Column := (@Column F).
Local Abbreviation DataFrame := (@DataFrame F).
Local Abbreviation Row := (@Row F).

Lemma take_mask_repeat {A} (m : list bool) (x : A) :
  take_mask m (repeat x (length m)) = repeat x (length (List.filter id m)).
Proof.
  induction m as [|b m IH]; [done|]. simpl. rewrite take_mask_cons.
  destruct b; simpl; by rewrite IH.
Qed.

Lemma take_mask_and_l (a b : list bool) :
  length b = length a ->
  take_mask (and_mask a b) a
  = repeat true (length (List.filter id (and_mask a b))).
Proof.
  revert b; induction a as [|x a IH]; intros [|y b]; try done.
  intros [= Hlen]. unfold and_mask in *. simpl. rewrite take_mask_cons.
  destruct x, y; simpl; by rewrite IH.
Qed.

Lemma take_mask_and_r (a b : list bool) :
  length b = length a ->
  take_mask (and_mask a b) b
  = repeat true (length (List.filter id (and_mask a b))).
Proof.
  revert b; induction a as [|x a IH]; intros [|y b]; try done.
  intros [= Hlen]. unfold and_mask in *. simpl. rewrite take_mask_cons.
  destruct x, y; simpl; by rewrite IH.
Qed.

Lemma take_mask_sublist {A} (m : list bool) (xs : list A) :
  take_mask m xs `sublist_of` xs.
Proof.
  revert xs; induction m as [|b m IH]; intros [|x xs]; try done.
  - apply sublist_nil_l.
  - rewrite take_mask_cons. destruct b; [by apply sublist_skip|].
    by apply sublist_cons.
Qed.

Lemma select_rows_labels (m : list bool) (d : DataFrame) :
  map fst (columns (select_rows m d)) = map fst (columns d).
Proof. unfold select_rows. simpl. by rewrite map_map. Qed.

Lemma contains_select_rows (m : list bool) (d : DataFrame) (c : string) :
  contains (select_rows m d) c = contains d c.
Proof.
  unfold contains, select_rows. simpl. rewrite lookup_col_map.
  by destruct (lookup_col (columns d) c).
Qed.

(** What [dropna] and [keep_positive] return is the table indexed by a mask
    as long as the index. *)
Lemma dropna_Ok (d d' : DataFrame) :
  aligned d ->
  dropna d ["pickup_datetime"; "dropoff_datetime"] = Ok d' ->
  exists p q,
    getitem d "pickup_datetime" = Ok p /\ getitem d "dropoff_datetime" = Ok q
    /\ d' = select_rows (and_mask (notna_col p) (notna_col q)) d
    /\ length (and_mask (notna_col p) (notna_col q)) = nrows d.
Proof.
  intros Hal Hd. unfold dropna in Hd. cbn [traverse] in Hd.
  apply bind_Ok in Hd as (cs & Hcs & Hd).
  apply bind_Ok in Hcs as (p & Hp & Hcs).
  apply bind_Ok in Hcs as (r & Hr & Hcs).
  apply bind_Ok in Hr as (q & Hq & Hr). injection Hr as <-.
  injection Hcs as <-. injection Hd as <-. cbn [map fold_right].
  pose proof (getitem_len _ _ _ Hal Hp) as Hpl.
  pose proof (getitem_len _ _ _ Hal Hq) as Hql.
  exists p, q. split; [done|]. split; [done|].
  rewrite (and_mask_all_r _ (notna_col q))
    by (rewrite notna_col_length; congruence).
  split; [done|].
  rewrite and_mask_length; rewrite !notna_col_length; congruence.
Qed.

Lemma keep_positive_Ok (d d' : DataFrame) (c : string) :
  aligned d ->
  keep_positive d c = Ok d' ->
  exists v g,
    getitem d c = Ok v /\ gt0 v = Ok g /\ d' = select_rows g d
    /\ length g = nrows d.
Proof.
  intros Hal Hd. unfold keep_positive in Hd.
  apply bind_Ok in Hd as (v & Hv & Hd). apply bind_Ok in Hd as (g & Hg & Hd).
  injection Hd as <-. exists v, g. repeat split; try done.
  rewrite (gt0_length _ _ Hg). by eapply getitem_len.
Qed.

(** A table in which every row passes the three tests is returned as it
    is. *)
Lemma clean_data_fixed (d : DataFrame) (p q f t : Column) :
  aligned d ->
  getitem d "pickup_datetime" = Ok p -> getitem d "dropoff_datetime" = Ok q ->
  getitem d "fare_amount" = Ok f -> getitem d "trip_distance" = Ok t ->
  notna_col p = repeat true (nrows d) -> notna_col q = repeat true (nrows d) ->
  gt0 f = Ok (repeat true (nrows d)) -> gt0 t = Ok (repeat true (nrows d)) ->
  clean_data d = Ok d.
Proof.
  intros Hal Hp Hq Hf Ht Hnp Hnq Hgf Hgt.
  unfold clean_data, dropna, keep_positive. cbn [traverse].
  rewrite Hp, Hq. cbn [bind map fold_right]. rewrite Hnp, Hnq.
  do 2 rewrite (and_mask_all_l (nrows d) (repeat true (nrows d)))
    by apply repeat_length.
  rewrite (select_rows_all d Hal). rewrite Hf. cbn [bind]. rewrite Hgf.
  cbn [bind]. rewrite (select_rows_all d Hal). rewrite Ht. cbn [bind].
  rewrite Hgt. cbn [bind]. by rewrite (select_rows_all d Hal).
Qed.

(** Cleaning a cleaned table changes nothing. *)
Theorem clean_data_idempotent (d d' : DataFrame) :
  aligned d ->
  clean_data d = Ok d' ->
  clean_data d' = Ok d'.
Proof.
  intros Hal Hd. unfold clean_data in Hd.
  apply bind_Ok in Hd as (d1 & H1 & Hd). apply bind_Ok in Hd as (d2 & H2 & Hd).
  apply bind_Ok in Hd as (d3 & H3 & Hd). injection Hd as <-.
  destruct (dropna_Ok d d1 Hal H1) as (p & q & Hp & Hq & -> & Hm1).
  set (m1 := and_mask (notna_col p) (notna_col q)) in *.
  pose proof (select_rows_aligned m1 d Hal Hm1) as Hal1.
  pose proof (select_rows_nrows m1 d Hm1) as Hn1.
  destruct (keep_positive_Ok _ d2 _ Hal1 H2) as (f1 & g1 & Hf1 & Hg1 & -> & Hl1).
  pose proof (select_rows_aligned g1 _ Hal1 Hl1) as Hal2.
  pose proof (select_rows_nrows g1 _ Hl1) as Hn2.
  destruct (keep_positive_Ok _ d3 _ Hal2 H3) as (t2 & g2 & Ht2 & Hg2 & -> & Hl2).
  pose proof (select_rows_aligned g2 _ Hal2 Hl2) as Hal3.
  pose proof (select_rows_nrows g2 _ Hl2) as Hn3.
  pose proof (getitem_len _ _ _ Hal Hp) as Hpl.
  pose proof (getitem_len _ _ _ Hal Hq) as Hql.
  assert (length (notna_col q) = length (notna_col p)) as Hpq
    by (rewrite !notna_col_length; congruence).
  destruct (contains_getitem (select_rows m1 d) "trip_distance")
    as [t1 Ht1].
  { rewrite <- (contains_select_rows g1). by eapply getitem_contains. }
  assert (t2 = take_col g1 t1) as ->.
  { rewrite (getitem_select_rows g1 _ _ _ Ht1) in Ht2. by injection Ht2. }
  apply (clean_data_fixed _
           (take_col g2 (take_col g1 (take_col m1 p)))
           (take_col g2 (take_col g1 (take_col m1 q)))
           (take_col g2 (take_col g1 f1))
           (take_col g2 (take_col g1 t1))); try done.
  - by do 3 apply getitem_select_rows.
  - by do 3 apply getitem_select_rows.
  - by do 2 apply getitem_select_rows.
  - by do 2 apply getitem_select_rows.
  - rewrite !notna_take_col. unfold m1 at 1. rewrite take_mask_and_l by done.
    fold m1. rewrite <- Hn1, <- Hl1, take_mask_repeat, <- Hn2, <- Hl2.
    by rewrite take_mask_repeat, Hn3.
  - rewrite !notna_take_col. unfold m1 at 1. rewrite take_mask_and_r by done.
    fold m1. rewrite <- Hn1, <- Hl1, take_mask_repeat, <- Hn2, <- Hl2.
    by rewrite take_mask_repeat, Hn3.
  - rewrite (gt0_take_col g2 _ (take_mask g1 g1)) by (by apply gt0_take_col).
    rewrite take_mask_self, <- Hn2, <- Hl2, take_mask_repeat. by rewrite Hn3.
  - rewrite (gt0_take_col g2 _ g2) by done.
    by rewrite take_mask_self, Hn3.
Qed.

(** Cleaning only removes rows: the rows returned are rows of the input in
    their order, under the same labels, and no more than before. *)
Theorem clean_data_keeps_order (d d' : DataFrame) :
  aligned d ->
  clean_data d = Ok d' ->
  iterrows d' `sublist_of` iterrows d
  /\ map fst (columns d') = map fst (columns d)
  /\ nrows d' <= nrows d
  /\ aligned d'.
Proof.
  intros Hal Hd. unfold clean_data in Hd.
  apply bind_Ok in Hd as (d1 & H1 & Hd). apply bind_Ok in Hd as (d2 & H2 & Hd).
  apply bind_Ok in Hd as (d3 & H3 & Hd). injection Hd as <-.
  destruct (dropna_Ok d d1 Hal H1) as (p & q & Hp & Hq & -> & Hm1).
  set (m1 := and_mask (notna_col p) (notna_col q)) in *.
  pose proof (select_rows_aligned m1 d Hal Hm1) as Hal1.
  destruct (keep_positive_Ok _ d2 _ Hal1 H2) as (f1 & g1 & Hf1 & Hg1 & -> & Hl1).
  pose proof (select_rows_aligned g1 _ Hal1 Hl1) as Hal2.
  destruct (keep_positive_Ok _ d3 _ Hal2 H3) as (t2 & g2 & Ht2 & Hg2 & -> & Hl2).
  pose proof (select_rows_aligned g2 _ Hal2 Hl2) as Hal3.
  split; [|split; [|split; [|done]]].
  - rewrite !iterrows_select_rows by done.
    etrans; [apply take_mask_sublist|].
    etrans; apply take_mask_sublist.
  - by rewrite !select_rows_labels.
  - assert (forall (m : list bool) (x : DataFrame), length m = nrows x ->
              nrows (select_rows m x) <= nrows x) as Hle.
    { intros m x Hm. rewrite select_rows_nrows by done. rewrite <- Hm.
      apply List.filter_length_le. }
    etrans; [by apply Hle|]. etrans; by apply Hle.
Qed.

Lemma dropna_raises (d : DataFrame) (subset : list string) (e : Exception) :
  dropna d subset = Raise e -> e = KeyError.
Proof.
  unfold dropna. destruct (traverse (getitem d) subset) as [cs|e'] eqn:E;
    [done|]. intros [= <-].
  apply traverse_raise in E as (c & _ & Hc). unfold getitem in Hc.
  destruct (lookup_col _ _); [done|]. by injection Hc.
Qed.

Lemma keep_positive_raises (d : DataFrame) (c : string) (e : Exception) :
  keep_positive d c = Raise e -> e = KeyError \/ e = TypeError.
Proof.
  unfold keep_positive, getitem. destruct (lookup_col _ _) as [v|]; simpl.
  - destruct v as [xs| | |]; simpl; try done.
    + destruct (all_nan xs); [done|]. intros [= <-]. by right.
    + intros [= <-]. by right.
  - intros [= <-]. by left.
Qed.

Lemma dropna_contains (d d' : DataFrame) (subset : list string) (c : string) :
  dropna d subset = Ok d' -> contains d' c = contains d c.
Proof.
  unfold dropna. intros Hd. apply bind_Ok in Hd as (cs & _ & Hd).
  injection Hd as <-. apply contains_select_rows.
Qed.

Lemma keep_positive_contains (d d' : DataFrame) (k c : string) :
  keep_positive d k = Ok d' -> contains d' c = contains d c.
Proof.
  unfold keep_positive. intros Hd. apply bind_Ok in Hd as (v & _ & Hd).
  apply bind_Ok in Hd as (g & _ & Hd). injection Hd as <-.
  apply contains_select_rows.
Qed.

(** Without one of its four columns [clean_data] raises: [KeyError] when a
    timestamp column or the fare is absent, and when the distance is,
    unless the fare column raised [TypeError] before. *)
Theorem clean_data_missing_column (d : DataFrame) (c : string) :
  In c ["pickup_datetime"; "dropoff_datetime"; "fare_amount"; "trip_distance"] ->
  contains d c = false ->
  (clean_data d = Raise KeyError \/ clean_data d = Raise TypeError)
  /\ (c <> "trip_distance" -> clean_data d = Raise KeyError).
Proof.
  intros Hc Habs. unfold clean_data.
  destruct (dropna d _) as [d1|e1] eqn:H1.
  2: { apply dropna_raises in H1 as ->. split; [by left|done]. }
  cbn [bind].
  assert (c = "fare_amount" \/ c = "trip_distance") as Hc'.
  { simpl in Hc. destruct Hc as [<-|[<-|[<-|[<-|[]]]]]; [| |by left|by right].
    - exfalso. unfold dropna in H1. cbn [traverse] in H1.
      by rewrite (getitem_absent d _ Habs) in H1.
    - exfalso. unfold dropna in H1. cbn [traverse] in H1.
      rewrite (getitem_absent d _ Habs) in H1.
      by destruct (getitem d "pickup_datetime"). }
  pose proof (dropna_contains _ _ _ c H1) as Hc1. rewrite Habs in Hc1.
  destruct (keep_positive d1 "fare_amount") as [d2|e2] eqn:H2.
  2: { cbn [bind]. destruct Hc' as [->| ->].
       - unfold keep_positive in H2.
         rewrite (getitem_absent d1 _ Hc1) in H2. injection H2 as <-.
         split; [by left|done].
       - apply keep_positive_raises in H2 as [->| ->];
           (split; [by auto|done]). }
  cbn [bind].
  destruct Hc' as [->| ->].
  - exfalso. unfold keep_positive in H2.
    by rewrite (getitem_absent d1 _ Hc1) in H2.
  - pose proof (keep_positive_contains _ _ _ "trip_distance" H2) as Hc2.
    rewrite Hc1 in Hc2. unfold keep_positive.
    rewrite (getitem_absent d2 _ Hc2). split; [by left|done].
Qed.

Lemma take_mask_keeps {A} (m : list bool) (xs : list A) (i : nat) (x : A) :
  m !! i = Some true -> xs !! i = Some x -> In x (take_mask m xs).
Proof.
  revert xs i; induction m as [|b m IH]; intros [|y xs] [|i]; try done;
    simpl; intros Hm Hx; rewrite take_mask_cons.
  - injection Hm as ->. injection Hx as ->. by left.
  - destruct b; [right|]; by eapply IH.
Qed.

Lemma notna_col_lookup (c : Column) (i : nat) :
  i < col_len c -> notna_col c !! i = Some (negb (isna (cell_at c i))).
Proof.
  intros Hi. unfold notna_col, isna_col, cell_at. rewrite map_map.
  rewrite <- cells_of_length in Hi.
  destruct (lookup_lt_is_Some_2 _ i Hi) as [v Hv].
  rewrite (nth_lookup_Some _ _ _ _ Hv).
  match goal with
  | |- map ?f ?l !! i = _ => change (map f l) with (f <$> l)
  end.
  by rewrite list_lookup_fmap, Hv.
Qed.

(** A fare held as text makes [clean_data] raise [TypeError] as soon as one
    row with both timestamps has one: text does not compare with zero. *)
Theorem clean_data_text_fare_raises (d : DataFrame) (p q : Column)
  (xs : list (option string)) (i : nat) (s : string) :
  aligned d ->
  getitem d "pickup_datetime" = Ok p ->
  getitem d "dropoff_datetime" = Ok q ->
  getitem d "fare_amount" = Ok (ObjCol xs) ->
  i < nrows d ->
  isna (cell_at p i) = false -> isna (cell_at q i) = false ->
  xs !! i = Some (Some s) ->
  clean_data d = Raise TypeError.
Proof.
  intros Hal Hp Hq Hf Hi Hpi Hqi Hxi.
  destruct (dropna d ["pickup_datetime"; "dropoff_datetime"]) as [d1|e] eqn:H1.
  2: { exfalso. unfold dropna in H1. cbn [traverse] in H1.
       by rewrite Hp, Hq in H1. }
  destruct (dropna_Ok d d1 Hal H1) as (p' & q' & Hp' & Hq' & -> & Hm1).
  rewrite Hp in Hp'. injection Hp' as <-. rewrite Hq in Hq'. injection Hq' as <-.
  unfold clean_data. rewrite H1. cbn [bind]. unfold keep_positive.
  rewrite (getitem_select_rows _ _ _ _ Hf). cbn [bind take_col gt0].
  assert (all_nan (take_mask (and_mask (notna_col p) (notna_col q)) xs) = false)
    as ->; [|done].
  apply not_true_is_false. intros Hall.
  assert (In (Some s) (take_mask (and_mask (notna_col p) (notna_col q)) xs))
    as Hin.
  { apply (take_mask_keeps _ _ i); [|done]. unfold and_mask.
    rewrite lookup_zip_with, !notna_col_lookup
      by (erewrite getitem_len by done; lia).
    simpl. by rewrite Hpi, Hqi. }
  unfold all_nan in Hall. rewrite forallb_forall in Hall.
  by specialize (Hall _ Hin).
Qed.

End CleanedTables.

Section Categories.
Context {F : Type} {fl : Float64 F}.
Local Abbreviation Cell := (@Cell F).
Local Abbreviation Column := (@Column F).
Local Abbreviation DataFrame := (@DataFrame F).

Lemma fillna_complete {A} (m : A) (xs : list (option A)) :
  Forall (fun o => o <> None) (fillna m xs).
Proof.
  unfold fillna. apply Forall_map, Forall_forall. by intros [x|] _.
Qed.

Lemma complete_any (c : Column) :
  Forall (fun v => isna v = false) (cells_of c) -> any (isna_col c) = false.
Proof.
  intros Hall. apply any_isna_false. intros i Hi. unfold cell_at.
  rewrite <- cells_of_length in Hi.
  destruct (lookup_lt_is_Some_2 _ i Hi) as [v Hv].
  rewrite (nth_lookup_Some _ _ _ _ Hv).
  rewrite Forall_forall in Hall. apply Hall.
  by eapply list_elem_of_lookup_2.
Qed.

Lemma fillna_mode_col_complete (c c' : Column) :
  fillna_mode_col c = Ok c' -> any (isna_col c') = false.
Proof.
  intros Hc. apply complete_any.
  destruct c as [xs|xs|xs|xs]; simpl in Hc.
  - unfold fillna_mode in Hc. destruct (mode xs) as [|m ?]; [done|].
    injection Hc as <-. simpl. apply Forall_map.
    eapply Forall_impl; [apply fillna_complete|]. by intros [x|].
  - unfold fillna_mode in Hc. destruct (mode xs) as [|m ?]; [done|].
    injection Hc as <-. simpl. apply Forall_map.
    eapply Forall_impl; [apply fillna_complete|]. by intros [x|].
  - unfold fillna_mode in Hc. destruct (mode xs) as [|m ?]; [done|].
    injection Hc as <-. simpl. apply Forall_map.
    eapply Forall_impl; [apply fillna_complete|]. by intros [x|].
  - destruct (mode _); [done|]. injection Hc as <-. simpl.
    apply Forall_map, Forall_forall. by intros.
Qed.

Lemma impute_mode_absent (d d' : DataFrame) (x col : string) :
  impute_mode d x = Ok d' -> contains d col = false -> contains d' col = false.
Proof.
  intros Hd Hc. unfold impute_mode in Hd.
  destruct (decide (x = col)) as [->|Hne].
  - by rewrite Hc in Hd; injection Hd as <-.
  - unstep Hd; try done. by rewrite (contains_other _ _ _ _ Hd).
Qed.

Lemma for_each_impute_keeps (l : list string) (d d' : DataFrame) (col : string) :
  ~ In col l -> for_each l impute_mode d = Ok d' ->
  getitem d' col = getitem d col.
Proof.
  revert d; induction l as [|x l IH]; intros d Hnin Hd; simpl in Hd.
  - by injection Hd as <-.
  - apply bind_Ok in Hd as (d1 & Hd1 & Hd).
    rewrite (IH d1) by (try done; intros Hin; apply Hnin; by right).
    unfold impute_mode in Hd1. unstep Hd1; try done.
    apply (getitem_other _ _ _ _ Hd1). intros ->. apply Hnin. by left.
Qed.

(** After the loop of lines 70-72 a designated categorical column has no
    missing value. *)
Lemma mode_fill_complete (d d' : DataFrame) (col : string) (v : Column) :
  mode_fill d = Ok d' -> In col categorical_cols ->
  getitem d' col = Ok v -> any (isna_col v) = false.
Proof.
  unfold mode_fill.
  assert (List.NoDup categorical_cols) as Hnd.
  { unfold categorical_cols.
    repeat (constructor; [simpl; intuition discriminate|]). constructor. }
  revert Hnd d. generalize categorical_cols as l.
  induction l as [|x l IH]; intros Hnd d Hd Hin Hv; [done|].
  simpl in Hd. apply bind_Ok in Hd as (d1 & Hd1 & Hd).
  apply List.NoDup_cons_iff in Hnd as [Hx Hnd].
  destruct (decide (x = col)) as [->|Hne].
  - rewrite (for_each_impute_keeps l d1 d' col Hx Hd) in Hv.
    unfold impute_mode in Hd1.
    destruct (contains d col) eqn:Hc.
    + apply bind_Ok in Hd1 as (c & Hc0 & Hd1).
      destruct (any (isna_col c)) eqn:Hany.
      * apply bind_Ok in Hd1 as (c' & Hc' & Hd1).
        rewrite (getitem_setitem_eq _ _ _ _ Hd1) in Hv. injection Hv as <-.
        by eapply fillna_mode_col_complete.
      * injection Hd1 as <-. rewrite Hc0 in Hv. by injection Hv as <-.
    + injection Hd1 as <-. by rewrite (getitem_absent d col Hc) in Hv.
  - destruct Hin as [->|Hin]; [done|]. by apply (IH Hnd d1).
Qed.

Lemma no_missing_indicator {A} `{Dtype A} (prefix : string)
  (xs : list (option A)) :
  Forall (fun o => o <> None) xs ->
  In (prefix +:+ "_nan", BoolCol (F:=F) (repeat false (length xs)))
     (dummy_block prefix xs).
Proof.
  intros Hall. unfold dummy_block. apply in_app_iff. right. left.
  do 2 f_equal. induction Hall as [|o xs Ho Hall IH]; simpl; [done|].
  rewrite IH. f_equal. by destruct o.
Qed.

Lemma any_isna_complete {A} (box : A -> Cell) (xs : list (option A)) :
  (forall a, isna (box a) = false) ->
  existsb id (map isna (map (to_cell box) xs)) = false ->
  Forall (fun o => o <> None) xs.
Proof.
  intros Hbox. induction xs as [|[x|] xs IH]; simpl; [by constructor| |done].
  rewrite Hbox. simpl. intros Hrest. constructor; [done|by apply IH].
Qed.

(** When the one-hot encoding is reached, no designated categorical column
    has a missing value left, so the indicator of a missing value that
    [dummy_na=True] adds for it is false in every row. *)
Theorem no_missing_category_at_encoding (d d7 : DataFrame) (col : string)
  (v : Column) :
  before_encode d = Ok d7 ->
  In col categorical_cols ->
  getitem d7 col = Ok v ->
  any (isna_col v) = false
  /\ In (col +:+ "_nan", BoolCol (repeat false (col_len v))) (dummies_of col v).
Proof.
  intros Hrun Hcol Hv. unfold before_encode, stages in Hrun.
  cbn [firstn for_each] in Hrun.
  apply bind_Ok in Hrun as (d1 & H1 & Hrun).
  apply bind_Ok in Hrun as (d2 & H2 & Hrun).
  apply bind_Ok in Hrun as (d3 & H3 & Hrun).
  apply bind_Ok in Hrun as (d4 & H4 & Hrun).
  apply bind_Ok in Hrun as (d5 & H5 & Hrun).
  apply bind_Ok in Hrun as (d6 & H6 & Hrun).
  apply bind_Ok in Hrun as (d8 & H7 & Hrun). injection Hrun as <-.
  assert (getitem d4 col = Ok v) as Hv4.
  { destruct (contains d4 col) eqn:Hc4.
    - apply contains_getitem in Hc4 as [v4 Hv4].
      assert (getitem d8 col = Ok v4) as Hv8; [|congruence].
      assert (col = "Sex" \/ col = "Age" \/ col = "Breed Stage"
              \/ col = "ArgosQuality") as Hcases
        by (simpl in Hcol; intuition).
      eapply keeps_temporal_features; [|exact H7|].
      { destruct Hcases as [->|[->|[->| ->]]]; simpl; intuition discriminate. }
      eapply keeps_distance_feature; [|exact H6|].
      { destruct Hcases as [->|[->|[->| ->]]]; discriminate. }
      eapply keeps_knn_impute; [|exact H5|exact Hv4].
      destruct Hcases as [->|[->|[->| ->]]]; simpl; intuition discriminate.
    - pose proof (keeps_absent_knn_impute col Hcol _ _ H5 Hc4) as Hc5.
      pose proof (keeps_absent_distance_feature col Hcol _ _ H6 Hc5) as Hc6.
      pose proof (keeps_absent_temporal_features col Hcol _ _ H7 Hc6) as Hc7.
      by rewrite (getitem_absent _ _ Hc7) in Hv. }
  pose proof (mode_fill_complete d3 d4 col v H4 Hcol Hv4) as Hany.
  split; [done|].
  unfold any, isna_col in Hany.
  destruct v as [xs|xs|xs|xs]; simpl in *.
  - apply no_missing_indicator. by apply (any_isna_complete CStr).
  - apply no_missing_indicator. by apply (any_isna_complete CNum).
  - apply no_missing_indicator. by apply (any_isna_complete CTime).
  - rewrite <- (length_map Some xs). apply no_missing_indicator.
    apply Forall_map, Forall_forall. by intros.
Qed.

(** A designated categorical column that is there but holds no value in any
    row makes [process_data] raise: it has no mode to fill with. *)
Theorem all_missing_category_raises (h : gmap nat DataFrame) (r : nat)
  (d : DataFrame) (col : string) (c : Column) :
  h !! r = Some d ->
  In col categorical_cols ->
  getitem d col = Ok c ->
  0 < col_len c ->
  (forall i, i < col_len c -> isna (cell_at c i) = true) ->
  is_ok (process_data r h).1 = false.
Proof.
  intros Hr Hcol Hc Hlen Hall.
  pose proof (process_data_frame h r d Hr) as Hout.
  destruct (process_frame d) as [d'|e] eqn:Hd'; simpl in Hout.
  2: { by destruct Hout as (h' & -> & _). }
  exfalso. clear Hout Hr h r.
  destruct (process_frame_steps d d' Hd')
    as (d1 & d2 & d3 & d4 & d5 & d6 & d7 & d8 & H1 & H2 & H3 & H4 & _).
  assert (col = "Sex" \/ col = "Age" \/ col = "Breed Stage"
          \/ col = "ArgosQuality") as Hcases
    by (simpl in Hcol; intuition).
  assert (getitem d3 col = Ok c) as Hc3.
  { eapply keeps_coords_to_numeric; [|exact H3|].
    { destruct Hcases as [->|[->|[->| ->]]]; simpl; intuition discriminate. }
    eapply keeps_add_timestamp; [|exact H2|].
    { destruct Hcases as [->|[->|[->| ->]]]; simpl; intuition discriminate. }
    eapply keeps_parse_dates; [|exact H1|exact Hc].
    destruct Hcases as [->|[->|[->| ->]]]; discriminate. }
  assert (any (isna_col c) = true) as Hany.
  { unfold any, isna_col. apply existsb_exists. exists true. split; [|done].
    apply in_map_iff. exists (cell_at c 0). split; [by apply Hall|].
    apply nth_In. by rewrite cells_of_length. }
  assert (fillna_mode_col c = Raise KeyError) as Hfill.
  { assert (forall {A} `{Dtype A} (box : A -> Cell) (xs : list (option A)),
              (forall a, isna (box a) = false) ->
              (forall i, i < length xs ->
                         isna (nth i (map (to_cell box) xs) CNa) = true) ->
              fillna_mode xs = Raise KeyError) as Hnone.
    { intros A ? box xs Hbox Hna. apply fillna_mode_all_missing.
      intros a Ha. apply list_elem_of_lookup in Ha as [i Hi].
      specialize (Hna i (lookup_lt_Some _ _ _ Hi)).
      rewrite (nth_lookup_Some _ _ _ (box a)) in Hna; [by rewrite Hbox in Hna|].
      change (map (to_cell box) xs) with (to_cell box <$> xs).
      by rewrite list_lookup_fmap, Hi. }
    destruct c as [xs|xs|xs|xs]; simpl in *.
    - by rewrite (Hnone _ _ CStr xs).
    - by rewrite (Hnone _ _ CNum xs).
    - by rewrite (Hnone _ _ CTime xs).
    - specialize (Hall 0 Hlen). unfold cell_at in Hall. simpl in Hall.
      destruct xs; [simpl in Hlen; lia|done]. }
  clear -Hcol Hc3 Hany Hfill H4. unfold mode_fill in H4.
  assert (List.NoDup categorical_cols) as Hnd.
  { unfold categorical_cols.
    repeat (constructor; [simpl; intuition discriminate|]). constructor. }
  revert Hnd d3 H4 Hc3 Hcol. generalize categorical_cols as l.
  induction l as [|x l IH]; intros Hnd d3 H4 Hc3 Hcol; [done|].
  simpl in H4. apply bind_Ok in H4 as (y & Hy & H4).
  apply List.NoDup_cons_iff in Hnd as [Hx Hnd].
  destruct (decide (x = col)) as [->|Hne].
  - unfold impute_mode in Hy.
    rewrite (getitem_contains _ _ _ Hc3), Hc3 in Hy. cbn [bind] in Hy.
    by rewrite Hany, Hfill in Hy.
  - destruct Hcol as [->|Hcol]; [done|].
    apply (IH Hnd y H4); [|done].
    eapply keeps_impute_mode; [|exact Hy|exact Hc3]. done.
Qed.

End Categories.

Section Seasonal.
Context {F : Type} {fl : Float64 F} `{!Float64Ints fl}.
Local Abbreviation Cell := (@Cell F).
Local Abbreviation Column := (@Column F).
Local Abbreviation DataFrame := (@DataFrame F).
Local Abbreviation CNa := (@CNa F).

Lemma row_get_nan_row (d : DataFrame) (c : string) :
  contains d c = true -> row_get (nan_row d) c = Ok CNa.
Proof.
  unfold contains, nan_row.
  induction (columns d) as [|[n x] cs IH]; simpl; [done|].
  by destruct (String.eqb n c).
Qed.

Lemma dict_get_season (m : Z) :
  (1 <= m <= 12)%Z -> is_Some (dict_get season_mapping m).
Proof.
  intros Hm.
  assert (m = 1 \/ m = 2 \/ m = 3 \/ m = 4 \/ m = 5 \/ m = 6 \/ m = 7 \/ m = 8
          \/ m = 9 \/ m = 10 \/ m = 11 \/ m = 12)%Z as Hcases by lia.
  repeat (destruct Hcases as [->|Hcases]; [by eexists|]).
  subst m. by eexists.
Qed.

(** A timestamp made by line 48 has a calendar month. *)
Lemma timestamp_row_month (row : @Row F) (t : Timestamp) :
  timestamp_row row = Ok (Some t) -> (1 <= month t <= 12)%Z.
Proof.
  unfold timestamp_row. intros Hrow.
  apply bind_Ok in Hrow as (date & _ & Hrow).
  destruct date as [|s|x|t0|b]; try discriminate Hrow.
  apply bind_Ok in Hrow as (hv & _ & Hrow).
  apply bind_Ok in Hrow as (hh & _ & Hrow).
  apply bind_Ok in Hrow as (mv & _ & Hrow).
  apply bind_Ok in Hrow as (mi & _ & Hrow).
  apply bind_Ok in Hrow as (sv & _ & Hrow).
  apply bind_Ok in Hrow as (ss & _ & Hrow).
  apply bind_Ok in Hrow as (t' & Ht' & Hrow). injection Hrow as <-.
  unfold new_Timestamp in Ht'.
  destruct (valid_date _ _ _) eqn:Hvalid; [|done].
  simpl in Ht'. destruct (valid_time hh mi ss && in_bounds _); [|done].
  injection Ht' as <-. simpl. unfold valid_date in Hvalid.
  repeat (apply andb_prop in Hvalid as [Hvalid ?]). lia.
Qed.

Lemma compose_timestamp_months (d d' : DataFrame) :
  contains d "DateGMT" = true ->
  compose_timestamp d = Ok d' ->
  exists ts,
    getitem d' "Timestamp" = Ok (TimeCol ts)
    /\ forall t, In (Some t) ts -> (1 <= month t <= 12)%Z.
Proof.
  intros Hdate Hd. unfold compose_timestamp in Hd.
  apply bind_Ok in Hd as (r & Hr & Hd). unfold apply_axis1 in Hr.
  destruct (nrows d) as [|n].
  - unfold timestamp_row in Hr. rewrite (row_get_nan_row d _ Hdate) in Hr.
    cbn [bind] in Hr. injection Hr as <-. simpl in Hd.
    exists []. split; [by eapply getitem_setitem_eq|done].
  - apply bind_Ok in Hr as (ys & Hys & Hr). injection Hr as <-. simpl in Hd.
    exists ys. split; [by eapply getitem_setitem_eq|].
    intros t Hin. apply list_elem_of_In, list_elem_of_lookup in Hin as [i Hi].
    assert (i < length (iterrows d)) as Hlt.
    { rewrite <- (traverse_length _ _ _ Hys). by eapply lookup_lt_Some. }
    destruct (lookup_lt_is_Some_2 _ _ Hlt) as [row Hrow].
    destruct (traverse_lookup _ _ _ i row Hys Hrow) as (y & Hy & Hyi).
    rewrite Hi in Hyi. injection Hyi as <-.
    by eapply timestamp_row_month.
Qed.

(** The three temporal features as lines 90-100 compute them from a
    timestamp column. *)
Lemma temporal_features_columns (d d' : DataFrame)
  (ts : list (option Timestamp)) :
  getitem d "Timestamp" = Ok (TimeCol ts) ->
  temporal_features d = Ok d' ->
  getitem d' "Timestamp" = Ok (TimeCol ts)
  /\ getitem d' "hour_of_day"
     = Ok (NumCol (map (option_map (fun t => of_Z (hour t))) ts))
  /\ getitem d' "month"
     = Ok (NumCol (map (option_map (fun t => of_Z (month t))) ts))
  /\ getitem d' "season"
     = Ok (map_dict season_mapping
             (NumCol (map (option_map (fun t => of_Z (month t))) ts))).
Proof.
  intros Hts Hd. unfold temporal_features in Hd.
  rewrite (getitem_contains _ _ _ Hts), Hts in Hd. cbn [bind dt_field] in Hd.
  apply bind_Ok in Hd as (d1 & Hd1 & Hd).
  rewrite (getitem_other _ _ _ _ Hd1 "Timestamp"), Hts in Hd by discriminate.
  cbn [bind dt_field] in Hd.
  apply bind_Ok in Hd as (d2 & Hd2 & Hd).
  rewrite (getitem_setitem_eq _ _ _ _ Hd2) in Hd. cbn [bind] in Hd.
  split; [|split; [|split]].
  - rewrite (getitem_other _ _ _ _ Hd "Timestamp") by discriminate.
    rewrite (getitem_other _ _ _ _ Hd2 "Timestamp") by discriminate.
    by rewrite (getitem_other _ _ _ _ Hd1 "Timestamp") by discriminate.
  - rewrite (getitem_other _ _ _ _ Hd "hour_of_day") by discriminate.
    rewrite (getitem_other _ _ _ _ Hd2 "hour_of_day") by discriminate.
    by rewrite (getitem_setitem_eq _ _ _ _ Hd1).
  - rewrite (getitem_other _ _ _ _ Hd "month") by discriminate.
    by rewrite (getitem_setitem_eq _ _ _ _ Hd2).
  - by rewrite (getitem_setitem_eq _ _ _ _ Hd).
Qed.

(** With a time of day in the input, the temporal features of the table
    [process_data] returns follow its timestamp row by row: the hour and the
    month are those of the timestamp, the season is the one the table of
    lines 94-99 gives for that month, and a row has a season exactly when it
    has a timestamp. *)
Theorem season_follows_timestamp (h h' : gmap nat DataFrame) (r l : nat)
  (d : DataFrame) :
  h !! r = Some d ->
  contains d "TimeGMT" = true ->
  process_data r h = (Ok l, h') ->
  exists d' ts,
    h' !! l = Some d'
    /\ getitem d' "Timestamp" = Ok (TimeCol ts)
    /\ getitem d' "hour_of_day"
       = Ok (NumCol (map (option_map (fun t => of_Z (hour t))) ts))
    /\ getitem d' "month"
       = Ok (NumCol (map (option_map (fun t => of_Z (month t))) ts))
    /\ getitem d' "season"
       = Ok (ObjCol (map (fun o => match o with
                                   | Some t => dict_get season_mapping (month t)
                                   | None => None
                                   end) ts))
    /\ forall t, In (Some t) ts -> is_Some (dict_get season_mapping (month t)).
Proof.
  intros Hr Htime Hrun.
  destruct (process_data_returns h h' r l d Hr Hrun) as (d' & Hl & Hd').
  destruct (process_frame_steps d d' Hd')
    as (d1 & d2 & d3 & d4 & d5 & d6 & d7 & d8 & H1 & H2 & H3 & H4 & H5 & H6
        & H7 & H8 & H9).
  assert (contains d1 "TimeGMT" = true /\ contains d1 "DateGMT" = true)
    as [Htime1 Hdate1].
  { unfold parse_dates in H1. unstep H1. split.
    - by rewrite (contains_other _ _ _ _ H1 "TimeGMT").
    - by eapply contains_setitem_eq. }
  assert (exists ts, getitem d2 "Timestamp" = Ok (TimeCol ts)
                     /\ forall t, In (Some t) ts -> (1 <= month t <= 12)%Z)
    as (ts & Hts2 & Hmonths).
  { unfold add_timestamp in H2. rewrite Htime1 in H2.
    apply bind_Ok in H2 as (x & Hx & H2). apply bind_Ok in H2 as (y & Hy & H2).
    assert (contains x "DateGMT" = true) as Hdatex.
    { unfold split_time in Hx. unstep_all.
      repeat (eapply contains_setitem_mono; [eassumption|]). done. }
    destruct (compose_timestamp_months x y Hdatex Hy) as (ts & Hts & Hm).
    exists ts. split; [|done]. unfold drop_time_parts in H2.
    by rewrite (getitem_drop _ _ _ "Timestamp" H2). }
  assert (getitem d6 "Timestamp" = Ok (TimeCol ts)) as Hts6.
  { eapply keeps_distance_feature; [|exact H6|]; [discriminate|].
    eapply keeps_knn_impute; [|exact H5|]; [simpl; intuition discriminate|].
    eapply keeps_mode_fill; [|exact H4|]; [simpl; intuition discriminate|].
    eapply keeps_coords_to_numeric; [|exact H3|exact Hts2].
    simpl; intuition discriminate. }
  destruct (temporal_features_columns d6 d7 ts Hts6 H7)
    as (Hts7 & Hh7 & Hm7 & Hs7).
  assert (forall c v, In c ["Timestamp"; "hour_of_day"; "month"; "season"] ->
            getitem d7 c = Ok v -> getitem d' c = Ok v) as Hend.
  { intros c v Hc Hv.
    eapply keeps_normalize; [|exact H9|].
    { simpl in *. intuition (subst; discriminate). }
    eapply keeps_get_dummies; [|exact H8|exact Hv].
    simpl in *. intuition (subst; discriminate). }
  exists d', ts. split; [done|].
  split; [apply Hend; [simpl; tauto|done]|].
  split; [apply Hend; [simpl; tauto|done]|].
  split; [apply Hend; [simpl; tauto|done]|].
  split.
  - apply Hend; [simpl; tauto|]. rewrite Hs7. unfold map_dict. f_equal. f_equal.
    rewrite map_map. apply map_ext_in. intros [t|] Hin; [|done]. simpl.
    rewrite int_key_of_Z; [done|]. specialize (Hmonths t Hin).
    change (2 ^ 53)%Z with 9007199254740992%Z. lia.
  - intros t Hin. by apply dict_get_season, Hmonths.
Qed.

End Seasonal.

Section Dates.

Lemma digit_char_cases (z : Z) :
  In (digit_char z) ["0"; "1"; "2"; "3"; "4"; "5"; "6"; "7"; "8"; "9"]%char.
Proof.
  unfold digit_char.
  assert (z mod 10 = 0 \/ z mod 10 = 1 \/ z mod 10 = 2 \/ z mod 10 = 3
          \/ z mod 10 = 4 \/ z mod 10 = 5 \/ z mod 10 = 6 \/ z mod 10 = 7
          \/ z mod 10 = 8 \/ z mod 10 = 9)%Z as Hcases
    by (pose proof (Z.mod_pos_bound z 10); lia).
  repeat (destruct Hcases as [->|Hcases]; [simpl; tauto|]).
  rewrite Hcases. simpl. tauto.
Qed.

Lemma digit_char_digit (z : Z) :
  is_digit (digit_char z) = true
  /\ Ascii.eqb (digit_char z) "/" = false
  /\ Ascii.eqb (digit_char z) " " = false.
Proof.
  pose proof (digit_char_cases z) as Hz. simpl in Hz.
  repeat (destruct Hz as [<-|Hz]; [done|]). done.
Qed.

Lemma digit_val_char (z : Z) : digit_val (digit_char z) = (z mod 10)%Z.
Proof.
  unfold digit_char.
  assert (z mod 10 = 0 \/ z mod 10 = 1 \/ z mod 10 = 2 \/ z mod 10 = 3
          \/ z mod 10 = 4 \/ z mod 10 = 5 \/ z mod 10 = 6 \/ z mod 10 = 7
          \/ z mod 10 = 8 \/ z mod 10 = 9)%Z as Hcases
    by (pose proof (Z.mod_pos_bound z 10); lia).
  repeat (destruct Hcases as [->|Hcases]; [done|]).
  by rewrite Hcases.
Qed.

Lemma two_digits (z : Z) :
  (0 <= z < 100)%Z -> (10 * ((z / 10) mod 10) + z mod 10 = z)%Z.
Proof. intros Hz. Z.div_mod_to_equations. lia. Qed.

Lemma four_digits (z : Z) :
  (0 <= z < 10000)%Z ->
  (10 * (10 * (10 * (10 * 0 + (z / 10 / 10 / 10) mod 10)
               + (z / 10 / 10) mod 10)
         + (z / 10) mod 10)
   + z mod 10 = z)%Z.
Proof. intros Hz. Z.div_mod_to_equations. lia. Qed.

Lemma split_on_sep (sep : ascii) (s : string) :
  split_on sep (String sep s) = EmptyString :: split_on sep s.
Proof. simpl. by rewrite Ascii.eqb_refl. Qed.

Lemma split_on_other (sep a : ascii) (s : string) :
  Ascii.eqb a sep = false ->
  split_on sep (String a s)
  = match split_on sep s with
    | p :: ps => String a p :: ps
    | [] => [String a EmptyString]
    end.
Proof. intros Ha. simpl. by rewrite Ha. Qed.

Lemma days_in_month_le (y m : Z) : (days_in_month y m <= 31)%Z.
Proof.
  unfold days_in_month.
  destruct (m =? 2)%Z; [by destruct (is_leap y)|].
  by destruct (_ || _).
Qed.

(** Line 39 reads a date written day first, with two digits for the day
    and the month and four for the year, as that date at midnight: a real
    calendar date within the bounds of a timestamp is never turned into a
    missing value, and day and month are not swapped. *)
Theorem strptime_round_trip (y m d : Z) :
  valid_date y m d = true ->
  in_bounds (mkTimestamp y m d 0 0 0) = true ->
  strptime_dmy (date_text y m d) = Some (mkTimestamp y m d 0 0 0).
Proof.
  intros Hvalid Hbounds.
  pose proof Hvalid as Hv. unfold valid_date in Hv.
  repeat (apply andb_prop in Hv as [Hv ?]).
  pose proof (days_in_month_le y m) as Hdays.
  assert (1 <= d <= 31 /\ 1 <= m <= 12 /\ 1 <= y <= 9999)%Z as (Hd & Hm & Hy)
    by lia.
  unfold date_text.
  change (pad_digits 2 d ?acc)
    with (String (digit_char (d / 10)) (String (digit_char d) acc)).
  change (pad_digits 2 m ?acc)
    with (String (digit_char (m / 10)) (String (digit_char m) acc)).
  change (pad_digits 4 y "")
    with (String (digit_char (y / 10 / 10 / 10))
            (String (digit_char (y / 10 / 10))
               (String (digit_char (y / 10)) (String (digit_char y) "")))).
  do 2 change ("/" +:+ ?s) with (String "/" s).
  destruct (digit_char_digit (d / 10)) as (Hd1 & Hd1s & Hd1b).
  destruct (digit_char_digit d) as (Hd0 & Hd0s & _).
  destruct (digit_char_digit (m / 10)) as (Hm1 & Hm1s & _).
  destruct (digit_char_digit m) as (Hm0 & Hm0s & _).
  destruct (digit_char_digit (y / 10 / 10 / 10)) as (Hy3 & Hy3s & _).
  destruct (digit_char_digit (y / 10 / 10)) as (Hy2 & Hy2s & _).
  destruct (digit_char_digit (y / 10)) as (Hy1 & Hy1s & _).
  destruct (digit_char_digit y) as (Hy0 & Hy0s & _).
  unfold strptime_dmy.
  repeat first [ rewrite split_on_sep
               | rewrite split_on_other by assumption ].
  cbn [split_on].
  unfold match_day, match_month, match_year.
  rewrite Hd1b, Hd1, Hd0, Hm1, Hm0. cbn [andb].
  cbn [String.length Nat.eqb all_digits digits_val].
  rewrite Hy3, Hy2, Hy1, Hy0. cbn [andb].
  rewrite !digit_val_char.
  rewrite (two_digits d), (two_digits m), (four_digits y) by lia.
  assert ((1 <=? d)%Z && (d <=? 31)%Z = true) as -> by lia.
  assert ((1 <=? m)%Z && (m <=? 12)%Z = true) as -> by lia.
  by rewrite Hvalid, Hbounds.
Qed.

End Dates.

Section Success.
Context {F : Type} {fl : Float64 F} `{!Float64Laws fl}.
Local Abbreviation Cell := (@Cell F).
Local Abbreviation Column := (@Column F).
Local Abbreviation DataFrame := (@DataFrame F).

Lemma impute_mode_total (d : DataFrame) (col : string) (c : Column) :
  aligned d ->
  getitem d col = Ok c ->
  (exists v, In v (cells_of c) /\ isna v = false) ->
  exists d',
    impute_mode d col = Ok d' /\ aligned d' /\ nrows d' = nrows d
    /\ contains d' col = true
    /\ forall c', c' <> col -> getitem d' c' = getitem d c'.
Proof.
  intros Hal Hc Hv. unfold impute_mode.
  rewrite (getitem_contains _ _ _ Hc), Hc. cbn [bind].
  destruct (any (isna_col c)).
  - destruct (fillna_mode_col_spec c Hv) as (c' & m & -> & _ & Hlen & _).
    cbn [bind].
    destruct (setitem_succeeds d col c') as [d' Hd'].
    { rewrite Hlen. by eapply getitem_len. }
    exists d'. split; [done|].
    destruct (setitem_aligned _ _ _ _ Hal Hd') as [Hal' Hn'].
    repeat split; try done.
    + by eapply contains_setitem_eq.
    + intros c0 Hne. by apply (getitem_other _ _ _ _ Hd').
  - exists d. repeat split; try done. by eapply getitem_contains.
Qed.

Lemma mode_fill_total (d : DataFrame) :
  aligned d ->
  (forall col, In col categorical_cols ->
     exists c, getitem d col = Ok c
               /\ exists v, In v (cells_of c) /\ isna v = false) ->
  exists d',
    mode_fill d = Ok d' /\ aligned d' /\ nrows d' = nrows d
    /\ (forall col, In col categorical_cols -> contains d' col = true)
    /\ forall c', ~ In c' categorical_cols -> getitem d' c' = getitem d c'.
Proof.
  unfold mode_fill.
  assert (List.NoDup categorical_cols) as Hnd.
  { unfold categorical_cols.
    repeat (constructor; [simpl; intuition discriminate|]). constructor. }
  revert Hnd d. generalize categorical_cols as l.
  induction l as [|x l IH]; intros Hnd d Hal Hcols.
  - exists d. by repeat split.
  - apply List.NoDup_cons_iff in Hnd as [Hx Hnd].
    destruct (Hcols x (or_introl eq_refl)) as (c & Hc & Hv).
    destruct (impute_mode_total d x c Hal Hc Hv)
      as (d1 & Hd1 & Hal1 & Hn1 & Hcx & Hother1).
    destruct (IH Hnd d1 Hal1) as (d' & Hd' & Hal' & Hn' & Hin' & Hother').
    { intros col Hcol. rewrite Hother1 by (intros ->; done).
      apply Hcols. by right. }
    exists d'. simpl. rewrite Hd1. cbn [bind].
    split; [done|]. split; [done|]. split; [congruence|]. split.
    + intros col [<-|Hcol]; [|by apply Hin'].
      apply contains_getitem in Hcx as [v1 Hv1]. eapply getitem_contains.
      by rewrite (for_each_impute_keeps l d1 d' x Hx Hd').
    + intros c' Hc'. rewrite Hother' by (intros Hin; apply Hc'; by right).
      apply Hother1. intros ->. apply Hc'. by left.
Qed.

Lemma get_dummies_total (d : DataFrame) (cols : list string) :
  (forall col, In col cols -> contains d col = true) ->
  exists d', get_dummies d cols = Ok d'.
Proof.
  intros Hcols. unfold get_dummies.
  destruct (traverse_total (fun c => v <- getitem d c ;; Ok (dummies_of c v))
              cols) as [enc ->]; [|by eexists].
  intros c Hc. by destruct (contains_getitem d c (Hcols c Hc)) as [v ->].
Qed.

(** A complete table goes through.  On a table with rows that has the
    date, no time of day and no timestamp, both coordinates as numbers in
    every row, each at a position geopy accepts with a finite distance, and
    the four designated categorical columns each holding a value,
    [process_data] returns. *)
Theorem process_data_returns_on_complete (h : gmap nat DataFrame) (r : nat)
  (d : DataFrame) (lat lon : list (option F)) :
  h !! r = Some d ->
  aligned d ->
  0 < nrows d ->
  contains d "DateGMT" = true ->
  contains d "TimeGMT" = false ->
  contains d "Timestamp" = false ->
  getitem d "Latitude" = Ok (NumCol lat) ->
  getitem d "Longitude" = Ok (NumCol lon) ->
  (forall i, i < nrows d ->
     exists x y km,
       lat !! i = Some (Some x) /\ lon !! i = Some (Some y)
       /\ geodesic_km (x, y) (COLONY_LATITUDE, COLONY_LONGITUDE) = Some km
       /\ is_finite km = true) ->
  (forall col, In col categorical_cols ->
     exists c, getitem d col = Ok c
               /\ exists v, In v (cells_of c) /\ isna v = false) ->
  is_ok (process_data r h).1 = true.
Proof.
  intros Hr Hal Hn Hdate Htime Hts Hlat Hlon Hrows Hcats.
  assert (exists d', process_frame d = Ok d') as [d' Hd'].
  2: { pose proof (process_data_frame h r d Hr) as Hout. rewrite Hd' in Hout.
       by destruct Hout as (l & h' & -> & _). }
  unfold process_frame, stages. cbn [for_each].
  (* line 39 *)
  apply contains_getitem in Hdate as [dc Hdc].
  destruct (setitem_succeeds d "DateGMT" (to_datetime dc)) as [d1 Hd1].
  { rewrite col_len_to_datetime. by eapply getitem_len. }
  destruct (setitem_aligned _ _ _ _ Hal Hd1) as [Hal1 Hn1].
  assert (parse_dates d = Ok d1) as -> by (unfold parse_dates; by rewrite Hdc).
  cbn [bind].
  assert (forall c, c <> "DateGMT" -> getitem d1 c = getitem d c) as Hsame1.
  { intros c Hc. by apply (getitem_other _ _ _ _ Hd1). }
  (* lines 42-60 *)
  assert (add_timestamp d1 = Ok d1) as ->.
  { unfold add_timestamp.
    by rewrite (contains_other _ _ _ _ Hd1 "TimeGMT"), Htime by discriminate. }
  cbn [bind].
  (* lines 63-65 *)
  unfold coords_to_numeric, position_cols. cbn [for_each].
  destruct (convert_numeric_total d1 "Latitude" Hal1)
    as (d2 & -> & Hal2 & Hn2 & Hlat2 & Hsame2). cbn [bind].
  destruct (convert_numeric_total d2 "Longitude" Hal2)
    as (d3 & -> & Hal3 & Hn3 & Hlon3 & Hsame3). cbn [bind].
  rewrite Hsame1, Hlat in Hlat2 by discriminate. simpl in Hlat2.
  rewrite Hsame2, Hsame1, Hlon in Hlon3 by discriminate. simpl in Hlon3.
  assert (getitem d3 "Latitude" = Ok (NumCol lat)) as Hlat3
    by (by rewrite Hsame3 by discriminate).
  assert (forall c, ~ In c ["DateGMT"; "Latitude"; "Longitude"] ->
            getitem d3 c = getitem d c) as Hsame.
  { intros c Hc. rewrite Hsame3, Hsame2, Hsame1; [done|..];
      intros ->; apply Hc; simpl; tauto. }
  (* lines 69-72 *)
  destruct (mode_fill_total d3 Hal3) as (d4 & -> & Hal4 & Hn4 & Hcat4 & Hsame4).
  { intros col Hcol. rewrite Hsame; [by apply Hcats|].
    simpl in Hcol. simpl. intuition (subst; discriminate). }
  cbn [bind].
  assert (getitem d4 "Latitude" = Ok (NumCol lat)) as Hlat4
    by (rewrite Hsame4; [done|simpl; intuition discriminate]).
  assert (getitem d4 "Longitude" = Ok (NumCol lon)) as Hlon4
    by (rewrite Hsame4; [done|simpl; intuition discriminate]).
  assert (nrows d4 = nrows d) as Hrows4 by congruence.
  (* lines 75-78 *)
  assert (forall xs : list (option F),
            (forall i, i < nrows d -> exists x, xs !! i = Some (Some x)) ->
            length xs = nrows d -> any (isna_col (NumCol xs)) = false)
    as Hfull.
  { intros xs Hxs Hlen. apply any_isna_false. intros i Hi. simpl in Hi.
    destruct (Hxs i ltac:(lia)) as [x Hx].
    by rewrite (cell_at_NumCol _ _ _ Hx). }
  assert (knn_impute d4 = Ok d4) as ->.
  { unfold knn_impute, position_cols. cbn [forallb].
    rewrite (getitem_contains _ _ _ Hlat4), (getitem_contains _ _ _ Hlon4).
    cbn [andb]. rewrite Hlat4, Hlon4. cbn [bind].
    rewrite (Hfull lat), (Hfull lon); [done|..].
    - intros i Hi. destruct (Hrows i Hi) as (x & y & km & _ & Hy & _).
      by eauto.
    - rewrite <- Hrows4. by apply (getitem_len d4 "Longitude" (NumCol lon)).
    - intros i Hi. destruct (Hrows i Hi) as (x & y & km & Hx & _). by eauto.
    - rewrite <- Hrows4. by apply (getitem_len d4 "Latitude" (NumCol lat)). }
  cbn [bind].
  (* lines 82-86 *)
  assert (exists ds, traverse distance_row (iterrows d4) = Ok ds
                     /\ length ds = nrows d
                     /\ forall i, i < nrows d ->
                          exists km, ds !! i = Some (Some km)
                                     /\ is_finite km = true)
    as (ds & Hds & Hdslen & Hdsi).
  { destruct (traverse_total distance_row (iterrows d4)) as [ds Hds].
    { intros row Hrow. unfold iterrows in Hrow.
      apply in_map_iff in Hrow as (i & <- & Hi). apply in_seq in Hi.
      rewrite (distance_row_at d4 lat lon i Hlat4 Hlon4).
      destruct (Hrows i ltac:(lia)) as (x & y & km & -> & -> & -> & _). done. }
    exists ds. split; [done|]. split.
    - rewrite (traverse_length _ _ _ Hds). unfold iterrows.
      rewrite length_map, length_seq. done.
    - intros i Hi.
      destruct (traverse_lookup _ _ _ i (row_at d4 i) Hds) as (y & Hy & Hyi).
      { apply iterrows_lookup. lia. }
      rewrite (distance_row_at d4 lat lon i Hlat4 Hlon4) in Hy.
      destruct (Hrows i Hi) as (x & z & km & Hx & Hz & Hkm & Hfin).
      rewrite Hx, Hz, Hkm in Hy. injection Hy as <-. by exists km. }
  destruct (setitem_succeeds d4 "distance_to_colony_km" (NumCol ds))
    as [d6 Hd6]; [simpl; congruence|].
  destruct (setitem_aligned _ _ _ _ Hal4 Hd6) as [Hal6 Hn6].
  assert (distance_feature d4 = Ok d6) as ->.
  { unfold distance_feature, apply_axis1.
    destruct (nrows d4) as [|n] eqn:E; [lia|]. by rewrite Hds. }
  cbn [bind].
  (* lines 89-100 *)
  assert (contains d6 "Timestamp" = false) as Hts6.
  { rewrite (contains_other _ _ _ _ Hd6 "Timestamp") by discriminate.
    rewrite (contains_same d d4 "Timestamp"); [done|].
    rewrite Hsame4, Hsame; [done|simpl; intuition discriminate..]. }
  assert (temporal_features d6 = Ok d6) as ->
    by (unfold temporal_features; by rewrite Hts6).
  cbn [bind].
  (* line 104 *)
  destruct (get_dummies_total d6 categorical_cols) as [d8 Hd8].
  { intros col Hcol. eapply contains_setitem_mono; [exact Hd6|].
    by apply Hcat4. }
  unfold encode_categoricals. rewrite Hd8. cbn [bind].
  destruct (preserves_get_dummies _ _ _ Hd8 Hal6) as [Hal8 Hn8].
  assert (getitem d8 "distance_to_colony_km" = Ok (NumCol ds)) as Hdist8.
  { eapply keeps_get_dummies; [|exact Hd8|by eapply getitem_setitem_eq].
    simpl; intuition discriminate. }
  (* lines 107-112 *)
  unfold normalize, numeric_cols. cbn [List.filter].
  rewrite (getitem_contains _ _ _ Hdist8). cbn [for_each].
  unfold scale_column. rewrite Hdist8. cbn [bind as_float].
  set (xs := map (fun o : option F => match o with
                                      | Some x => x
                                      | None => fzero
                                      end) ds).
  assert (exists ys, StandardScaler_fit_transform xs = Ok ys
                     /\ length ys = length xs) as (ys & -> & Hys).
  { unfold StandardScaler_fit_transform.
    assert (forallb is_finite xs = true) as ->.
    { apply forallb_forall. intros x Hx. unfold xs in Hx.
      apply in_map_iff in Hx as (o & <- & Ho).
      apply list_elem_of_In, list_elem_of_lookup in Ho as [i Hi].
      destruct (Hdsi i) as (km & Hkm & Hfin).
      { rewrite <- Hdslen. by eapply lookup_lt_Some. }
      rewrite Hkm in Hi. by injection Hi as <-. }
    destruct xs as [|x xs'] eqn:E.
    - exfalso. assert (length xs = 0) as Hl by (by rewrite E).
      unfold xs in Hl. rewrite length_map in Hl. lia.
    - eexists. split; [done|]. by rewrite length_map. }
  cbn [bind].
  destruct (setitem_succeeds d8 "distance_to_colony_km" (NumCol (map Some ys)))
    as [d9 ->].
  { simpl. rewrite length_map, Hys. unfold xs. rewrite length_map. congruence. }
  by eexists.
Qed.

End Success.

Section PassThrough.
Context {F : Type} {fl : Float64 F}.
Local Abbreviation Column := (@Column F).
Local Abbreviation DataFrame := (@DataFrame F).

(** A column of the input that is none of those [process_data] works on
    (the date, the time parts and the timestamp, the coordinates, the
    designated categorical columns, the distance and the three temporal
    features) is in the table returned, with the values it had. *)
Theorem process_data_passes_through (h h' : gmap nat DataFrame) (r l : nat)
  (d : DataFrame) (col : string) (v : Column) :
  h !! r = Some d ->
  ~ In col assigned_cols ->
  getitem d col = Ok v ->
  process_data r h = (Ok l, h') ->
  exists d', h' !! l = Some d' /\ getitem d' col = Ok v.
Proof.
  intros Hr Hnin Hv Hrun.
  pose proof (process_data_frame h r d Hr) as Hout. rewrite Hrun in Hout.
  destruct (process_frame d) as [d'|e] eqn:Hd'; simpl in Hout.
  - destruct Hout as (l' & h'' & [= <- <-] & (_ & _ & Hl)).
    exists d'. split; [done|]. by eapply keeps_process_frame.
  - by destruct Hout as (h'' & [=] & _).
Qed.

End PassThrough.

Section ScriptFacts.
Context {F File FS : Type} {fl : Float64 F} {env : Script.Env F File FS}.
Local Abbreviation DataFrame := (@DataFrame F).
Local Abbreviation Sys := (Script.Sys F FS).

(** [load_data] on the system is [loaded] on its file system: the table is
    a new object, and one line is printed. *)
Lemma load_data_run (s : Sys) (data_dir : string) :
  Script.load_data data_dir s
  = match loaded (Script.disk s) data_dir with
    | Ok d =>
        (Ok (fresh (dom (Script.heap s))),
         Script.mkSys (<[fresh (dom (Script.heap s)) := d]> (Script.heap s))
           (Script.disk s)
           (Script.stdout s
            ++ [Script.Text ("Daten geladen: " +:+ Script.shape_text d)]))
    | Raise e => (Raise e, s)
    end.
Proof.
  unfold Script.load_data, loaded, load_data, Script.and_then, Script.read_disk.
  change (Script.os_path_join data_dir "*.csv") with (path_join data_dir "*.csv").
  destruct (Script.glob _ _) as [|f fs]; [done|].
  destruct (traverse _ (f :: fs)) as [dfs|e]; [|done]. cbn [bind].
  unfold Script.lift. by destruct (pd_concat _ dfs).
Qed.

(** [process_data] on the system does what [process_frame] does on the
    table; it touches neither the file system nor the objects there were. *)
Lemma process_data_run (s : Sys) (p : nat) (d : DataFrame) :
  Script.heap s !! p = Some d ->
  match process_frame d with
  | Ok d' =>
      exists l h',
        Script.process_data p s
        = (Ok l,
           Script.mkSys h' (Script.disk s)
             (Script.stdout s
              ++ [Script.Text ("Daten verarbeitet: " +:+ Script.shape_text d')]))
        /\ owned (Script.heap s) h' l d'
  | Raise e =>
      exists h',
        Script.process_data p s
        = (Raise e, Script.mkSys h' (Script.disk s) (Script.stdout s))
        /\ Script.heap s ⊆ h'
  end.
Proof.
  intros Hp. pose proof (process_data_frame (Script.heap s) p d Hp) as Hout.
  unfold Script.process_data, Script.and_then, Script.on_heap.
  destruct (process_frame d) as [d'|e]; simpl in Hout.
  - destruct Hout as (l & h' & -> & Hown). exists l, h'. split; [|done].
    destruct Hown as (_ & _ & Hl). simpl. unfold deref. by rewrite Hl.
  - destruct Hout as (h' & -> & Hsub). by exists h'.
Qed.

(** [save_data] statement by statement. *)
Lemma save_data_run (s : Sys) (p : nat) (d : DataFrame)
  (output_path filename : string) :
  Script.heap s !! p = Some d ->
  Script.save_data p output_path filename s
  = match Script.makedirs output_path (Script.disk s) with
    | (Raise e, fs1) => (Raise e, Script.mkSys (Script.heap s) fs1 (Script.stdout s))
    | (Ok _, fs1) =>
        match Script.to_parquet d (Script.parquet_path output_path filename) fs1 with
        | (Raise e, fs2) =>
            (Raise e, Script.mkSys (Script.heap s) fs2 (Script.stdout s))
        | (Ok _, fs2) =>
            let out :=
              Script.stdout s
              ++ [Script.Text ("Daten als Parquet gespeichert: "
                               +:+ Script.parquet_path output_path filename)] in
            match Script.to_csv d (Script.csv_path output_path filename) fs2 with
            | (Raise e, fs3) => (Raise e, Script.mkSys (Script.heap s) fs3 out)
            | (Ok _, fs3) =>
                (Ok tt,
                 Script.mkSys (Script.heap s) fs3
                   (out ++ [Script.Text ("Daten als CSV gespeichert: "
                                         +:+ Script.csv_path output_path filename)]))
            end
        end
    end.
Proof.
  intros Hp.
  unfold Script.save_data, Script.and_then, Script.on_disk, Script.on_heap,
    Script.print, deref. simpl.
  destruct (Script.makedirs _ _) as [[u1|e1] fs1]; simpl; [|done].
  rewrite Hp. simpl.
  destruct (Script.to_parquet _ _ _) as [[u2|e2] fs2]; simpl; [|done].
  rewrite Hp. simpl.
  by destruct (Script.to_csv _ _ _) as [[u3|e3] fs3].
Qed.

Lemma last_snoc {A} (l : list A) (x : A) : last (l ++ [x]) = Some x.
Proof. by rewrite last_app. Qed.

(** [main] when there is nothing to load: the exception of line 19 is
    reported and raised again; no object is made, no directory, no file. *)
Theorem main_without_input (s : Sys) :
  Script.glob "./data/*.csv" (Script.disk s) = [] ->
  Script.main s
  = (Raise FileNotFoundError,
     Script.mkSys (Script.heap s) (Script.disk s)
       (Script.stdout s
        ++ [Script.Text "Starte Datenverarbeitung";
            Script.Failure FileNotFoundError])).
Proof.
  intros Hglob.
  unfold Script.main, Script.and_then, Script.try_except.
  cbn [Script.print]. rewrite load_data_run.
  unfold loaded, load_data. cbn [Script.disk].
  change (path_join "./data" "*.csv") with "./data/*.csv". rewrite Hglob.
  cbn. by rewrite <- app_assoc.
Qed.

(** When loading or processing raises, [main] raises the same exception
    after reporting it, and the file system is as it was: nothing is written
    before the table has been processed. *)
Theorem main_failure_writes_nothing (s : Sys) (e : Exception) :
  processed (Script.disk s) = Raise e ->
  (Script.main s).1 = Raise e
  /\ Script.disk (Script.main s).2 = Script.disk s
  /\ Script.heap s ⊆ Script.heap (Script.main s).2
  /\ last (Script.stdout (Script.main s).2) = Some (Script.Failure e).
Proof.
  intros Hproc. unfold processed in Hproc.
  unfold Script.main, Script.and_then, Script.try_except.
  cbn [Script.print]. rewrite load_data_run. cbn [Script.disk Script.heap Script.stdout].
  destruct (loaded (Script.disk s) "./data") as [d|e0]; simpl in Hproc.
  - set (l0 := fresh (dom (Script.heap s))).
    match goal with
    | |- context [Script.process_data l0 ?s1] =>
        pose proof (process_data_run s1 l0 d) as Hrun
    end.
    cbn [Script.heap Script.disk Script.stdout] in Hrun.
    rewrite Hproc in Hrun.
    destruct Hrun as (h' & -> & Hsub); [apply lookup_insert_eq|].
    cbn. repeat split; try done.
    + etrans; [|exact Hsub]. apply insert_subseteq.
      apply not_elem_of_dom, is_fresh.
    + apply last_snoc.
  - injection Hproc as ->. cbn. repeat split; try done. apply last_snoc.
Qed.

(** When loading and processing return and the three calls on the file
    system do, [main] returns: the directory is made, then the processed
    table is written as Parquet and as CSV under the fixed names, and the
    six lines are printed in order. *)
Theorem main_saves_processed (s : Sys) (d d' : DataFrame) (fs1 fs2 fs3 : FS) :
  loaded (Script.disk s) "./data" = Ok d ->
  process_frame d = Ok d' ->
  Script.makedirs "./data/processed" (Script.disk s) = (Ok tt, fs1) ->
  Script.to_parquet d' "./data/processed/penguin_tracking_processed.parquet" fs1
  = (Ok tt, fs2) ->
  Script.to_csv d' "./data/processed/penguin_tracking_processed.csv" fs2
  = (Ok tt, fs3) ->
  (Script.main s).1 = Ok tt
  /\ Script.disk (Script.main s).2 = fs3
  /\ Script.heap s ⊆ Script.heap (Script.main s).2
  /\ Script.stdout (Script.main s).2
     = Script.stdout s
       ++ [Script.Text "Starte Datenverarbeitung";
           Script.Text ("Daten geladen: " +:+ Script.shape_text d);
           Script.Text ("Daten verarbeitet: " +:+ Script.shape_text d');
           Script.Text "Daten als Parquet gespeichert: ./data/processed/penguin_tracking_processed.parquet";
           Script.Text "Daten als CSV gespeichert: ./data/processed/penguin_tracking_processed.csv";
           Script.Text "Datenverarbeitung erfolgreich abgeschlossen"].
Proof.
  intros Hload Hproc Hmk Hpq Hcsv.
  unfold Script.main, Script.and_then, Script.try_except.
  cbn [Script.print]. rewrite load_data_run.
  cbn [Script.disk Script.heap Script.stdout]. rewrite Hload.
  set (l0 := fresh (dom (Script.heap s))).
  match goal with
  | |- context [Script.process_data l0 ?s1] =>
      pose proof (process_data_run s1 l0 d) as Hrun
  end.
  cbn [Script.heap Script.disk Script.stdout] in Hrun. rewrite Hproc in Hrun.
  destruct Hrun as (l & h' & -> & Hown); [apply lookup_insert_eq|].
  destruct Hown as (Hsub & _ & Hl).
  rewrite (save_data_run _ l d') by exact Hl.
  cbn [Script.heap Script.disk Script.stdout].
  change (Script.parquet_path "./data/processed" "penguin_tracking_processed")
    with "./data/processed/penguin_tracking_processed.parquet".
  change (Script.csv_path "./data/processed" "penguin_tracking_processed")
    with "./data/processed/penguin_tracking_processed.csv".
  rewrite Hmk, Hpq. cbn zeta. rewrite Hcsv. cbn.
  repeat split.
  - etrans; [|exact Hsub]. apply insert_subseteq.
    apply not_elem_of_dom, is_fresh.
  - by rewrite <- !app_assoc.
Qed.

(** Whatever happens, [main] prints its first line after what was there and
    ends with a verdict: the last line is the message of success exactly when
    it returns, and the report of the exception it raises otherwise. *)
Theorem main_reports_outcome (s : Sys) :
  (exists ls, Script.stdout (Script.main s).2
              = Script.stdout s ++ Script.Text "Starte Datenverarbeitung" :: ls)
  /\ last (Script.stdout (Script.main s).2)
     = Some match (Script.main s).1 with
            | Ok _ => Script.Text "Datenverarbeitung erfolgreich abgeschlossen"
            | Raise e => Script.Failure e
            end.
Proof.
  unfold Script.main, Script.and_then, Script.try_except.
  cbn [Script.print]. rewrite load_data_run.
  cbn [Script.disk Script.heap Script.stdout].
  destruct (loaded (Script.disk s) "./data") as [d|e0].
  2: { cbn. split; [|apply last_snoc]. rewrite <- app_assoc. by eexists. }
  set (l0 := fresh (dom (Script.heap s))).
  match goal with
  | |- context [Script.process_data l0 ?s1] =>
      pose proof (process_data_run s1 l0 d) as Hrun
  end.
  cbn [Script.heap Script.disk Script.stdout] in Hrun.
  destruct (process_frame d) as [d'|e1].
  2: { destruct Hrun as (h' & -> & _); [apply lookup_insert_eq|]. cbn.
       split; [|apply last_snoc]. rewrite <- !app_assoc. by eexists. }
  destruct Hrun as (l & h' & -> & (_ & _ & Hl)); [apply lookup_insert_eq|].
  rewrite (save_data_run _ l d') by exact Hl.
  cbn [Script.heap Script.disk Script.stdout].
  destruct (Script.makedirs _ _) as [[u1|e1] fs1].
  2: { cbn. split; [|apply last_snoc]. rewrite <- !app_assoc. by eexists. }
  destruct (Script.to_parquet _ _ _) as [[u2|e2] fs2].
  2: { cbn. split; [|apply last_snoc]. rewrite <- !app_assoc. by eexists. }
  cbn zeta.
  destruct (Script.to_csv _ _ _) as [[u3|e3] fs3].
  2: { cbn. split; [|apply last_snoc]. rewrite <- !app_assoc. by eexists. }
  cbn. split; [|apply last_snoc]. rewrite <- !app_assoc. by eexists.
Qed.

End ScriptFacts.


Section MergeScript.
Context {F File FS : Type} {fl : Float64 F} {env : Script.Env F File FS}.
Local Abbreviation DataFrame := (@DataFrame F).
Local Abbreviation Sys := (Script.Sys F FS).

(** [merge_parquet_files] once the output directory is made: the files are
    looked for in the file system as it then is; if reading, concatenating or
    cleaning raises, the exception goes up with nothing written and nothing
    printed; otherwise the cleaned table is written once, under the fixed
    name, and one line is printed if the writer returns. *)
Theorem merge_parquet_files_writes_cleaned (s : Sys) (fs1 : FS) :
  Script.makedirs "data/processed" (Script.disk s) = (Ok tt, fs1) ->
  Script.merge_parquet_files s
  = match merged fs1 with
    | Raise e => (Raise e, Script.mkSys (Script.heap s) fs1 (Script.stdout s))
    | Ok d =>
        match Script.to_parquet d
                "data/processed/yellow_tripdata_2024_merged.parquet" fs1 with
        | (Ok _, fs2) =>
            (Ok tt,
             Script.mkSys (Script.heap s) fs2
               (Script.stdout s
                ++ [Script.Text "Merged and cleaned data saved to data/processed/yellow_tripdata_2024_merged.parquet"]))
        | (Raise e, fs2) =>
            (Raise e, Script.mkSys (Script.heap s) fs2 (Script.stdout s))
        end
    end.
Proof.
  intros Hmk.
  unfold Script.merge_parquet_files, merged, merge_parquet_files,
    Script.and_then, Script.on_disk, Script.read_disk, Script.lift, Script.print.
  rewrite Hmk. cbn [fst snd Script.disk Script.heap Script.stdout].
  destruct (traverse _ (Script.glob _ fs1)) as [dfs|e]; [|done]. cbn [bind].
  destruct (pd_concat _ dfs) as [d0|e]; [|done]. cbn [bind].
  destruct (clean_data d0) as [d|e]; [|done].
  change ("data/processed" +:+ "/yellow_tripdata_2024_merged.parquet")
    with "data/processed/yellow_tripdata_2024_merged.parquet".
  by destruct (Script.to_parquet _ _ _) as [[u|e] fs2].
Qed.

(** With no file matching, [merge_parquet_files] has made the output
    directory by the time [pd.concat] raises [ValueError]; nothing else has
    changed. *)
Theorem merge_without_input_makes_directory (s : Sys) (fs1 : FS) :
  Script.makedirs "data/processed" (Script.disk s) = (Ok tt, fs1) ->
  Script.glob "data/raw/yellow_tripdata_2024-*.parquet" fs1 = [] ->
  Script.merge_parquet_files s
  = (Raise ValueError, Script.mkSys (Script.heap s) fs1 (Script.stdout s)).
Proof.
  intros Hmk Hglob.
  unfold Script.merge_parquet_files, Script.and_then, Script.on_disk,
    Script.read_disk, Script.lift.
  rewrite Hmk. cbn [fst snd Script.disk Script.heap Script.stdout].
  by rewrite Hglob.
Qed.

End MergeScript.

Section SavePaths.

Lemma append_assoc (a b c : string) : (a +:+ b) +:+ c = a +:+ (b +:+ c).
Proof.
  induction a as [|x a IH]; [done|].
  change (String x ((a +:+ b) +:+ c) = String x (a +:+ (b +:+ c))).
  by f_equal.
Qed.

Lemma append_empty_r (a : string) : a +:+ "" = a.
Proof.
  induction a as [|x a IH]; [done|].
  change (String x (a +:+ "") = String x a). by f_equal.
Qed.

Lemma starts_with_slash_append (f ext : string) :
  Script.starts_with_slash ext = false ->
  Script.starts_with_slash (f +:+ ext) = Script.starts_with_slash f.
Proof. by destruct f. Qed.

Lemma path_join_prefix (a b : string) : path_join a b = path_join a "" +:+ b.
Proof.
  unfold path_join. destruct a as [|x a]; [done|].
  destruct (ends_with_slash (String x a)).
  - by rewrite append_empty_r.
  - by rewrite !append_assoc.
Qed.

(** The two paths [save_data] writes to.  A relative [filename] puts both
    files in [output_path], one separator between; an absolute one puts them
    where it says, whatever [output_path] is; and the two paths differ, so
    the CSV file never replaces the Parquet file. *)
Theorem save_paths (output_path filename : string) :
  Script.parquet_path output_path filename
  <> Script.csv_path output_path filename
  /\ (Script.starts_with_slash filename = false ->
      Script.parquet_path output_path filename
      = path_join output_path "" +:+ filename +:+ ".parquet"
      /\ Script.csv_path output_path filename
         = path_join output_path "" +:+ filename +:+ ".csv")
  /\ (Script.starts_with_slash filename = true ->
      Script.parquet_path output_path filename = filename +:+ ".parquet"
      /\ Script.csv_path output_path filename = filename +:+ ".csv").
Proof.
  unfold Script.parquet_path, Script.csv_path, Script.os_path_join.
  rewrite !starts_with_slash_append by done.
  destruct (Script.starts_with_slash filename).
  - split; [|split; [done|done]].
    intros Heq. by apply String.app_inj in Heq.
  - rewrite (path_join_prefix _ (filename +:+ ".parquet")),
      (path_join_prefix _ (filename +:+ ".csv")).
    split; [|split; [done|done]].
    intros Heq. by do 2 apply String.app_inj in Heq.
Qed.

End SavePaths.


#[export] Instance FixedPoint_laws : Float64Laws FixedPoint.
Proof.
  split.
  - intros x y z. apply Z.le_trans.
  - intros x y. simpl in *. lia.
Qed.

#[export] Instance FixedPoint_ints : Float64Ints FixedPoint.
Proof.
  split. intros z _. simpl. unfold of_Z, fx_int_key. simpl.
  unfold fx_of_decimal. simpl. rewrite Z.div_1_r.
  rewrite Z.mod_mul by lia. simpl. by rewrite Z.div_mul by lia.
Qed.

Lemma mode_fill_least_mode_witness :
  exists d' c' m,
    impute_mode sex_sample "Sex" = Ok d'
    /\ getitem d' "Sex" = Ok c'
    /\ is_mode m sex_column
    /\ any (isna_col c') = false
    /\ forall i, i < nrows sex_sample ->
         cell_at c' i
         = if isna (cell_at sex_column i) then m else cell_at sex_column i.
Proof.
  apply (mode_fill_least_mode sex_sample "Sex" sex_column).
  - repeat constructor.
  - reflexivity.
  - exists (CStr "b"). split; [simpl; auto|reflexivity].
Defined.

(** In [sex_sample] the value met first among the most frequent is "b", and
    the missing value is filled with "a". *)
Lemma mode_fill_tie_not_first :
  ~ (exists d' m,
       first_mode [Some "b"; Some "a"; None] = Some m
       /\ impute_mode sex_sample "Sex" = Ok d'
       /\ getitem d' "Sex" = Ok (ObjCol (fillna m [Some "b"; Some "a"; None]))).
Proof.
  intros (d' & m & Hm & Hd & Hg).
  vm_compute in Hm. injection Hm as <-.
  vm_compute in Hd. injection Hd as <-.
  vm_compute in Hg. discriminate Hg.
Qed.

Lemma knn_keeps_present_witness :
  coordinate coords_imputed "Latitude" 0 = Some (-6200)%Z
  /\ coordinate coords_imputed "Longitude" 0 = Some (-5800)%Z.
Proof.
  apply (knn_keeps_present coords_sample coords_imputed 0); reflexivity.
Defined.

Lemma clean_data_conjunction_witness :
  clean_data trip_sample = Ok (select_rows [true; false; false] trip_sample)
  /\ iterrows (select_rows [true; false; false] trip_sample)
     = take_mask [true; false; false] (iterrows trip_sample)
  /\ trip_mask (select_rows [true; false; false] trip_sample)
     = Ok (repeat true (nrows (select_rows [true; false; false] trip_sample)))
  /\ forall fs, fs ≡ₚ trip_filters ->
       for_each fs (fun d f => f d) trip_sample
       = Ok (select_rows [true; false; false] trip_sample).
Proof.
  apply (clean_data_conjunction trip_sample [true; false; false]).
  - repeat constructor.
  - reflexivity.
Defined.

Lemma row_count_preserved_witness :
  Forall preserves stages
  /\ exists d',
       (process_data 0 {[0 := tracking_sample]}).2 !! 3 = Some d'
       /\ process_frame tracking_sample = Ok d'
       /\ aligned d' /\ nrows d' = nrows tracking_sample.
Proof.
  apply (row_count_preserved {[0 := tracking_sample]} 0 tracking_sample 3
           (process_data 0 {[0 := tracking_sample]}).2).
  - reflexivity.
  - repeat constructor.
  - vm_compute. reflexivity.
Defined.

Lemma process_data_leaves_input_witness :
  (process_data 0 {[0 := tracking_sample]}).2 !! 0 = Some tracking_sample
  /\ {[0 := tracking_sample]} ⊆ (process_data 0 {[0 := tracking_sample]}).2
  /\ forall l, (process_data 0 {[0 := tracking_sample]}).1 = Ok l ->
       l <> 0 /\ ({[0 := tracking_sample]} : gmap nat DataFrame) !! l = None
       /\ is_Some ((process_data 0 {[0 := tracking_sample]}).2 !! l).
Proof.
  apply (process_data_leaves_input {[0 := tracking_sample]} 0 tracking_sample).
  reflexivity.
Defined.

Lemma unparseable_date_is_null_witness :
  (contains tracking_sample "TimeGMT" = false ->
   exists d', compose_timestamps tracking_sample = Ok d')
  /\ (forall xs,
        getitem tracking_sample "TimeGMT" = Ok (ObjCol xs) ->
        max_list (map (fun o => length (split_row ":" o)) xs) = 3 ->
        (forall o piece, In o xs -> In (Some piece) (split_row ":" o) ->
                         is_Some (float_of_str piece)) ->
        (forall i o, xs !! i = Some o ->
           is_ok (row_timestamp (date_of_cell (cell_at tracking_dates i)) o)
           = true) ->
        exists d' ts,
          compose_timestamps tracking_sample = Ok d'
          /\ getitem d' "Timestamp" = Ok (TimeCol ts)
          /\ forall i o, xs !! i = Some o ->
               exists y,
                 row_timestamp (date_of_cell (cell_at tracking_dates i)) o
                 = Ok y
                 /\ ts !! i = Some y)
  /\ forall d' i,
       compose_timestamps tracking_sample = Ok d' ->
       i < nrows tracking_sample ->
       date_of_cell (cell_at tracking_dates i) = None ->
       (exists c', getitem d' "DateGMT" = Ok c' /\ cell_at c' i = CNa)
       /\ (contains tracking_sample "TimeGMT" = true ->
           exists t, getitem d' "Timestamp" = Ok t /\ cell_at t i = CNa).
Proof.
  apply (unparseable_date_is_null tracking_sample tracking_dates).
  - repeat constructor.
  - reflexivity.
Defined.

(** Composing the timestamp raises on well-typed tables that have both the
    date and the time of day. *)
Lemma compose_timestamps_raises :
  compose_timestamps short_time_sample = Raise ValueError
  /\ compose_timestamps late_hour_sample = Raise ValueError
  /\ compose_timestamps bad_piece_sample = Raise ValueError.
Proof. repeat split; vm_compute; reflexivity. Qed.

(** Three tables, each without one column: without the time of day
    [process_data] skips the steps that need it and returns; without a
    designated categorical column it raises [KeyError] (line 104), and so it
    does without a coordinate column (line 83). *)
Lemma absent_column_outcomes :
  is_ok (process_data 0 {[0 := no_time_sample]}).1 = true
  /\ (process_data 0 {[0 := no_sex_sample]}).1 = Raise KeyError
  /\ (process_data 0 {[0 := no_longitude_sample]}).1 = Raise KeyError.
Proof. repeat split; vm_compute; reflexivity. Qed.

Lemma absent_categorical_raises_witness :
  is_ok (process_data 0 {[0 := no_sex_sample]}).1 = false.
Proof.
  apply (absent_categorical_raises {[0 := no_sex_sample]} 0 no_sex_sample "Sex").
  - simpl; auto.
  - reflexivity.
  - reflexivity.
Defined.

(** * Runs on the sample tables *)

Example strptime_day_first :
  strptime_dmy "05/07/2021" = Some (mkTimestamp 2021 7 5 0 0 0).
Proof. reflexivity. Qed.

Example strptime_one_digit :
  strptime_dmy "5/7/2021" = Some (mkTimestamp 2021 7 5 0 0 0).
Proof. reflexivity. Qed.

Example strptime_impossible_date : strptime_dmy "31/02/2021" = None.
Proof. reflexivity. Qed.

Example strptime_other_format : strptime_dmy "2021-07-05" = None.
Proof. reflexivity. Qed.

Example strptime_trailing_text : strptime_dmy "05/07/2021 12:00" = None.
Proof. reflexivity. Qed.

Example split_trailing_separator : split_on ":" "12:30:" = ["12"; "30"; ""].
Proof. reflexivity. Qed.

(** The impossible date gives no timestamp; the missing time of day and the
    missing seconds count as zero. *)
Example tracking_timestamps :
  (d <- compose_timestamps tracking_sample ;; getitem d "Timestamp")
  = Ok (TimeCol [Some (mkTimestamp 2021 7 5 12 30 45); None;
                 Some (mkTimestamp 2021 1 6 0 0 0)]).
Proof. vm_compute. reflexivity. Qed.

Example tracking_labels :
  (d <- process_frame tracking_sample ;; Ok (map fst (columns d)))
  = Ok ["DateGMT"; "TimeGMT"; "Latitude"; "Longitude"; "Timestamp";
        "distance_to_colony_km"; "hour_of_day"; "month"; "season";
        "Sex_a"; "Sex_b"; "Sex_nan"; "Age_adult"; "Age_chick"; "Age_nan";
        "Breed Stage_x"; "Breed Stage_nan";
        "ArgosQuality_1.00"; "ArgosQuality_2.00"; "ArgosQuality_nan"].
Proof. vm_compute. reflexivity. Qed.

Example tracking_seasons :
  (d <- process_frame tracking_sample ;; getitem d "season")
  = Ok (ObjCol [Some "Winter"; None; Some "Sommer"]).
Proof. vm_compute. reflexivity. Qed.

Example trip_cleaned :
  clean_data trip_sample
  = Ok (mkDF 1
          [("pickup_datetime", TimeCol [Some (mkTimestamp 2024 1 5 8 0 0)]);
           ("dropoff_datetime", TimeCol [Some (mkTimestamp 2024 1 5 8 30 0)]);
           ("fare_amount", NumCol [Some 1250%Z]);
           ("trip_distance", NumCol [Some 320%Z])]).
Proof. vm_compute. reflexivity. Qed.

(** * Runs of the scripts on the sample file system *)

Lemma main_without_input_witness :
  Script.main (env := sample_env) (boot empty_disk)
  = (Raise FileNotFoundError,
     Script.mkSys ∅ empty_disk
       [Script.Text "Starte Datenverarbeitung"; Script.Failure FileNotFoundError]).
Proof. apply (main_without_input (env := sample_env) (boot empty_disk)). reflexivity. Defined.

Lemma main_failure_writes_nothing_witness :
  (Script.main (env := sample_env) (boot broken_disk)).1 = Raise KeyError
  /\ Script.disk (Script.main (env := sample_env) (boot broken_disk)).2
     = broken_disk
  /\ (∅ : gmap nat (@DataFrame Z))
     ⊆ Script.heap (Script.main (env := sample_env) (boot broken_disk)).2
  /\ last (Script.stdout (Script.main (env := sample_env) (boot broken_disk)).2)
     = Some (Script.Failure KeyError).
Proof.
  apply (main_failure_writes_nothing (env := sample_env) (boot broken_disk)).
  vm_compute. reflexivity.
Defined.

Lemma main_saves_processed_witness :
  (Script.main (env := sample_env) (boot tracking_disk)).1 = Ok tt
  /\ Script.disk (Script.main (env := sample_env) (boot tracking_disk)).2
     = mkDisk
         [("./data/tracks.csv", tracking_sample);
          ("./data/processed/penguin_tracking_processed.parquet",
           tracking_processed);
          ("./data/processed/penguin_tracking_processed.csv",
           tracking_processed)]
         ["./data"; "./data/processed"]
  /\ (∅ : gmap nat (@DataFrame Z))
     ⊆ Script.heap (Script.main (env := sample_env) (boot tracking_disk)).2
  /\ Script.stdout (Script.main (env := sample_env) (boot tracking_disk)).2
     = [] ++ [Script.Text "Starte Datenverarbeitung";
              Script.Text ("Daten geladen: "
                           +:+ Script.shape_text tracking_sample);
              Script.Text ("Daten verarbeitet: "
                           +:+ Script.shape_text tracking_processed);
              Script.Text "Daten als Parquet gespeichert: ./data/processed/penguin_tracking_processed.parquet";
              Script.Text "Daten als CSV gespeichert: ./data/processed/penguin_tracking_processed.csv";
              Script.Text "Datenverarbeitung erfolgreich abgeschlossen"].
Proof.
  apply (main_saves_processed (env := sample_env) (boot tracking_disk)
           tracking_sample tracking_processed
           (mkDisk [("./data/tracks.csv", tracking_sample)]
                   ["./data"; "./data/processed"])
           (mkDisk [("./data/tracks.csv", tracking_sample);
                    ("./data/processed/penguin_tracking_processed.parquet",
                     tracking_processed)]
                   ["./data"; "./data/processed"])).
  - reflexivity.
  - vm_compute. reflexivity.
  - reflexivity.
  - reflexivity.
  - reflexivity.
Defined.

Lemma merge_parquet_files_writes_cleaned_witness :
  Script.merge_parquet_files (env := sample_env) (boot trip_disk)
  = (Ok tt,
     Script.mkSys ∅
       (mkDisk
          [("data/raw/yellow_tripdata_2024-01.parquet", trip_sample);
           ("data/processed/yellow_tripdata_2024_merged.parquet",
            select_rows [true; false; false] trip_sample)]
          ["data/raw"; "data/processed"])
       [Script.Text "Merged and cleaned data saved to data/processed/yellow_tripdata_2024_merged.parquet"]).
Proof.
  rewrite (merge_parquet_files_writes_cleaned (env := sample_env)
             (boot trip_disk)
             (mkDisk (disk_files trip_disk) ["data/raw"; "data/processed"]))
    by reflexivity.
  vm_compute. reflexivity.
Defined.

Lemma merge_without_input_makes_directory_witness :
  Script.merge_parquet_files (env := sample_env) (boot empty_disk)
  = (Raise ValueError, Script.mkSys ∅ (mkDisk [] ["data/processed"]) []).
Proof.
  apply (merge_without_input_makes_directory (env := sample_env)
           (boot empty_disk) (mkDisk [] ["data/processed"])); reflexivity.
Defined.


(** * Runs of [process_data] on the sample table *)

Lemma process_data_passes_through_witness :
  exists d',
    (process_data 0 {[0 := tracking_sample]}).2 !! 3 = Some d'
    /\ getitem d' "TimeGMT" = Ok (ObjCol [Some "12:30:45"; Some "01:02"; None]).
Proof.
  apply (process_data_passes_through {[0 := tracking_sample]}
           (process_data 0 {[0 := tracking_sample]}).2 0 3 tracking_sample
           "TimeGMT").
  - reflexivity.
  - vm_compute. intuition discriminate.
  - reflexivity.
  - vm_compute. reflexivity.
Defined.

Lemma process_data_output_labels_witness :
  exists d',
    (process_data 0 {[0 := tracking_sample]}).2 !! 3 = Some d'
    /\ (forall c, In c categorical_cols -> contains d' c = false)
    /\ (forall c, contains d' c = true ->
                  contains tracking_sample c = true \/ new_label c).
Proof.
  apply (process_data_output_labels {[0 := tracking_sample]}
           (process_data 0 {[0 := tracking_sample]}).2 0 3 tracking_sample).
  - reflexivity.
  - vm_compute. reflexivity.
Defined.

Lemma process_data_not_reapplicable_witness :
  is_ok (process_data 3 (process_data 0 {[0 := tracking_sample]}).2).1 = false.
Proof.
  apply (process_data_not_reapplicable {[0 := tracking_sample]}
           (process_data 0 {[0 := tracking_sample]}).2 0 3 tracking_sample).
  - reflexivity.
  - vm_compute. reflexivity.
Defined.

Lemma time_parts_dropped_witness :
  exists d',
    (process_data 0 {[0 := tracking_sample]}).2 !! 3 = Some d'
    /\ contains d' "hour" = false.
Proof.
  apply (time_parts_dropped {[0 := tracking_sample]}
           (process_data 0 {[0 := tracking_sample]}).2 0 3 tracking_sample
           "hour").
  - reflexivity.
  - reflexivity.
  - simpl. tauto.
  - vm_compute. reflexivity.
Defined.

Lemma process_data_adds_features_witness :
  exists d',
    (process_data 0 {[0 := tracking_sample]}).2 !! 3 = Some d'
    /\ (exists ts, getitem d' "DateGMT" = Ok (TimeCol ts))
    /\ (exists ys,
          getitem d' "distance_to_colony_km" = Ok (NumCol (map Some ys)))
    /\ (forall p, In p categorical_cols -> contains d' (p +:+ "_nan") = true)
    /\ (contains tracking_sample "TimeGMT" = true ->
        (exists ts, getitem d' "Timestamp" = Ok (TimeCol ts))
        /\ contains d' "hour_of_day" = true
        /\ contains d' "month" = true
        /\ contains d' "season" = true).
Proof.
  apply (process_data_adds_features {[0 := tracking_sample]}
           (process_data 0 {[0 := tracking_sample]}).2 0 3 tracking_sample).
  - reflexivity.
  - vm_compute. reflexivity.
Defined.


Lemma missing_date_raises_witness :
  (process_data 0 {[0 := no_date_sample]}).1 = Raise KeyError.
Proof.
  apply (missing_date_raises {[0 := no_date_sample]} 0 no_date_sample);
    reflexivity.
Defined.

Lemma empty_table_raises_witness :
  is_ok (process_data 0 {[0 := empty_sample]}).1 = false.
Proof.
  apply (empty_table_raises {[0 := empty_sample]} 0 empty_sample).
  - reflexivity.
  - repeat constructor.
  - reflexivity.
Defined.

Lemma coords_to_numeric_total_witness :
  exists d',
    coords_to_numeric tracking_sample = Ok d'
    /\ (forall col, In col position_cols ->
          match getitem tracking_sample col with
          | Ok c => getitem d' col = Ok (to_numeric c)
          | Raise _ => contains d' col = false
          end)
    /\ forall c, ~ In c position_cols ->
         getitem d' c = getitem tracking_sample c.
Proof.
  apply (coords_to_numeric_total tracking_sample). repeat constructor.
Defined.

Lemma knn_impute_completes_witness :
  exists lat' lon',
    getitem coords_imputed "Latitude" = Ok lat'
    /\ getitem coords_imputed "Longitude" = Ok lon'
    /\ any (isna_col lat') = false /\ any (isna_col lon') = false.
Proof.
  apply (knn_impute_completes coords_sample coords_imputed
           (NumCol [Some (-6200)%Z; None; Some (-6000)%Z])
           (NumCol [Some (-5800)%Z; Some (-5900)%Z; None])); reflexivity.
Defined.

Lemma knn_impute_empty_column_raises_witness :
  knn_impute lost_latitude_sample = Raise ValueError.
Proof.
  apply (knn_impute_empty_column_raises lost_latitude_sample
           [None; None] [Some (-5800)%Z; Some (-5900)%Z]).
  - repeat constructor.
  - simpl. lia.
  - reflexivity.
  - reflexivity.
  - reflexivity.
Defined.

Lemma distance_feature_values_witness :
  exists ds,
    getitem coords_with_distance "distance_to_colony_km" = Ok (NumCol ds)
    /\ length ds = nrows coords_imputed
    /\ forall i, i < nrows coords_imputed ->
         ds !! i
         = Some match [Some (-6200)%Z; Some (-6100)%Z; Some (-6000)%Z] !! i,
                      [Some (-5800)%Z; Some (-5900)%Z; Some (-5850)%Z] !! i with
                | Some (Some x), Some (Some y) =>
                    geodesic_km (x, y) (COLONY_LATITUDE, COLONY_LONGITUDE)
                | _, _ => None
                end.
Proof.
  apply (distance_feature_values coords_imputed coords_with_distance).
  - simpl. lia.
  - reflexivity.
  - reflexivity.
  - reflexivity.
Defined.

Lemma distance_feature_rejects_witness :
  distance_feature beyond_pole_sample = Raise ValueError.
Proof.
  apply (distance_feature_rejects beyond_pole_sample
           [Some (-6200)%Z; Some 9500%Z] [Some (-5800)%Z; Some 0%Z]
           1 9500%Z 0%Z).
  - reflexivity.
  - reflexivity.
  - simpl. lia.
  - reflexivity.
  - reflexivity.
  - reflexivity.
Defined.

Lemma distance_never_missing_witness :
  exists c,
    getitem tracking_encoded "distance_to_colony_km" = Ok c
    /\ any (isna_col c) = false.
Proof.
  apply (distance_never_missing tracking_sample tracking_encoded).
  - repeat constructor.
  - reflexivity.
  - reflexivity.
  - vm_compute. reflexivity.
Defined.


(** * Runs of [clean_data] on the sample tables *)

Lemma clean_data_idempotent_witness :
  clean_data (select_rows [true; false; false] trip_sample)
  = Ok (select_rows [true; false; false] trip_sample).
Proof.
  apply (clean_data_idempotent trip_sample).
  - repeat constructor.
  - vm_compute. reflexivity.
Defined.

Lemma clean_data_keeps_order_witness :
  iterrows (select_rows [true; false; false] trip_sample)
    `sublist_of` iterrows trip_sample
  /\ map fst (columns (select_rows [true; false; false] trip_sample))
     = map fst (columns trip_sample)
  /\ nrows (select_rows [true; false; false] trip_sample) <= nrows trip_sample
  /\ aligned (select_rows [true; false; false] trip_sample).
Proof.
  apply (clean_data_keeps_order trip_sample).
  - repeat constructor.
  - vm_compute. reflexivity.
Defined.

Lemma clean_data_missing_column_witness :
  (clean_data no_fare_sample = Raise KeyError
   \/ clean_data no_fare_sample = Raise TypeError)
  /\ ("fare_amount" <> "trip_distance" ->
      clean_data no_fare_sample = Raise KeyError).
Proof.
  apply (clean_data_missing_column no_fare_sample "fare_amount").
  - simpl. tauto.
  - reflexivity.
Defined.

Lemma clean_data_text_fare_raises_witness :
  clean_data text_fare_sample = Raise TypeError.
Proof.
  apply (clean_data_text_fare_raises text_fare_sample
           (TimeCol [None; Some (mkTimestamp 2024 1 5 8 0 0)])
           (TimeCol [Some (mkTimestamp 2024 1 5 7 0 0);
                     Some (mkTimestamp 2024 1 5 8 30 0)])
           [None; Some "12.50"] 1 "12.50").
  - repeat constructor.
  - reflexivity.
  - reflexivity.
  - reflexivity.
  - simpl. lia.
  - reflexivity.
  - reflexivity.
  - reflexivity.
Defined.


Lemma no_missing_category_at_encoding_witness :
  any (isna_col (ObjCol (F:=Z) [Some "b"; Some "a"; Some "a"])) = false
  /\ In ("Sex" +:+ "_nan",
         BoolCol (repeat false
                    (col_len (ObjCol (F:=Z) [Some "b"; Some "a"; Some "a"]))))
        (dummies_of "Sex" (ObjCol (F:=Z) [Some "b"; Some "a"; Some "a"])).
Proof.
  apply (no_missing_category_at_encoding tracking_sample tracking_featured).
  - vm_compute. reflexivity.
  - simpl. tauto.
  - reflexivity.
Defined.

Lemma all_missing_category_raises_witness :
  is_ok (process_data 0 {[0 := no_sex_values_sample]}).1 = false.
Proof.
  apply (all_missing_category_raises {[0 := no_sex_values_sample]} 0
           no_sex_values_sample "Sex" (ObjCol [None; None; None])).
  - reflexivity.
  - simpl. tauto.
  - reflexivity.
  - simpl. lia.
  - intros [|[|[|i]]] Hi; try reflexivity. simpl in Hi. lia.
Defined.


Lemma season_follows_timestamp_witness :
  exists d' ts,
    (process_data 0 {[0 := tracking_sample]}).2 !! 3 = Some d'
    /\ getitem d' "Timestamp" = Ok (TimeCol ts)
    /\ getitem d' "hour_of_day"
       = Ok (NumCol (map (option_map (fun t => of_Z (hour t))) ts))
    /\ getitem d' "month"
       = Ok (NumCol (map (option_map (fun t => of_Z (month t))) ts))
    /\ getitem d' "season"
       = Ok (ObjCol (map (fun o => match o with
                                   | Some t => dict_get season_mapping (month t)
                                   | None => None
                                   end) ts))
    /\ forall t, In (Some t) ts -> is_Some (dict_get season_mapping (month t)).
Proof.
  apply (season_follows_timestamp {[0 := tracking_sample]}
           (process_data 0 {[0 := tracking_sample]}).2 0 3 tracking_sample).
  - reflexivity.
  - reflexivity.
  - vm_compute. reflexivity.
Defined.


Lemma strptime_round_trip_witness :
  strptime_dmy (date_text 2021 7 5) = Some (mkTimestamp 2021 7 5 0 0 0).
Proof. apply (strptime_round_trip 2021 7 5); reflexivity. Defined.


Lemma process_data_returns_on_complete_witness :
  is_ok (process_data 0 {[0 := complete_sample]}).1 = true.
Proof.
  apply (process_data_returns_on_complete {[0 := complete_sample]} 0
           complete_sample
           [Some (-6200)%Z; Some (-6100)%Z; Some (-6000)%Z]
           [Some (-5800)%Z; Some (-5900)%Z; Some (-5850)%Z]).
  - reflexivity.
  - repeat constructor.
  - simpl. lia.
  - reflexivity.
  - reflexivity.
  - reflexivity.
  - reflexivity.
  - reflexivity.
  - intros [|[|[|i]]] Hi; [| | |simpl in Hi; lia];
      eexists _, _, _; repeat split; reflexivity.
  - intros col [<-|[<-|[<-|[<-|[]]]]]; eexists; (split; [reflexivity|]).
    + exists (CStr "b"). split; [simpl; tauto|reflexivity].
    + exists (CStr "adult"). split; [simpl; tauto|reflexivity].
    + exists (CStr "x"). split; [simpl; tauto|reflexivity].
    + exists (CNum 100%Z). split; [simpl; tauto|reflexivity].
Defined.
